(** * email2pdf: the .msg / .eml extraction core of [email_processor.py]
      and the document layout of [pdf_generator.py]

    A shallow embedding of [EmailProcessor] and of the parts of the Python
    runtime it calls ([str], [bytes], [int.from_bytes], [int / int],
    [datetime], [timedelta]), and of [PDFGenerator] over the calls it makes
    on the canvas, followed by the properties of the extractor and of the
    generator. *)

From Stdlib Require Import ZArith List Lia Bool String Ascii.
From Stdlib Require Import Strings.Byte DecimalString.
Import ListNotations.
Local Open Scope Z_scope.

(** ** The Python values the processor manipulates *)

Module Py.

(** A [str] is a sequence of Unicode code points, a [bytes] a sequence of
    octets. *)
Definition str := list Z.
Definition bytes := list byte.

Definition ord (a : ascii) : Z := Z.of_N (N_of_ascii a).

(** An ASCII literal of the source as a [str]. *)
Definition lit (s : string) : str := map ord (list_ascii_of_string s).

Definition octet (b : byte) : Z := Z.of_N (Byte.to_N b).

(** The exceptions that the modelled calls can raise. *)
Inductive exn : Type :=
| OverflowError
| OSError
| ValueError
| TypeError
| AttributeError
| CompoundFileError.

Fixpoint str_eqb (s t : str) : bool :=
  match s, t with
  | [], [] => true
  | c :: s', d :: t' => (c =? d) && str_eqb s' t'
  | _, _ => false
  end.

(** [s.startswith(p)] *)
Fixpoint startswith (s p : str) : bool :=
  match p with
  | [] => true
  | c :: p' =>
      match s with
      | [] => false
      | d :: s' => (d =? c) && startswith s' p'
      end
  end.

(** [s.endswith(p)] *)
Definition endswith (s p : str) : bool := startswith (rev s) (rev p).

(** [c in s] for a one-character [c]. *)
Definition contains (c : Z) (s : str) : bool := existsb (Z.eqb c) s.

(** [s.replace(old, new)] for one-character [old] and [new]. *)
Definition replace (s : str) (old new : Z) : str :=
  map (fun c => if c =? old then new else c) s.

(** [s[-n:]] for a positive [n]. *)
Definition last_chars (n : nat) (s : str) : str :=
  skipn (List.length s - n)%nat s.

Fixpoint lstrip (c : Z) (s : str) : str :=
  match s with
  | [] => []
  | d :: s' => if d =? c then lstrip c s' else s
  end.

(** [s.rstrip(c)] for a one-character [c]. *)
Definition rstrip (c : Z) (s : str) : str := rev (lstrip c (rev s)).

(** [s.lower()].  Only the ASCII capitals are mapped: no code point outside
    ASCII lowercases to a character of ['.msg'] or ['.eml'], which are the
    only strings a lowercased path is compared with. *)
Definition lower_char (c : Z) : Z :=
  if (65 <=? c) && (c <=? 90) then c + 32 else c.

Definition lower (s : str) : str := map lower_char s.

(** [truthy s] is [bool(s)] for a [str] or [bytes]: non-empty. *)
Definition truthy {A : Type} (s : list A) : bool :=
  match s with
  | [] => false
  | _ :: _ => true
  end.

(** *** [bytes.decode('utf-16-le', errors='ignore')] *)

Fixpoint code_units (b : bytes) : list Z :=
  match b with
  | lo :: hi :: r => (octet lo + 256 * octet hi) :: code_units r
  | _ => []
  end.

Definition is_high_surrogate (u : Z) : bool := (0xD800 <=? u) && (u <=? 0xDBFF).
Definition is_low_surrogate (u : Z) : bool := (0xDC00 <=? u) && (u <=? 0xDFFF).

(** A unit that is no surrogate is a code point; a high surrogate followed by
    a low one is joined; every other unit is an error, which ['ignore']
    skips: a lone low surrogate, a high surrogate before a unit that is not
    low (the scan resumes at that unit), a high surrogate at the end. *)
Fixpoint join_surrogates (u : list Z) : str :=
  match u with
  | [] => []
  | c :: r =>
      if is_high_surrogate c then
        match r with
        | [] => []
        | d :: r' =>
            if is_low_surrogate d
            then (0x10000 + (c - 0xD800) * 0x400 + (d - 0xDC00)) :: join_surrogates r'
            else join_surrogates r
        end
      else if is_low_surrogate c then join_surrogates r
      else c :: join_surrogates r
  end.

Definition decode_utf16le_ignore (b : bytes) : str :=
  join_surrogates (code_units b).

(** *** [int.from_bytes(data, 'little')] *)

Fixpoint int_from_bytes_little (data : bytes) : Z :=
  match data with
  | [] => 0
  | b :: r => octet b + 256 * int_from_bytes_little r
  end.

(** *** [int / int]

    True division of integers gives the binary64 number nearest to the
    exact quotient (ties to even), and raises [OverflowError] when that
    number is not finite.  A float is kept as mantissa and exponent: its
    value is [mant * 2 ^ expo]. *)

Record float : Type := { mant : Z; expo : Z }.

Definition prec : Z := 53.
Definition emax : Z := 1024.
Definition emin : Z := -1074.

(** [n / d] rounded to the nearest integer, ties to the even one. *)
Definition div_half_even (n d : Z) : Z :=
  let q := n / d in
  match 2 * (n mod d) ?= d with
  | Lt => q
  | Gt => q + 1
  | Eq => if Z.even q then q else q + 1
  end.

(** [2 ^ k <= a / b] over the rationals. *)
Definition quot_ge_pow2 (a b k : Z) : bool :=
  if 0 <=? k then b * 2 ^ k <=? a else b <=? a * 2 ^ (- k).

(** The [k] with [2 ^ k <= a / b < 2 ^ (k + 1)], for positive [a] and [b]. *)
Definition quot_log2 (a b : Z) : Z :=
  let k := Z.log2 a - Z.log2 b in
  if quot_ge_pow2 a b k then k else k - 1.

(** [a / b] for [0 <= a] and [0 < b]. *)
Definition int_truediv (a b : Z) : exn + float :=
  if a =? 0 then inr {| mant := 0; expo := 0 |}
  else
    let e := Z.max (quot_log2 a b - (prec - 1)) emin in
    let m := if 0 <=? e then div_half_even a (b * 2 ^ e)
             else div_half_even (a * 2 ^ (- e)) b in
    if (0 <=? e) && (2 ^ emax <=? m * 2 ^ e) then inl OverflowError
    else inr {| mant := m; expo := e |}.

(** [round(x)] of a float: the nearest integer, ties to even. *)
Definition round_float (x : float) : Z :=
  if 0 <=? expo x then mant x * 2 ^ expo x
  else div_half_even (mant x) (2 ^ (- expo x)).

(** *** [datetime.timedelta] *)

Record timedelta : Type := { days : Z; seconds : Z; microseconds : Z }.

(** Normalisation of a duration given in whole microseconds, as the
    constructor does it; more than 999999999 days either way is refused. *)
Definition timedelta_normalize (d s us : Z) : exn + timedelta :=
  let s := s + us / 1000000 in
  let us := us mod 1000000 in
  let d := d + s / 86400 in
  let s := s mod 86400 in
  if 999999999 <? Z.abs d then inl OverflowError
  else inr {| days := d; seconds := s; microseconds := us |}.

(** [timedelta(microseconds=x)] for a float [x]. *)
Definition timedelta_microseconds (x : float) : exn + timedelta :=
  timedelta_normalize 0 0 (round_float x).

(** *** [datetime.datetime] (naive), with the calendar arithmetic of the
    standard library *)

Record datetime : Type :=
  { year : Z; month : Z; day : Z;
    hour : Z; minute : Z; second : Z; microsecond : Z }.

Definition _MAXORDINAL : Z := 3652059.
Definition _DI400Y : Z := 146097.
Definition _DI100Y : Z := 36524.
Definition _DI4Y : Z := 1461.

Definition _is_leap (y : Z) : bool :=
  (y mod 4 =? 0) && (negb (y mod 100 =? 0) || (y mod 400 =? 0)).

Definition _days_before_year (y : Z) : Z :=
  let y := y - 1 in
  y * 365 + y / 4 - y / 100 + y / 400.

Definition _DAYS_IN_MONTH (m : Z) : Z :=
  nth (Z.to_nat m) [-1; 31; 28; 31; 30; 31; 30; 31; 31; 30; 31; 30; 31] 0.

Definition _DAYS_BEFORE_MONTH (m : Z) : Z :=
  nth (Z.to_nat m) [-1; 0; 31; 59; 90; 120; 151; 181; 212; 243; 273; 304; 334] 0.

Definition _days_before_month (y m : Z) : Z :=
  _DAYS_BEFORE_MONTH m + (if (2 <? m) && _is_leap y then 1 else 0).

Definition _ymd2ord (y m d : Z) : Z :=
  _days_before_year y + _days_before_month y m + d.

Definition _ord2ymd (n : Z) : Z * Z * Z :=
  let n := n - 1 in
  let n400 := n / _DI400Y in
  let n := n mod _DI400Y in
  let y := n400 * 400 + 1 in
  let n100 := n / _DI100Y in
  let n := n mod _DI100Y in
  let n4 := n / _DI4Y in
  let n := n mod _DI4Y in
  let n1 := n / 365 in
  let n := n mod 365 in
  let y := y + n100 * 100 + n4 * 4 + n1 in
  if (n1 =? 4) || (n100 =? 4) then (y - 1, 12, 31)
  else
    let leapyear := (n1 =? 3) && (negb (n4 =? 24) || (n100 =? 3)) in
    let m := Z.shiftr (n + 50) 5 in
    let preceding := _DAYS_BEFORE_MONTH m + (if (2 <? m) && leapyear then 1 else 0) in
    if n <? preceding then
      let m := m - 1 in
      let preceding :=
        preceding - (_DAYS_IN_MONTH m + (if (m =? 2) && leapyear then 1 else 0)) in
      (y, m, n - preceding + 1)
    else (y, m, n - preceding + 1).

Definition toordinal (t : datetime) : Z := _ymd2ord (year t) (month t) (day t).

(** [timedelta + timedelta] *)
Definition timedelta_add (a b : timedelta) : exn + timedelta :=
  timedelta_normalize (days a + days b) (seconds a + seconds b)
                      (microseconds a + microseconds b).

(** [datetime + timedelta] *)
Definition datetime_add (t : datetime) (other : timedelta) : exn + datetime :=
  match timedelta_normalize (toordinal t)
          (hour t * 3600 + minute t * 60 + second t) (microsecond t) with
  | inl e => inl e
  | inr delta =>
      match timedelta_add delta other with
      | inl e => inl e
      | inr delta =>
          let h := seconds delta / 3600 in
          let rem := seconds delta mod 3600 in
          if (0 <? days delta) && (days delta <=? _MAXORDINAL) then
            let '(y, m, d) := _ord2ymd (days delta) in
            inr {| year := y; month := m; day := d;
                   hour := h; minute := rem / 60; second := rem mod 60;
                   microsecond := microseconds delta |}
          else inl OverflowError
      end
  end.

End Py.

(** ** The processor *)

Module EmailProcessor.
Import Py.

(** *** Values, the record and the session state *)

(** The values stored in [email_data].  The marker of a timestamp that
    could not be decoded is the string ["Unknown"], as in the source. *)
Inductive value : Type :=
| PyNone
| PyStr (s : str)
| PyList (l : list str)
| PyDatetime (t : datetime)
| PyDatetimeTz (t : datetime) (utcoffset : Z).

(** [bool(v)] *)
Definition bool_of (v : value) : bool :=
  match v with
  | PyNone => false
  | PyStr s => truthy s
  | PyList l => truthy l
  | PyDatetime _ => true
  | PyDatetimeTz _ _ => true
  end.

(** The keys of [email_data]. *)
Inductive key : Type := From_ | To | Sent_On | CC | Subject | Body.

Definition key_eqb (a b : key) : bool :=
  match a, b with
  | From_, From_ | To, To | Sent_On, Sent_On
  | CC, CC | Subject, Subject | Body, Body => true
  | _, _ => false
  end.

(** [email_data]: a dict with these six keys throughout. *)
Record dict : Type :=
  { v_From : value; v_To : value; v_Sent_On : value;
    v_CC : value; v_Subject : value; v_Body : value }.

Definition getitem (d : dict) (k : key) : value :=
  match k with
  | From_ => v_From d
  | To => v_To d
  | Sent_On => v_Sent_On d
  | CC => v_CC d
  | Subject => v_Subject d
  | Body => v_Body d
  end.

Definition setitem (d : dict) (k : key) (v : value) : dict :=
  match k with
  | From_ => {| v_From := v; v_To := v_To d; v_Sent_On := v_Sent_On d;
                v_CC := v_CC d; v_Subject := v_Subject d; v_Body := v_Body d |}
  | To => {| v_From := v_From d; v_To := v; v_Sent_On := v_Sent_On d;
             v_CC := v_CC d; v_Subject := v_Subject d; v_Body := v_Body d |}
  | Sent_On => {| v_From := v_From d; v_To := v_To d; v_Sent_On := v;
                  v_CC := v_CC d; v_Subject := v_Subject d; v_Body := v_Body d |}
  | CC => {| v_From := v_From d; v_To := v_To d; v_Sent_On := v_Sent_On d;
             v_CC := v; v_Subject := v_Subject d; v_Body := v_Body d |}
  | Subject => {| v_From := v_From d; v_To := v_To d; v_Sent_On := v_Sent_On d;
                  v_CC := v_CC d; v_Subject := v; v_Body := v_Body d |}
  | Body => {| v_From := v_From d; v_To := v_To d; v_Sent_On := v_Sent_On d;
               v_CC := v_CC d; v_Subject := v_Subject d; v_Body := v |}
  end.

(** What the processor prints, one constructor per [print] of the source. *)
Inductive line : Type :=
| ErrorParsingFiletime (e : exn)
| ErrorProcessingEntry (name : str) (e : exn)
| FailedToProcessMsg (path : str) (e : exn)
| StreamIsNoneEntry (name : str)
| ErrorExtractingMetadata (name : str) (e : exn)
| StreamIsNoneRecipient (name : str)
| ErrorExtractingRecipient (name : str) (e : exn)
| StreamIsNoneAttachment (name : str)
| ErrorExtractingAttachment (name : str) (e : exn)
| ErrorSavingAttachment (name : str) (e : exn)
| SavedAttachment (filepath : str)
| ErrorDecodingBody (e : exn).

(** What the processor does to the file system: [open(path, "wb")] creates
    or empties the file, [f.write(data)] fills it. *)
Inductive fs_op : Type :=
| Create (filepath : str)
| Write (filepath : str) (contents : bytes).

(** The mutable part of a session: the two attributes [process] returns,
    the file operations so far (newest first) and the printed lines (newest
    first). *)
Record state : Type :=
  { email_data : dict;
    attachments : list str;
    files : list fs_op;
    stdout : list line }.

(** *** Computations: state that survives an exception *)

Inductive result (A : Type) : Type :=
| Return (a : A)
| Raise (e : exn).
Arguments Return {A} a.
Arguments Raise {A} e.

Definition M (A : Type) : Type := state -> result A * state.

Definition ret {A : Type} (a : A) : M A := fun st => (Return a, st).

Definition raise {A : Type} (e : exn) : M A := fun st => (Raise e, st).

Definition bind {A B : Type} (c : M A) (k : A -> M B) : M B :=
  fun st =>
    match c st with
    | (Return a, st') => k a st'
    | (Raise e, st') => (Raise e, st')
    end.

(** [try: c except Exception as e: h e] *)
Definition try_except {A : Type} (c : M A) (h : exn -> M A) : M A :=
  fun st =>
    match c st with
    | (Return a, st') => (Return a, st')
    | (Raise e, st') => h e st'
    end.

Definition lift {A : Type} (r : exn + A) : M A :=
  match r with
  | inl e => raise e
  | inr a => ret a
  end.

Definition get : M state := fun st => (Return st, st).

Definition modify (f : state -> state) : M unit := fun st => (Return tt, f st).

Declare Scope py_scope.
Delimit Scope py_scope with py.
Notation "x <- c ;; k" := (bind c (fun x => k))
  (at level 61, c at next level, right associativity) : py_scope.
Notation "c ;; k" := (bind c (fun _ => k))
  (at level 61, right associativity) : py_scope.
Local Open Scope py_scope.

(** [for x in l: body x] *)
Fixpoint for_each {A : Type} (l : list A) (body : A -> M unit) : M unit :=
  match l with
  | [] => ret tt
  | x :: l' => body x ;; for_each l' body
  end.

(** A loop that updates a local variable. *)
Fixpoint for_fold {A B : Type} (l : list A) (body : B -> A -> M B) (b : B) : M B :=
  match l with
  | [] => ret b
  | x :: l' => b' <- body b x ;; for_fold l' body b'
  end.

Definition print (l : line) : M unit :=
  modify (fun st => {| email_data := email_data st; attachments := attachments st;
                       files := files st; stdout := l :: stdout st |}).

Definition set_email_data (k : key) (v : value) : M unit :=
  modify (fun st => {| email_data := setitem (email_data st) k v;
                       attachments := attachments st;
                       files := files st; stdout := stdout st |}).

Definition attachments_append (f : str) : M unit :=
  modify (fun st => {| email_data := email_data st;
                       attachments := attachments st ++ [f];
                       files := files st; stdout := stdout st |}).

Definition fs_do (op : fs_op) : M unit :=
  modify (fun st => {| email_data := email_data st; attachments := attachments st;
                       files := op :: files st;
                       stdout := stdout st |}).

(** *** The compound container, as [compoundfiles] presents it *)

(** What [with doc.open(entry) as stream: ... stream.read()] gives. *)
Inductive opened : Type :=
| OpenRaises (e : exn)
| OpenNone
| ReadRaises (e : exn)
| Contents (data : bytes).

(** An entry is a stream or a storage (a directory of entries). *)
#[warnings="-register-all"]
Inductive entry : Type :=
| Stream (entry_name : str) (content : opened)
| Storage (entry_name : str) (children : list entry).

Definition name (e : entry) : str :=
  match e with
  | Stream n _ => n
  | Storage n _ => n
  end.

Definition isdir (e : entry) : bool :=
  match e with
  | Stream _ _ => false
  | Storage _ _ => true
  end.

(** [for child in entry] *)
Definition iter (e : entry) : list entry :=
  match e with
  | Stream _ _ => []
  | Storage _ c => c
  end.

(** [doc.open(entry)]: a storage cannot be opened as a stream. *)
Definition doc_open (e : entry) : opened :=
  match e with
  | Stream _ c => c
  | Storage _ _ => OpenRaises CompoundFileError
  end.

(** *** A parsed MIME message, as [email.parser] presents it *)

Record part : Type :=
  { get_content_type : str;
    get_Content_Disposition : option str;
    get_payload : exn + option bytes;
    get_filename : option str }.

Record message : Type :=
  { msg_get : str -> option str;
    walk : list part }.

(** *** What a session reads from outside, and the library calls that are
    taken as given

    - [CompoundFileReader path]: the root entries of the container, or the
      exception raised on opening it;
    - [open_wb path]: the exception [open(path, "wb")] raises, if any;
    - [open_rb path]: the contents [open(path, "rb")] gives, or the exception;
    - [BytesParser_parse]: [BytesParser(policy=policy.default).parse];
    - [strptime s]: [datetime.strptime(s, "%a, %d %b %Y %H:%M:%S %z")], as a
      naive timestamp and its offset from UTC in seconds;
    - [decode_utf8_ignore_strip b]: [b.decode("utf-8", errors="ignore").strip()]. *)

Record World : Type :=
  { CompoundFileReader : str -> exn + list entry;
    open_wb : str -> option exn;
    open_rb : str -> exn + bytes;
    BytesParser_parse : bytes -> message;
    strptime : str -> exn + datetime * Z;
    decode_utf8_ignore_strip : bytes -> str }.

(** [os.path.join(a, b)] (POSIX) *)
Definition os_path_join (a b : str) : str :=
  if startswith b (lit "/") then b
  else if negb (truthy a) || endswith a (lit "/") then a ++ b
  else a ++ lit "/" ++ b.

(** [needle in hay] for strings *)
Fixpoint str_in (needle hay : str) : bool :=
  startswith hay needle ||
  match hay with
  | [] => false
  | _ :: hay' => str_in needle hay'
  end.

(** [s.split(", ")] *)
Fixpoint split_comma_space (s cur : str) : list str :=
  match s with
  | [] => [rev cur]
  | c :: s' =>
      match s' with
      | d :: s'' =>
          if (c =? 44) && (d =? 32) then rev cur :: split_comma_space s'' []
          else split_comma_space s' (c :: cur)
      | [] => [rev (c :: cur)]
      end
  end.

(** [str(n)] for a length *)
Definition str_of_nat (n : nat) : str :=
  lit (DecimalString.NilEmpty.string_of_uint (Nat.to_uint n)).

(** *** [__init__]: lines 15-20

    The attributes [file_path] and [output_dir] never change and are
    parameters of the methods below; [email_data] and [attachments] start
    as follows.  The directory made by [os.makedirs] is the place the
    attachments are written to. *)

Definition fresh_email_data : dict :=
  {| v_From := PyNone; v_To := PyList []; v_Sent_On := PyNone;
     v_CC := PyNone; v_Subject := PyNone; v_Body := PyNone |}.

Definition init : state :=
  {| email_data := fresh_email_data; attachments := [];
     files := []; stdout := [] |}.

(** The attachment under construction in [_extract_attachment]. *)
Record attachment : Type :=
  { data : option bytes; filename : option str; mime_type : option str }.

Definition bool_of_opt {A : Type} (o : option (list A)) : bool :=
  match o with
  | None => false
  | Some s => truthy s
  end.

(** [o or d] *)
Definition or_else (o : option str) (d : str) : str :=
  if bool_of_opt o then match o with Some s => s | None => d end else d.

(** *** The methods of [EmailProcessor] *)

Section Session.

Variable w : World.
Variable file_path : str.
Variable output_dir : str.

(** [_parse_filetime]: lines 30-38. *)
Definition _parse_filetime (data : bytes) : M value :=
  try_except
    (let filetime := int_from_bytes_little data in
     let epoch := {| year := 1601; month := 1; day := 1;
                     hour := 0; minute := 0; second := 0; microsecond := 0 |} in
     x <- lift (int_truediv filetime 10) ;;
     delta <- lift (timedelta_microseconds x) ;;
     t <- lift (datetime_add epoch delta) ;;
     ret (PyDatetime t))
    (fun e => print (ErrorParsingFiletime e) ;; ret (PyStr (lit "Unknown"))).

(** [lambda x: x.decode('utf-16-le', errors='ignore').rstrip('\x00')] *)
Definition decode_text (x : bytes) : str := rstrip 0 (decode_utf16le_ignore x).

Definition text_property (x : bytes) : M value := ret (PyStr (decode_text x)).

(** The dict [mappings] of [_extract_metadata]: lines 63-70. *)
Definition mappings (n : str) : option (key * (bytes -> M value)) :=
  if str_eqb n (lit "__substg1.0_0C1A001F") then Some (From_, text_property)
  else if str_eqb n (lit "__substg1.0_0037001F") then Some (Subject, text_property)
  else if str_eqb n (lit "__substg1.0_1000001F") then Some (Body, text_property)
  else if str_eqb n (lit "__substg1.0_0E03001F") then Some (CC, text_property)
  else if str_eqb n (lit "__substg1.0_00390040") then Some (Sent_On, _parse_filetime)
  else if str_eqb n (lit "__substg1.0_0E060040") then Some (Sent_On, _parse_filetime)
  else None.

(** [_extract_metadata]: lines 54-75. *)
Definition _extract_metadata (entry : entry) : M unit :=
  if negb (isdir entry) then
    try_except
      (match doc_open entry with
       | OpenRaises e => raise e
       | OpenNone => print (StreamIsNoneEntry (name entry))
       | ReadRaises e => raise e
       | Contents data =>
           st <- get ;;
           match mappings (name entry) with
           | Some (k, func) =>
               if negb (key_eqb k Sent_On)
                  || negb (bool_of (getitem (email_data st) Sent_On))
               then v <- func data ;; set_email_data k v
               else ret tt
           | None => ret tt
           end
       end)
      (fun e => print (ErrorExtractingMetadata (name entry) e))
  else ret tt.

(** [self.email_data["To"].append(recipient)] *)
Definition To_append (recipient : str) : M unit :=
  st <- get ;;
  match getitem (email_data st) To with
  | PyList l => set_email_data To (PyList (l ++ [recipient]))
  | _ => raise AttributeError
  end.

(** [_extract_recipients]: lines 77-90. *)
Definition _extract_recipients (entry : entry) : M unit :=
  if isdir entry && startswith (name entry) (lit "__recip_version1.0_") then
    for_each (iter entry) (fun recip_stream =>
      if str_eqb (name recip_stream) (lit "__substg1.0_3003001F") then
        try_except
          (match doc_open recip_stream with
           | OpenRaises e => raise e
           | OpenNone => print (StreamIsNoneRecipient (name recip_stream))
           | ReadRaises e => raise e
           | Contents d => To_append (decode_text d)
           end)
          (fun e => print (ErrorExtractingRecipient (name recip_stream) e))
      else ret tt)
  else ret tt.

Definition mime_to_ext (m : str) : option str :=
  if str_eqb m (lit "application/pdf") then Some (lit ".pdf")
  else if str_eqb m (lit "text/plain") then Some (lit ".txt")
  else if str_eqb m (lit "image/jpeg") then Some (lit ".jpg")
  else if str_eqb m (lit "image/png") then Some (lit ".png")
  else if str_eqb m (lit "application/msword") then Some (lit ".doc")
  else None.

(** [mime_to_ext.get(m, '.bin')], where [m] may be [None] *)
Definition mime_to_ext_get (m : option str) : str :=
  match m with
  | Some s => match mime_to_ext s with Some e => e | None => lit ".bin" end
  | None => lit ".bin"
  end.

(** The characters of the literal of line 172: < > : quote / \ | ? * *)
Definition forbidden : str := lit "<>:" ++ [34] ++ lit "/\|?*".

(** [_save_attachment]: lines 165-180. *)
Definition _save_attachment (attachment : attachment) (entry_name : str) : M str :=
  let base_filename :=
    or_else (filename attachment) (lit "attachment_" ++ last_chars 8 entry_name) in
  let base_filename :=
    fold_left (fun b char => replace b char (ord ".")) forbidden base_filename in
  let ext := if negb (contains (ord ".") base_filename)
             then mime_to_ext_get (mime_type attachment) else [] in
  let filename := base_filename ++ ext in
  let filepath := os_path_join output_dir filename in
  match open_wb w filepath with
  | Some e => raise e
  | None =>
      fs_do (Create filepath) ;;
      match data attachment with
      | Some d => fs_do (Write filepath d)
      | None => raise TypeError
      end ;;
      print (SavedAttachment filepath) ;;
      ret filename
  end.

(** The body of the loop of [_extract_attachment], lines 97-111; the
    result is the dict [attachment] after the iteration. *)
Definition _extract_attachment_stream
    (attachment : attachment) (stream_entry : entry) : M EmailProcessor.attachment :=
  if negb (isdir stream_entry) then
    try_except
      (match doc_open stream_entry with
       | OpenRaises e => raise e
       | OpenNone =>
           print (StreamIsNoneAttachment (name stream_entry)) ;;
           ret attachment
       | ReadRaises e => raise e
       | Contents d =>
           if str_eqb (name stream_entry) (lit "__substg1.0_37010102") then
             ret {| data := Some d; filename := filename attachment;
                    mime_type := mime_type attachment |}
           else if str_eqb (name stream_entry) (lit "__substg1.0_370E001F")
                   || str_eqb (name stream_entry) (lit "__substg1.0_3707001F") then
             ret {| data := data attachment;
                    filename := Some (decode_text d);
                    mime_type := mime_type attachment |}
           else if str_eqb (name stream_entry) (lit "__substg1.0_3704001F") then
             ret {| data := data attachment; filename := filename attachment;
                    mime_type := Some (decode_text d) |}
           else ret attachment
       end)
      (fun e =>
         print (ErrorExtractingAttachment (name stream_entry) e) ;;
         ret attachment)
  else ret attachment.

(** [_extract_attachment]: lines 92-117. *)
Definition _extract_attachment (entry : entry) : M unit :=
  if isdir entry && startswith (name entry) (lit "__attach_version1.0_") then
    attachment <-
      for_fold (iter entry) _extract_attachment_stream
        {| data := None; filename := None; mime_type := None |} ;;
    if bool_of_opt (data attachment) then
      try_except
        (filename <- _save_attachment attachment (name entry) ;;
         attachments_append filename)
        (fun e => print (ErrorSavingAttachment (name entry) e))
    else ret tt
  else ret tt.

(** The body of the loop of [_process_msg]: lines 45-50. *)
Definition _process_msg_entry (entry : entry) : M unit :=
  try_except
    (_extract_metadata entry ;;
     _extract_recipients entry ;;
     _extract_attachment entry)
    (fun e => print (ErrorProcessingEntry (name entry) e)).

(** [_process_msg]: lines 40-52. *)
Definition _process_msg : M unit :=
  try_except
    (root <- lift (CompoundFileReader w file_path) ;;
     for_each root _process_msg_entry)
    (fun e => print (FailedToProcessMsg file_path e)).

(** [msg.get(h, default)] *)
Definition msg_get_default (msg : message) (h : str) (default : str) : str :=
  match msg_get msg h with
  | Some v => v
  | None => default
  end.

(** The loop of [_extract_eml_body], which stops at the first body found;
    the result is [body_found]. *)
Fixpoint _extract_eml_body_loop (parts : list part) : M bool :=
  match parts with
  | [] => ret false
  | part :: rest =>
      if startswith (get_content_type part) (lit "text/")
         && negb (bool_of_opt (get_Content_Disposition part))
      then
        body_found <-
          try_except
            (body <- lift (get_payload part) ;;
             match body with
             | Some b =>
                 if truthy b then
                   set_email_data Body (PyStr (decode_utf8_ignore_strip w b)) ;;
                   ret true
                 else ret false
             | None => ret false
             end)
            (fun e => print (ErrorDecodingBody e) ;; ret false) ;;
        if body_found then ret true else _extract_eml_body_loop rest
      else _extract_eml_body_loop rest
  end.

(** [_extract_eml_body]: lines 136-150. *)
Definition _extract_eml_body (msg : message) : M unit :=
  body_found <- _extract_eml_body_loop (walk msg) ;;
  if negb body_found
  then set_email_data Body (PyStr (lit "No body content found in .eml file."))
  else ret tt.

(** [_extract_eml_attachments]: lines 152-163. *)
Definition _extract_eml_attachments (msg : message) : M unit :=
  for_each (walk msg) (fun part =>
    if bool_of_opt (get_Content_Disposition part)
       && str_in (lit "attachment") (or_else (get_Content_Disposition part) [])
    then
      st <- get ;;
      let filename :=
        or_else (get_filename part)
          (lit "attachment_" ++ str_of_nat (List.length (attachments st)) ++ lit ".bin") in
      let filepath := os_path_join output_dir filename in
      match open_wb w filepath with
      | Some e => raise e
      | None =>
          fs_do (Create filepath) ;;
          payload <- lift (get_payload part) ;;
          (if bool_of_opt payload
           then fs_do (Write filepath (match payload with Some p => p | None => [] end))
           else ret tt) ;;
          attachments_append filename ;;
          print (SavedAttachment filepath)
      end
    else ret tt).

(** [_process_eml]: lines 119-134. *)
Definition _process_eml : M unit :=
  f <- lift (open_rb w file_path) ;;
  let msg := BytesParser_parse w f in
  set_email_data From_ (PyStr (msg_get_default msg (lit "From") (lit "Unknown Sender"))) ;;
  set_email_data To
    (PyList (if bool_of_opt (msg_get msg (lit "To"))
             then split_comma_space (msg_get_default msg (lit "To") []) []
             else [])) ;;
  set_email_data CC (PyStr (msg_get_default msg (lit "CC") [])) ;;
  set_email_data Subject (PyStr (msg_get_default msg (lit "Subject") (lit "No Subject"))) ;;
  match msg_get msg (lit "Date") with
  | Some sent_on =>
      if truthy sent_on then
        match strptime w sent_on with
        | inr (t, off) => set_email_data Sent_On (PyDatetimeTz t off)
        | inl ValueError => set_email_data Sent_On (PyStr (lit "Unknown"))
        | inl e => raise e
        end
      else ret tt
  | None => ret tt
  end ;;
  _extract_eml_body msg ;;
  _extract_eml_attachments msg.

(** [process]: lines 22-28. *)
Definition process : M (dict * list str) :=
  (if endswith (lower file_path) (lit ".msg") then _process_msg
   else if endswith (lower file_path) (lit ".eml") then _process_eml
   else ret tt) ;;
  st <- get ;;
  ret (email_data st, attachments st).

End Session.

End EmailProcessor.

(** ** The PDF generator: [pdf_generator.py] *)

Module PDFGenerator.
Import Py EmailProcessor.

(** The two levels [setFillColorRGB] is called with: 0 and 0.5. *)
Inductive level : Type := level_0 | level_half.

(** The calls on the reportlab canvas.  The ordinate starts from the page
    height 792.0 and only ever has whole numbers below 2^53 subtracted, on
    which binary64 is exact: coordinates are kept as integers. *)
Inductive canvas_op : Type :=
| setFont (psfontname : str) (size : Z)
| drawString (x y : Z) (text : str)
| showPage
| setFillColorRGB (r g b : level)
| save.

(** The line [_save_pdf] prints. *)
Inductive pdf_line : Type :=
| SavedPdf (output_path : str) (pages : nat).

(** The library calls that are taken as given:

    - [wrap text width]: [textwrap.wrap(text, width=width)];
    - [str_of value]: [str(value)] for a value that is not a string;
    - [pdf_open_wb path]: the exception [open(path, "wb")] raises, if any;
    - [PdfReader_pages packet]: the number of pages PyPDF2 reads back from
      what the canvas saved;
    - [PdfWriter_write packet]: the bytes PyPDF2 writes for these pages. *)
Record Library : Type :=
  { wrap : str -> Z -> list str;
    str_of : value -> str;
    pdf_open_wb : str -> option exn;
    PdfReader_pages : list canvas_op -> nat;
    PdfWriter_write : list canvas_op -> bytes }.

(** What a run of the generator changes: the calls on the canvas (oldest
    first), the file operations (newest first) and the printed lines
    (newest first). *)
Record session : Type :=
  { can : list canvas_op;
    written : list fs_op;
    printed : list pdf_line }.

Definition G (A : Type) : Type := session -> result A * session.

Definition gret {A : Type} (a : A) : G A := fun s => (Return a, s).

Definition graise {A : Type} (e : exn) : G A := fun s => (Raise e, s).

Definition gbind {A B : Type} (c : G A) (k : A -> G B) : G B :=
  fun s =>
    match c s with
    | (Return a, s') => k a s'
    | (Raise e, s') => (Raise e, s')
    end.

Definition glift {A : Type} (r : exn + A) : G A :=
  match r with
  | inl e => graise e
  | inr a => gret a
  end.

Declare Scope pdf_scope.
Delimit Scope pdf_scope with pdf.
Notation "x <- c ;; k" := (gbind c (fun x => k))
  (at level 61, c at next level, right associativity) : pdf_scope.
Notation "c ;; k" := (gbind c (fun _ => k))
  (at level 61, right associativity) : pdf_scope.
Local Open Scope pdf_scope.

(** A call on the canvas. *)
Definition emit (op : canvas_op) : G unit :=
  fun s => (Return tt, {| can := can s ++ [op]; written := written s;
                          printed := printed s |}).

(** [can = canvas.Canvas(packet, pagesize=letter)] *)
Definition new_canvas : G unit :=
  fun s => (Return tt, {| can := []; written := written s; printed := printed s |}).

(** A loop that updates local variables. *)
Fixpoint gfold {A B : Type} (l : list A) (body : B -> A -> G B) (b : B) : G B :=
  match l with
  | [] => gret b
  | x :: l' => b' <- body b x ;; gfold l' body b'
  end.

(** [sep.join(l)] *)
Fixpoint join (sep : str) (l : list str) : str :=
  match l with
  | [] => []
  | [a] => a
  | a :: l' => a ++ sep ++ join sep l'
  end.

(** [s.split('\n')] *)
Fixpoint split_lines (s cur : str) : list str :=
  match s with
  | [] => [rev cur]
  | c :: s' =>
      if c =? 10 then rev cur :: split_lines s' []
      else split_lines s' (c :: cur)
  end.

(** [chr(c).isspace()], the characters [str.strip()] removes *)
Definition isspace (c : Z) : bool :=
  ((9 <=? c) && (c <=? 13)) || ((28 <=? c) && (c <=? 32))
  || (c =? 133) || (c =? 160) || (c =? 5760)
  || ((8192 <=? c) && (c <=? 8202))
  || (c =? 8232) || (c =? 8233) || (c =? 8239) || (c =? 8287) || (c =? 12288).

(** The name of a key of the record. *)
Definition key_str (k : key) : str :=
  match k with
  | From_ => lit "From"
  | To => lit "To"
  | Sent_On => lit "Sent On"
  | CC => lit "CC"
  | Subject => lit "Subject"
  | Body => lit "Body"
  end.

(** *** [__init__]: lines 10-16

    [letter] is 612.0 by 792.0 points. *)
Definition width : Z := 612.
Definition height : Z := 792.
Definition margin : Z := 30.
Definition line_height : Z := 14.

(** [int((self.width - 2 * self.margin) / (size * 0.6))] for the size 12
    every call leaves at its default: 12 * 0.6 is 7.199999999999999 in
    binary64 and 552.0 / 7.199999999999999 is 76.66666666666667. *)
Definition wrap_width : Z := 76.

Section Generator.

Variable lib : Library.
Variable email_data : dict.
Variable attachments : list str.
Variable output_path : str.

(** [_draw_text]: lines 36-47.  No call passes [font] or [size]: they are
    Helvetica and 12 throughout. *)
Definition _draw_text (text : str) (x y : Z) (bold : bool) : G Z :=
  let font := lit "Helvetica" ++ (if bold then lit "-Bold" else []) in
  emit (setFont font 12) ;;
  let wrapped_lines := wrap lib text wrap_width in
  gfold wrapped_lines
    (fun y line =>
       y <- (if y <? margin + 20 then
               emit showPage ;;
               emit (setFont font 12) ;;
               gret (height - margin - 20)
             else gret y) ;;
       emit (drawString x y line) ;;
       gret (y - line_height))
    y.

(** [value_str] of [_draw_headers], lines 56-58: what is shown for a key. *)
Definition header_text (key : key) (value : value) : exn + str :=
  match
    (if key_eqb key To && bool_of value then
       match value with
       | PyList l => inr (join (lit ", ") l)
       | PyStr s => inr (join (lit ", ") (map (fun c => [c]) s))
       | _ => inl TypeError
       end
     else if bool_of value then
       inr (match value with PyStr s => s | _ => str_of lib value end)
     else inr (lit "Not Found"))
  with
  | inl e => inl e
  | inr value_str =>
      inr (if key_eqb key Subject && (50 <? Z.of_nat (List.length value_str))
           then firstn 47 value_str ++ lit "..."
           else value_str)
  end.

(** [_draw_headers]: lines 49-64. *)
Definition _draw_headers (y : Z) : G Z :=
  let label_width := 80 in
  gfold [From_; To; Sent_On; CC; Subject]
    (fun y key =>
       let value := getitem email_data key in
       if bool_of value || key_eqb key Sent_On then
         let label := key_str key ++ lit ":" in
         value_str <- glift (header_text key value) ;;
         emit (setFont (lit "Helvetica-Bold") 12) ;;
         emit (drawString margin y label) ;;
         emit (setFont (lit "Helvetica") 12) ;;
         y <- _draw_text value_str (margin + label_width) y false ;;
         gret (y - 5)
       else gret y)
    y.

(** The test of line 74: the paragraph opens or continues a quoted chain. *)
Definition is_chain_marker (para : str) : bool :=
  startswith para (lit ">")
  || str_in (lit "-----Original Message-----") para
  || str_in (lit "From:") para.

(** [_draw_body]: lines 66-84. *)
Definition _draw_body (y : Z) : G Z :=
  paragraphs <-
    glift (match getitem email_data Body with
           | PyNone => inr (split_lines [] [])
           | PyStr body => inr (split_lines body [])
           | _ => inl AttributeError
           end) ;;
  r <- gfold paragraphs
         (fun '(in_chain, y) para =>
            in_chain <-
              (if is_chain_marker para then
                 emit (setFillColorRGB level_half level_half level_half) ;;
                 gret true
               else if in_chain && forallb isspace para then
                 emit (setFillColorRGB level_0 level_0 level_0) ;;
                 gret false
               else gret in_chain) ;;
            y <- _draw_text para (margin + (if in_chain then 10 else 0)) y false ;;
            gret (in_chain,
                  if negb (truthy para) && (margin <? y) then y - line_height
                  else y))
         (false, y) ;;
  emit (setFillColorRGB level_0 level_0 level_0) ;;
  gret (snd r).

(** [_draw_attachments]: lines 86-92. *)
Definition _draw_attachments (y : Z) : G Z :=
  if truthy attachments then
    y <- _draw_text (lit "Attachments:") margin y true ;;
    gfold attachments
      (fun y attach => _draw_text (lit "- " ++ attach) (margin + 10) y false)
      y
  else gret y.

(** [_save_pdf]: lines 94-102. *)
Definition _save_pdf : G unit :=
  fun s =>
    let packet := can s in
    match pdf_open_wb lib output_path with
    | Some e => (Raise e, s)
    | None =>
        (Return tt,
         {| can := can s;
            written := Write output_path (PdfWriter_write lib packet)
                       :: Create output_path :: written s;
            printed := SavedPdf output_path (PdfReader_pages lib packet)
                       :: printed s |})
    end.

(** [any(self.email_data.values())] *)
Definition any_values : bool :=
  existsb (fun k => bool_of (getitem email_data k))
    [From_; To; Sent_On; CC; Subject; Body].

(** [generate]: lines 18-34. *)
Definition generate : G unit :=
  new_canvas ;;
  let y := height - margin - 20 in
  y <- _draw_headers y ;;
  let y := y - 10 in
  y <- _draw_body y ;;
  let y := y - 10 in
  y <- _draw_attachments y ;;
  (if negb any_values && negb (truthy attachments) then
     _draw_text (lit "No email content or attachments found.") margin y false ;;
     gret tt
   else gret tt) ;;
  emit save ;;
  _save_pdf.

End Generator.

End PDFGenerator.

(** ** Notions the properties are stated with *)

Module Spec.
Import Py EmailProcessor.

(** [datetime(1601, 1, 1)] *)
Definition epoch : datetime :=
  {| year := 1601; month := 1; day := 1;
     hour := 0; minute := 0; second := 0; microsecond := 0 |}.

Definition byte_of_Z (z : Z) : byte :=
  match Byte.of_N (Z.to_N (z mod 256)) with
  | Some b => b
  | None => x00
  end.

(** [t.to_bytes(n, 'little')] *)
Fixpoint int_to_bytes_little (n : nat) (t : Z) : bytes :=
  match n with
  | O => []
  | S n' => byte_of_Z t :: int_to_bytes_little n' (t / 256)
  end.

(** Whole microseconds from 1601-01-01T00:00:00 to a timestamp. *)
Definition us_since_epoch (t : datetime) : Z :=
  ((toordinal t - toordinal epoch) * 86400
   + hour t * 3600 + minute t * 60 + second t) * 1000000 + microsecond t.

(** The last microsecond of 9999-12-31, counted from 1601-01-01. *)
Definition MAX_US : Z := 265046774399999999.

(** The microsecond count [timedelta(microseconds=a / 10)] is built from:
    the binary64 quotient, rounded half to even; [None] when the quotient
    is not finite. *)
Definition filetime_us (a : Z) : option Z :=
  match int_truediv a 10 with
  | inl _ => None
  | inr x => Some (round_float x)
  end.

(** The marker of a timestamp that could not be decoded. *)
Definition unknown : value := PyStr (lit "Unknown").

(** The tick counts that lead to a date up to 9999-12-31. *)
Definition in_range (a : Z) : bool :=
  match filetime_us a with
  | Some us => us <=? MAX_US
  | None => false
  end.

(** The state after [print(f"Error parsing FILETIME: {e}")]. *)
Definition after_filetime_error (st : state) : state :=
  {| email_data := email_data st; attachments := attachments st;
     files := files st;
     stdout := ErrorParsingFiletime OverflowError :: stdout st |}.

(** The nine characters that a file name must not keep. *)
Definition is_forbidden (c : Z) : bool :=
  existsb (Z.eqb c) [60; 62; 58; 34; 47; 92; 124; 63; 42].

(** Each forbidden character becomes a period. *)
Definition sanitize (s : str) : str :=
  map (fun c => if is_forbidden c then 46 else c) s.

(** The base name of an attachment before it is sanitized. *)
Definition base_name (a : attachment) (entry_name : str) : str :=
  or_else (filename a) (lit "attachment_" ++ last_chars 8 entry_name).

(** The bytes an attachment-group child delivers as payload, as file name
    and as MIME type: those of a stream of that name that opens and reads. *)
Definition stream_named (ids : list str) (c : entry) : option bytes :=
  match c with
  | Stream n (Contents d) => if existsb (str_eqb n) ids then Some d else None
  | _ => None
  end.

Definition payload_bytes : entry -> option bytes :=
  stream_named [lit "__substg1.0_37010102"].

Definition filename_bytes : entry -> option bytes :=
  stream_named [lit "__substg1.0_370E001F"; lit "__substg1.0_3707001F"].

Definition mime_bytes : entry -> option bytes :=
  stream_named [lit "__substg1.0_3704001F"].

(** The lines that reading the children of an attachment group can print. *)
Definition is_scan_line (l : line) : Prop :=
  match l with
  | StreamIsNoneAttachment _ | ErrorExtractingAttachment _ _ => True
  | _ => False
  end.

(** The state [st'] differs from [st] by printed lines only, all of them
    satisfying [P]. *)
Definition only_prints (P : line -> Prop) (st st' : state) : Prop :=
  email_data st' = email_data st
  /\ attachments st' = attachments st
  /\ files st' = files st
  /\ exists printed, stdout st' = printed ++ stdout st /\ Forall P printed.

(** The value under ["Sent On"] in a state. *)
Definition sent_on (st : state) : value := getitem (email_data st) Sent_On.

(** ["Sent On"] is either unset or holds a value that counts as true. *)
Definition sent_on_sound (st : state) : Prop :=
  sent_on st = PyNone \/ bool_of (sent_on st) = true.

(** The traversal of [_process_msg] over the root entries. *)
Definition traverse (w : World) (output_dir : str) (root : list entry) : M unit :=
  for_each root (_process_msg_entry w output_dir).

(** A world in which the container of every path holds [root] and every
    file can be written; no .eml file can be read. *)
Definition world_of (root : list entry) : World :=
  {| CompoundFileReader := fun _ => inr root;
     open_wb := fun _ => None;
     open_rb := fun _ => inl OSError;
     BytesParser_parse := fun _ => {| msg_get := fun _ => None; walk := [] |};
     strptime := fun _ => inl ValueError;
     decode_utf8_ignore_strip := fun _ => [] |}.

(** A world in which nothing can be opened. *)
Definition world_closed : World :=
  {| CompoundFileReader := fun _ => inl OSError;
     open_wb := fun _ => Some OSError;
     open_rb := fun _ => inl OSError;
     BytesParser_parse := fun _ => {| msg_get := fun _ => None; walk := [] |};
     strptime := fun _ => inl ValueError;
     decode_utf8_ignore_strip := fun _ => [] |}.

(** The UTF-16-LE encoding of an ASCII literal. *)
Definition utf16le (s : string) : bytes :=
  flat_map (fun a => [Ascii.byte_of_ascii a; x00]) (list_ascii_of_string s).

(** *** Notions for the rest of the extractor *)

(** The bytes a child of a recipient group delivers as address. *)
Definition recipient_bytes : entry -> option bytes :=
  stream_named [lit "__substg1.0_3003001F"].

(** The addresses the children of a recipient group deliver, in order. *)
Fixpoint recipients_of (children : list entry) : list str :=
  match children with
  | [] => []
  | c :: r =>
      match recipient_bytes c with
      | Some d => decode_text d :: recipients_of r
      | None => recipients_of r
      end
  end.

(** The addresses of all the recipient groups among the root entries. *)
Definition all_recipients (root : list entry) : list str :=
  flat_map (fun e =>
              match e with
              | Storage n children =>
                  if startswith n (lit "__recip_version1.0_")
                  then recipients_of children else []
              | Stream _ _ => []
              end) root.

(** What one child of an attachment group leaves of the attachment. *)
Definition scan_step (a : attachment) (c : entry) : attachment :=
  {| data := match payload_bytes c with
             | Some d => Some d
             | None => data a
             end;
     filename := match filename_bytes c with
                 | Some d => Some (decode_text d)
                 | None => filename a
                 end;
     mime_type := match mime_bytes c with
                  | Some d => Some (decode_text d)
                  | None => mime_type a
                  end |}.

(** The attachment after all the children of a group. *)
Definition scanned (children : list entry) : attachment :=
  fold_left scan_step children
    {| data := None; filename := None; mime_type := None |}.

(** The file name [_save_attachment] computes. *)
Definition saved_name (a : attachment) (entry_name : str) : str :=
  sanitize (base_name a entry_name)
  ++ (if contains 46 (sanitize (base_name a entry_name)) then []
      else mime_to_ext_get (mime_type a)).

(** An entry the traversal has no use for: a readable stream of a name that
    is not in [mappings], or a storage that is neither a recipient group nor
    an attachment group. *)
Definition ignored (e : entry) : bool :=
  match e with
  | Stream n (Contents _) =>
      match mappings n with
      | None => true
      | Some _ => false
      end
  | Stream _ _ => false
  | Storage n _ =>
      negb (startswith n (lit "__recip_version1.0_"))
      && negb (startswith n (lit "__attach_version1.0_"))
  end.

(** Every listed attachment has been written, with a non-empty payload. *)
Definition listed_written (output_dir : str) (st : state) : Prop :=
  forall f : str,
    In f (attachments st) ->
    exists d : bytes,
      d <> [] /\ In (Write (os_path_join output_dir f) d) (files st).

(** The names of the attachments a traversal of [root] lists: one for each
    attachment group, in order, whose children deliver a non-empty payload
    and whose file can be opened. *)
Definition attachment_names (w : World) (output_dir : str) (root : list entry)
    : list str :=
  flat_map (fun e =>
              match e with
              | Storage n children =>
                  if startswith n (lit "__attach_version1.0_")
                     && bool_of_opt (data (scanned children))
                  then match open_wb w (os_path_join output_dir
                                          (saved_name (scanned children) n)) with
                       | None => [saved_name (scanned children) n]
                       | Some _ => []
                       end
                  else []
              | Stream _ _ => []
              end) root.

(** A Unicode scalar value: a code point that is no surrogate. *)
Definition is_scalar (c : Z) : bool :=
  (0 <=? c) && (c <=? 0x10FFFF) && negb ((0xD800 <=? c) && (c <=? 0xDFFF)).

(** Two bytes, low one first. *)
Definition unit_bytes (u : Z) : bytes := [byte_of_Z u; byte_of_Z (u / 256)].

(** [s.encode('utf-16-le')], one character at a time: one unit below
    [0x10000], a surrogate pair from there on. *)
Definition encode_char (c : Z) : bytes :=
  if c <? 0x10000 then unit_bytes c
  else unit_bytes (0xD800 + (c - 0x10000) / 0x400)
       ++ unit_bytes (0xDC00 + (c - 0x10000) mod 0x400).

Definition encode_utf16le (s : str) : bytes := flat_map encode_char s.

(** The number of days of a month, as the calendar of the standard library
    counts them. *)
Definition days_in_month (y m : Z) : Z :=
  if (m =? 2) && _is_leap y then 29 else _DAYS_IN_MONTH m.

(** A timestamp whose fields name a real date and time of day between the
    years 1601 and 9999. *)
Definition valid_datetime (t : datetime) : Prop :=
  1601 <= year t <= 9999
  /\ 1 <= month t <= 12
  /\ 1 <= day t <= days_in_month (year t) (month t)
  /\ 0 <= hour t < 24
  /\ 0 <= minute t < 60
  /\ 0 <= second t < 60
  /\ 0 <= microsecond t < 1000000.

(** *** Notions for the .eml path *)

(** The payload a part offers as body: that of a text part without
    Content-Disposition whose payload reads and is not empty. *)
Definition body_candidate (p : part) : option bytes :=
  if startswith (get_content_type p) (lit "text/")
     && negb (bool_of_opt (get_Content_Disposition p))
  then match get_payload p with
       | inr (Some b) => if truthy b then Some b else None
       | _ => None
       end
  else None.

(** The payload of the first part that offers one. *)
Fixpoint first_body (parts : list part) : option bytes :=
  match parts with
  | [] => None
  | p :: r =>
      match body_candidate p with
      | Some b => Some b
      | None => first_body r
      end
  end.

(** A part whose Content-Disposition mentions attachment. *)
Definition is_attachment_part (p : part) : bool :=
  bool_of_opt (get_Content_Disposition p)
  && str_in (lit "attachment") (or_else (get_Content_Disposition p) []).

(** The name an attachment part is saved under when [k] attachments are
    listed already. *)
Definition eml_name (p : part) (k : nat) : str :=
  or_else (get_filename p) (lit "attachment_" ++ str_of_nat k ++ lit ".bin").

(** The names of the attachment parts, the first of them being saved when
    [k] attachments are listed already. *)
Fixpoint eml_names (parts : list part) (k : nat) : list str :=
  match parts with
  | [] => []
  | p :: r =>
      if is_attachment_part p then eml_name p k :: eml_names r (S k)
      else eml_names r k
  end.

(** What a text field holds on the .msg path: [None] or a string. *)
Definition is_text (v : value) : bool :=
  match v with
  | PyNone | PyStr _ => true
  | _ => false
  end.

(** What ["To"] holds: a list. *)
Definition is_list (v : value) : bool :=
  match v with
  | PyList _ => true
  | _ => false
  end.

(** What ["Sent On"] holds on the .msg path: [None], a naive timestamp or
    the string Unknown. *)
Definition is_sent_on (v : value) : bool :=
  match v with
  | PyNone | PyDatetime _ => true
  | PyStr s => str_eqb s (lit "Unknown")
  | _ => false
  end.

(** The kind of value a key of the record holds on the .msg path. *)
Definition field_ok (k : key) (v : value) : bool :=
  match k with
  | To => is_list v
  | Sent_On => is_sent_on v
  | _ => is_text v
  end.

Definition msg_record (d : dict) : bool :=
  forallb (fun k => field_ok k (getitem d k))
    [From_; To; Sent_On; CC; Subject; Body].

(** *** The PDF generator *)

(** A session after further calls on the canvas. *)
Definition drawn (s : PDFGenerator.session) (ops : list PDFGenerator.canvas_op)
    : PDFGenerator.session :=
  {| PDFGenerator.can := PDFGenerator.can s ++ ops;
     PDFGenerator.written := PDFGenerator.written s;
     PDFGenerator.printed := PDFGenerator.printed s |}.

(** The strings among the calls on a canvas, oldest first, each with its
    abscissa and ordinate. *)
Definition strings (ops : list PDFGenerator.canvas_op) : list (Z * Z * str) :=
  flat_map (fun op =>
              match op with
              | PDFGenerator.drawString x y text => [(x, y, text)]
              | _ => []
              end) ops.

(** A string drawn at abscissa [x], between the bottom line 50 and the top
    line 742 of a page. *)
Definition in_text_area (x : Z) (p : Z * Z * str) : Prop :=
  fst (fst p) = x /\ 50 <= snd (fst p) <= 742.

(** A string drawn on the page, no lower than 16 and no higher than 742. *)
Definition on_page (p : Z * Z * str) : Prop :=
  16 <= snd (fst p) <= 742.

(** Run from [s], the computation [c] draws its strings on the page, and
    [post] holds of what it returns when it returns. *)
Definition keeps_on_page {A : Type} (c : PDFGenerator.G A) (post : A -> Prop)
    (s : PDFGenerator.session) : Prop :=
  exists r s' ops,
    c s = (r, s')
    /\ PDFGenerator.can s' = PDFGenerator.can s ++ ops
    /\ Forall on_page (strings ops)
    /\ match r with
       | Return a => post a
       | Raise _ => True
       end.

(** Run from [s], the computation [c] returns, having done nothing but
    calls on the canvas. *)
Definition returns {A : Type} (c : PDFGenerator.G A) (s : PDFGenerator.session)
    : Prop :=
  exists a ops, c s = (Return a, drawn s ops).

(** The colours set among the calls on a canvas, oldest first. *)
Definition colours (ops : list PDFGenerator.canvas_op)
    : list (PDFGenerator.level * PDFGenerator.level * PDFGenerator.level) :=
  flat_map (fun op =>
              match op with
              | PDFGenerator.setFillColorRGB r g b => [(r, g, b)]
              | _ => []
              end) ops.

(** A string drawn in the text area, flush with the margin or indented. *)
Definition in_body_area (p : Z * Z * str) : Prop :=
  (fst (fst p) = 30 \/ fst (fst p) = 40) /\ 50 <= snd (fst p) <= 742.

(** The lines [_draw_headers] shows for a key: the label and the wrapped
    text, or nothing for a key other than ["Sent On"] whose value does not
    count as true. *)
Definition header_lines (lib : PDFGenerator.Library) (d : dict) (k : key)
    : list str :=
  if bool_of (getitem d k) || key_eqb k Sent_On then
    (PDFGenerator.key_str k ++ lit ":")
    :: PDFGenerator.wrap lib
         (match PDFGenerator.header_text lib k (getitem d k) with
          | inr t => t
          | inl _ => []
          end) 76
  else [].

(** The lines shown for the attachment list. *)
Definition attachment_lines (lib : PDFGenerator.Library) (attachments : list str)
    : list str :=
  match attachments with
  | [] => []
  | _ :: _ =>
      PDFGenerator.wrap lib (lit "Attachments:") 76
      ++ flat_map (fun attach => PDFGenerator.wrap lib (lit "- " ++ attach) 76)
           attachments
  end.

(** The text of the document, line by line: the headers, the paragraphs of
    the body, the attachment list and, when there is nothing else to show,
    one sentence that says so. *)
Definition document_text (lib : PDFGenerator.Library) (d : dict)
    (attachments : list str) : list str :=
  flat_map (header_lines lib d) [From_; To; Sent_On; CC; Subject]
  ++ flat_map (fun p => PDFGenerator.wrap lib p 76)
       (PDFGenerator.split_lines
          (match getitem d Body with PyStr b => b | _ => [] end) [])
  ++ attachment_lines lib attachments
  ++ (if negb (PDFGenerator.any_values d) && negb (truthy attachments)
      then PDFGenerator.wrap lib (lit "No email content or attachments found.") 76
      else []).

(** A column of lines on one page: all at abscissa [x], the first at
    ordinate [top], each 14 below the one before it, none below the bottom
    line 50. *)
Fixpoint column (x top : Z) (p : list (Z * Z * str)) : Prop :=
  match p with
  | [] => True
  | (x', y', _) :: r => x' = x /\ y' = top /\ 50 <= top /\ column x (top - 14) r
  end.

(** Lines laid out over pages, the first of which goes on from ordinate
    [top]: every page is a column; a page is left only when its next line
    would fall below 50, and the page begun then starts at the top line 742
    and is not empty. *)
Fixpoint paged (x top : Z) (ps : list (list (Z * Z * str))) : Prop :=
  match ps with
  | [] => False
  | p :: ps' =>
      column x top p
      /\ match ps' with
         | [] => True
         | q :: _ =>
             top - 14 * Z.of_nat (List.length p) < 50
             /\ q <> []
             /\ paged x 742 ps'
         end
  end.

(** The calls that draw pages of lines: the strings of a page, and between
    two pages [showPage] and the font again. *)
Fixpoint draw_pages (font : str) (ps : list (list (Z * Z * str)))
    : list PDFGenerator.canvas_op :=
  match ps with
  | [] => []
  | p :: ps' =>
      map (fun l => PDFGenerator.drawString (fst (fst l)) (snd (fst l)) (snd l)) p
      ++ match ps' with
         | [] => []
         | _ :: _ =>
             PDFGenerator.showPage :: PDFGenerator.setFont font 12
             :: draw_pages font ps'
         end
  end.

(** The ordinate below the last line of the last page. *)
Fixpoint next_ordinate (top : Z) (ps : list (list (Z * Z * str))) : Z :=
  match ps with
  | [] => top
  | p :: ps' =>
      match ps' with
      | [] => top - 14 * Z.of_nat (List.length p)
      | _ :: _ => next_ordinate 742 ps'
      end
  end.

End Spec.

Import Py EmailProcessor Spec.
Local Open Scope py_scope.

(** ** Tactics *)

(** Look up the month tables at a closed month number. *)
Ltac month_tables :=
  repeat match goal with
         | |- context [_DAYS_BEFORE_MONTH ?m] =>
             let v := eval vm_compute in (_DAYS_BEFORE_MONTH m) in
             change (_DAYS_BEFORE_MONTH m) with v
         | |- context [_DAYS_IN_MONTH ?m] =>
             let v := eval vm_compute in (_DAYS_IN_MONTH m) in
             change (_DAYS_IN_MONTH m) with v
         end.

(** Decide the comparisons of the goal and simplify the connectives. *)
Ltac closed_tests :=
  repeat match goal with
         | |- context [Z.ltb ?a ?b] => destruct (Z.ltb_spec a b)
         | |- context [Z.eqb ?a ?b] => destruct (Z.eqb_spec a b)
         end;
  cbn [andb orb negb] in *; cbv beta iota in *.

(** ** The model at work *)

Example truediv_tenth :
  int_truediv 1 10 = inr {| mant := 7205759403792794; expo := -56 |}.
Proof. reflexivity. Qed.

Example truediv_overflow : int_truediv (10 * 2 ^ 1024) 10 = inl OverflowError.
Proof. reflexivity. Qed.

Example filetime_us_ties :
  map filetime_us [1; 5; 15; 25; 35] = [Some 0; Some 0; Some 2; Some 2; Some 4].
Proof. reflexivity. Qed.

Example filetime_us_recent :
  map filetime_us [133000000000000005; 133000000000000015]
  = [Some 13300000000000000; Some 13300000000000002].
Proof. reflexivity. Qed.

Example ordinal_of_epoch :
  _ymd2ord 1601 1 1 = 584389 /\ _ord2ymd 584389 = (1601, 1, 1).
Proof. split; reflexivity. Qed.

Example ordinal_of_leap_day : _ord2ymd 730179 = (2000, 2, 29).
Proof. reflexivity. Qed.

Example ordinal_last : _ord2ymd _MAXORDINAL = (9999, 12, 31).
Proof. reflexivity. Qed.

Example decode_text_padded : decode_text (utf16le "Hi" ++ [x00; x00]) = lit "Hi".
Proof. reflexivity. Qed.

Example decode_surrogate_pair :
  decode_utf16le_ignore [x3d; xd8; x00; xde] = [0x1F600].
Proof. reflexivity. Qed.

Example decode_lone_surrogates :
  decode_utf16le_ignore [x3d; xd8; x41; x00; x00; xdc; x42] = [65].
Proof. reflexivity. Qed.

Example parse_filetime_1970 :
  _parse_filetime [x00; x80; x3e; xd5; xde; xb1; x9d; x01] init
  = (Return (PyDatetime {| year := 1970; month := 1; day := 1;
                           hour := 0; minute := 0; second := 0;
                           microsecond := 0 |}), init).
Proof. reflexivity. Qed.

(** A container with one sender stream, one subject stream and one
    attachment group holding a payload and the file name report.pdf. *)
Example process_minimal_container :
  process
    (world_of
       [Stream (lit "__substg1.0_0C1A001F") (Contents (utf16le "ann@example.org"));
        Stream (lit "__substg1.0_0037001F") (Contents (utf16le "Report"));
        Storage (lit "__attach_version1.0_#00000000")
          [Stream (lit "__substg1.0_37010102") (Contents [x25; x50; x44; x46]);
           Stream (lit "__substg1.0_3707001F") (Contents (utf16le "report.pdf"))]])
    (lit "mail.msg") (lit "attachments") init
  = (Return ({| v_From := PyStr (lit "ann@example.org"); v_To := PyList [];
                v_Sent_On := PyNone; v_CC := PyNone;
                v_Subject := PyStr (lit "Report"); v_Body := PyNone |},
             [lit "report.pdf"]),
     {| email_data :=
          {| v_From := PyStr (lit "ann@example.org"); v_To := PyList [];
             v_Sent_On := PyNone; v_CC := PyNone;
             v_Subject := PyStr (lit "Report"); v_Body := PyNone |};
        attachments := [lit "report.pdf"];
        files := [Write (lit "attachments/report.pdf") [x25; x50; x44; x46];
                  Create (lit "attachments/report.pdf")];
        stdout := [SavedAttachment (lit "attachments/report.pdf")] |}).
Proof. reflexivity. Qed.

(** ** Strings *)

Lemma str_eqb_eq (s t : str) : str_eqb s t = true <-> s = t.
Proof.
  revert t; induction s as [|c s IH]; intros [|d t]; simpl; split;
    try congruence; try reflexivity.
  - intros H. apply andb_true_iff in H as [Hc Hs].
    apply Z.eqb_eq in Hc. apply IH in Hs. congruence.
  - intros H. injection H as -> ->. rewrite Z.eqb_refl. simpl. now apply IH.
Qed.

Lemma str_eqb_refl (s : str) : str_eqb s s = true.
Proof. now apply str_eqb_eq. Qed.

(** One pass of [replace] per forbidden character is the same as mapping
    every forbidden character to a period at once. *)
Lemma replace_all_forbidden (s : str) :
  fold_left (fun b char => replace b char (ord ".")) forbidden s = sanitize s.
Proof.
  unfold forbidden, sanitize. simpl. unfold replace.
  repeat rewrite map_map. apply map_ext. intros c.
  unfold is_forbidden, ord. simpl.
  repeat match goal with
         | |- context [?a =? ?b] => destruct (Z.eqb_spec a b); try lia
         end; simpl; try reflexivity; try lia.
Qed.

Lemma sanitize_no_forbidden (s : str) (c : Z) :
  In c (sanitize s) -> is_forbidden c = false.
Proof.
  unfold sanitize. rewrite in_map_iff. intros (d & <- & _).
  destruct (is_forbidden d) eqn:E; [reflexivity | exact E].
Qed.

Lemma sanitize_nth (s : str) (i : nat) :
  nth i (sanitize s) 0 =
  if is_forbidden (nth i s 0) then 46 else nth i s 0.
Proof.
  unfold sanitize.
  change 0 with ((fun c => if is_forbidden c then 46 else c) 0) at 1.
  now rewrite map_nth.
Qed.

Lemma sanitize_clean (s : str) :
  forallb (fun c => negb (is_forbidden c)) s = true -> sanitize s = s.
Proof.
  unfold sanitize. induction s as [|c s IH]; simpl; [reflexivity|].
  intros H. apply andb_true_iff in H as [Hc Hs].
  destruct (is_forbidden c); [discriminate|]. now rewrite IH.
Qed.

(** ** Running a computation *)

Lemma bind_Return {A B : Type} (c : M A) (k : A -> M B) (st st' : state) (a : A) :
  c st = (Return a, st') -> bind c k st = k a st'.
Proof. unfold bind. now intros ->. Qed.

Lemma bind_Raise {A B : Type} (c : M A) (k : A -> M B) (st st' : state) (e : exn) :
  c st = (Raise e, st') -> bind c k st = (Raise e, st').
Proof. unfold bind. now intros ->. Qed.

Lemma for_fold_app {A B : Type} (l1 l2 : list A) (body : B -> A -> M B)
    (b : B) (st : state) :
  for_fold (l1 ++ l2) body b st = bind (for_fold l1 body b) (for_fold l2 body) st.
Proof.
  revert b st. induction l1 as [|x l1 IH]; intros b st; simpl.
  - reflexivity.
  - unfold bind in *.
    destruct (body b x st) as [[b'|e] st']; [apply IH | reflexivity].
Qed.

Lemma for_each_app {A : Type} (l1 l2 : list A) (body : A -> M unit) (st : state) :
  for_each (l1 ++ l2) body st = bind (for_each l1 body) (fun _ => for_each l2 body) st.
Proof.
  revert st. induction l1 as [|x l1 IH]; intros st; simpl.
  - reflexivity.
  - unfold bind in *.
    destruct (body x st) as [[[]|e] st']; [apply IH | reflexivity].
Qed.

(** ** The attachment materializer *)

Lemma save_attachment_run (w : World) (output_dir : str) (a : attachment)
    (entry_name : str) (d : bytes) (st : state) :
  data a = Some d ->
  let base := sanitize (base_name a entry_name) in
  let f := base ++ (if contains 46 base then [] else mime_to_ext_get (mime_type a)) in
  open_wb w (os_path_join output_dir f) = None ->
  _save_attachment w output_dir a entry_name st =
  (Return f,
   {| email_data := email_data st; attachments := attachments st;
      files := Write (os_path_join output_dir f) d
               :: Create (os_path_join output_dir f) :: files st;
      stdout := SavedAttachment (os_path_join output_dir f) :: stdout st |}).
Proof.
  intros Hd base f Hw. unfold _save_attachment.
  rewrite replace_all_forbidden. fold (base_name a entry_name). fold base.
  change (ord ".") with 46.
  replace (if negb (contains 46 base) then mime_to_ext_get (mime_type a) else [])
    with (if contains 46 base then [] else mime_to_ext_get (mime_type a))
    by now destruct (contains 46 base).
  fold f. rewrite Hw, Hd. reflexivity.
Qed.

(** C8.  In [_save_attachment] every occurrence of each of the characters
    < > : quote / \ | ? * of the base file name is replaced by a period
    (the other characters stay in place), and when the sanitized base name
    already contains a period it is the file name, with no extension
    appended; the declared name bad:name.pdf gives bad.name.pdf. *)
Theorem save_attachment_sanitizes (w : World) (output_dir : str) (a : attachment)
    (entry_name : str) (d : bytes) (st : state) :
  data a = Some d ->
  let base := sanitize (base_name a entry_name) in
  let f := base ++ (if contains 46 base then [] else mime_to_ext_get (mime_type a)) in
  open_wb w (os_path_join output_dir f) = None ->
  fst (_save_attachment w output_dir a entry_name st) = Return f
  /\ List.length base = List.length (base_name a entry_name)
  /\ (forall i : nat,
        nth i base 0 =
        if is_forbidden (nth i (base_name a entry_name) 0) then 46
        else nth i (base_name a entry_name) 0)
  /\ (forall c : Z, In c base -> is_forbidden c = false)
  /\ (contains 46 base = true -> f = base)
  /\ (filename a = Some (lit "bad:name.pdf") -> f = lit "bad.name.pdf").
Proof.
  intros Hd base f Hw. repeat split.
  - now rewrite (save_attachment_run w output_dir a entry_name d st Hd Hw).
  - unfold base, sanitize. apply length_map.
  - intros i. apply sanitize_nth.
  - intros c. apply sanitize_no_forbidden.
  - intros Hdot. unfold f. rewrite Hdot. apply app_nil_r.
  - intros Hf. unfold f, base, base_name. rewrite Hf. reflexivity.
Qed.

Lemma save_attachment_sanitizes_witness :
  fst (_save_attachment (world_of []) (lit "attachments")
         {| data := Some [x25; x50; x44; x46];
            filename := Some (lit "bad:name.pdf");
            mime_type := Some (lit "application/pdf") |}
         (lit "__attach_version1.0_#00000000") init)
  = Return (lit "bad.name.pdf").
Proof.
  exact (proj1 (save_attachment_sanitizes (world_of []) (lit "attachments")
                  {| data := Some [x25; x50; x44; x46];
                     filename := Some (lit "bad:name.pdf");
                     mime_type := Some (lit "application/pdf") |}
                  (lit "__attach_version1.0_#00000000")
                  [x25; x50; x44; x46] init eq_refl eq_refl)).
Defined.

Lemma mime_to_ext_unknown (m : str) :
  ~ In m [lit "application/pdf"; lit "text/plain"; lit "image/jpeg";
          lit "image/png"; lit "application/msword"] ->
  mime_to_ext m = None.
Proof.
  intros H. unfold mime_to_ext.
  repeat match goal with
         | |- context [str_eqb m ?k] =>
             let E := fresh "E" in
             destruct (str_eqb m k) eqn:E;
             [apply str_eqb_eq in E; exfalso; apply H; rewrite E; simpl; tauto|]
         end.
  reflexivity.
Qed.

Lemma contains_app (c : Z) (s t : str) :
  contains c (s ++ t) = contains c s || contains c t.
Proof. unfold contains. apply existsb_app. Qed.

Lemma forallb_no_period (s : str) :
  forallb (fun c => negb (is_forbidden c) && negb (c =? 46)) s = true ->
  forallb (fun c => negb (is_forbidden c)) s = true /\ contains 46 s = false.
Proof.
  unfold contains. induction s as [|c s IH]; cbn [forallb existsb]; [now split|].
  intros H. apply andb_true_iff in H as [Hc Hs].
  apply andb_true_iff in Hc as [Hf Hp].
  destruct (IH Hs) as [IH1 IH2]. rewrite Hf, IH1, IH2. split; [reflexivity|].
  rewrite Z.eqb_sym. now destruct (c =? 46).
Qed.

(** C9 as stated fails: the entry name of an attachment group may have a
    period among its last eight characters, and then no extension is
    appended, whatever the MIME type. *)
Lemma save_attachment_synthesized_period :
  fst (_save_attachment (world_of []) (lit "attachments")
         {| data := Some [x01]; filename := None;
            mime_type := Some (lit "image/png") |}
         (lit "__attach_version1.0_#1") init)
  = Return (lit "attachment_on1.0_#1")
  /\ lit "attachment_on1.0_#1"
     <> lit "attachment_" ++ last_chars 8 (lit "__attach_version1.0_#1") ++ lit ".png"
  /\ attachments
       (snd (_extract_attachment (world_of []) (lit "attachments")
               (Storage (lit "__attach_version1.0_#1")
                  [Stream (lit "__substg1.0_37010102") (Contents [x01]);
                   Stream (lit "__substg1.0_3704001F")
                     (Contents (utf16le "image/png"))])
               init))
     = [lit "attachment_on1.0_#1"].
Proof. split; [|split]; [reflexivity | discriminate | reflexivity]. Qed.

(** C9, amended.  When an attachment has no declared file name and the last
    eight characters of the entry name of its group hold neither a period
    nor a forbidden character, the file name is attachment_ followed by
    these characters and by the extension of the MIME type: .png for
    image/png, and .bin for an absent MIME type or one outside the table. *)
Theorem save_attachment_synthesized (w : World) (output_dir : str) (a : attachment)
    (entry_name : str) (d : bytes) (st : state) :
  filename a = None ->
  data a = Some d ->
  forallb (fun c => negb (is_forbidden c) && negb (c =? 46))
          (last_chars 8 entry_name) = true ->
  let ext := mime_to_ext_get (mime_type a) in
  let f := lit "attachment_" ++ last_chars 8 entry_name ++ ext in
  open_wb w (os_path_join output_dir f) = None ->
  fst (_save_attachment w output_dir a entry_name st) = Return f
  /\ (mime_type a = Some (lit "image/png") -> ext = lit ".png")
  /\ (mime_type a = None -> ext = lit ".bin")
  /\ (forall m : str,
        mime_type a = Some m ->
        ~ In m [lit "application/pdf"; lit "text/plain"; lit "image/jpeg";
                lit "image/png"; lit "application/msword"] ->
        ext = lit ".bin").
Proof.
  intros Hf Hd Hclean ext f Hw.
  destruct (forallb_no_period _ Hclean) as [Hforb Hdot].
  assert (Hbase : sanitize (base_name a entry_name)
                  = lit "attachment_" ++ last_chars 8 entry_name).
  { unfold base_name. rewrite Hf. cbn [or_else bool_of_opt].
    unfold sanitize. rewrite map_app. f_equal.
    now apply sanitize_clean. }
  assert (Hnodot : contains 46 (sanitize (base_name a entry_name)) = false).
  { rewrite Hbase, contains_app, Hdot. reflexivity. }
  repeat split.
  - pose proof (save_attachment_run w output_dir a entry_name d st Hd) as Hrun.
    cbv zeta in Hrun. rewrite Hnodot, Hbase, <- app_assoc in Hrun.
    now rewrite (Hrun Hw).
  - intros Hm. unfold ext. rewrite Hm. reflexivity.
  - intros Hm. unfold ext. rewrite Hm. reflexivity.
  - intros m Hm Hnot. unfold ext. rewrite Hm. simpl.
    now rewrite (mime_to_ext_unknown m Hnot).
Qed.

Lemma save_attachment_synthesized_witness :
  fst (_save_attachment (world_of []) (lit "attachments")
         {| data := Some [x01]; filename := None;
            mime_type := Some (lit "image/png") |}
         (lit "__attach_version1.0_#0000002A") init)
  = Return (lit "attachment_0000002A.png").
Proof.
  exact (proj1 (save_attachment_synthesized (world_of []) (lit "attachments")
                  {| data := Some [x01]; filename := None;
                     mime_type := Some (lit "image/png") |}
                  (lit "__attach_version1.0_#0000002A") [x01] init
                  eq_refl eq_refl eq_refl eq_refl)).
Defined.

(** ** Dispatch on the extension *)

(** C10.  For a path whose lowercased name ends in neither .msg nor .eml,
    [process] extracts nothing: it returns the record as [__init__] made it
    and an empty attachment list, and the session is as it was. *)
Theorem process_other_extension (w : World) (file_path output_dir : str) :
  endswith (lower file_path) (lit ".msg") = false ->
  endswith (lower file_path) (lit ".eml") = false ->
  process w file_path output_dir init
  = (Return ({| v_From := PyNone; v_To := PyList []; v_Sent_On := PyNone;
                v_CC := PyNone; v_Subject := PyNone; v_Body := PyNone |}, []),
     init).
Proof.
  intros Hmsg Heml. unfold process. rewrite Hmsg, Heml. reflexivity.
Qed.

Lemma process_other_extension_witness :
  process (world_of []) (lit "notes.TXT") (lit "attachments") init
  = (Return ({| v_From := PyNone; v_To := PyList []; v_Sent_On := PyNone;
                v_CC := PyNone; v_Subject := PyNone; v_Body := PyNone |}, []),
     init).
Proof.
  exact (process_other_extension (world_of []) (lit "notes.TXT")
           (lit "attachments") eq_refl eq_refl).
Defined.

(** ** Reading the children of an attachment group *)

Lemma only_prints_refl (P : line -> Prop) (st : state) : only_prints P st st.
Proof. repeat split. exists []. split; [reflexivity | constructor]. Qed.

Lemma only_prints_trans (P : line -> Prop) (st1 st2 st3 : state) :
  only_prints P st1 st2 -> only_prints P st2 st3 -> only_prints P st1 st3.
Proof.
  intros (E1 & A1 & F1 & p1 & S1 & Q1) (E2 & A2 & F2 & p2 & S2 & Q2).
  repeat split; try congruence.
  exists (p2 ++ p1). split.
  - rewrite S2, S1. apply app_assoc.
  - apply Forall_app. now split.
Qed.

Lemma only_prints_print (P : line -> Prop) (l : line) (st : state) :
  P l -> only_prints P st (snd (print l st)).
Proof.
  intros Hl. repeat split. exists [l]. split; [reflexivity|].
  constructor; [exact Hl | constructor].
Qed.

(** One iteration never raises, changes the session by printed lines only,
    and updates the dict [attachment] by the bytes the child delivers. *)
Lemma extract_attachment_stream_spec (a : attachment) (c : entry) (st : state) :
  exists a' st',
    _extract_attachment_stream a c st = (Return a', st')
    /\ only_prints is_scan_line st st'
    /\ data a' = match payload_bytes c with Some d => Some d | None => data a end
    /\ filename a' = match filename_bytes c with
                     | Some d => Some (decode_text d)
                     | None => filename a
                     end.
Proof.
  unfold _extract_attachment_stream.
  destruct c as [n [e| |e|d]|n ch]; cbn [isdir negb doc_open name].
  - eexists _, _. split; [reflexivity|]. split; [|split; reflexivity].
    now apply (only_prints_print is_scan_line (ErrorExtractingAttachment n e)).
  - eexists _, _. split; [reflexivity|]. split; [|split; reflexivity].
    now apply (only_prints_print is_scan_line (StreamIsNoneAttachment n)).
  - eexists _, _. split; [reflexivity|]. split; [|split; reflexivity].
    now apply (only_prints_print is_scan_line (ErrorExtractingAttachment n e)).
  - unfold payload_bytes, filename_bytes, stream_named. cbn [existsb].
    rewrite !orb_false_r.
    destruct (str_eqb n (lit "__substg1.0_37010102")) eqn:E1.
    + apply str_eqb_eq in E1. subst n.
      eexists _, _. split; [reflexivity|].
      split; [apply only_prints_refl | split; reflexivity].
    + destruct (str_eqb n (lit "__substg1.0_370E001F")
                || str_eqb n (lit "__substg1.0_3707001F")) eqn:E2.
      * eexists _, _. split; [reflexivity|].
        split; [apply only_prints_refl | split; reflexivity].
      * destruct (str_eqb n (lit "__substg1.0_3704001F"));
          eexists _, _; (split; [reflexivity|]);
          (split; [apply only_prints_refl | split; reflexivity]).
  - eexists _, _. split; [reflexivity|].
    split; [apply only_prints_refl | split; reflexivity].
Qed.

(** The whole loop never raises and changes the session by printed lines
    only. *)
Lemma extract_attachment_scan_returns (children : list entry) (a : attachment)
    (st : state) :
  exists a' st',
    for_fold children _extract_attachment_stream a st = (Return a', st')
    /\ only_prints is_scan_line st st'.
Proof.
  revert a st. induction children as [|c children IH]; intros a st; simpl.
  - exists a, st. split; [reflexivity | apply only_prints_refl].
  - destruct (extract_attachment_stream_spec a c st) as (a1 & st1 & H1 & P1 & _).
    destruct (IH a1 st1) as (a2 & st2 & H2 & P2).
    exists a2, st2. split.
    + now rewrite (bind_Return _ _ _ _ _ H1).
    + now apply (only_prints_trans _ st st1 st2).
Qed.

(** Children that deliver no file name leave the file name as it is. *)
Lemma extract_attachment_scan_keeps_filename (children : list entry)
    (a a' : attachment) (st st' : state) :
  Forall (fun c => filename_bytes c = None) children ->
  for_fold children _extract_attachment_stream a st = (Return a', st') ->
  filename a' = filename a.
Proof.
  revert a st. induction children as [|c children IH]; intros a st Hno; simpl.
  - unfold ret. congruence.
  - inversion Hno as [|c0 l0 Hc Hl]; subst.
    destruct (extract_attachment_stream_spec a c st) as (a1 & st1 & H1 & _ & _ & F1).
    rewrite (bind_Return _ _ _ _ _ H1). intros H2.
    rewrite (IH a1 st1 Hl H2), F1, Hc. reflexivity.
Qed.

(** Children that deliver no payload, or an empty one, leave an absent or
    empty payload absent or empty. *)
Lemma extract_attachment_scan_no_payload (children : list entry)
    (a a' : attachment) (st st' : state) :
  (forall c d, In c children -> payload_bytes c = Some d -> d = []) ->
  bool_of_opt (data a) = false ->
  for_fold children _extract_attachment_stream a st = (Return a', st') ->
  bool_of_opt (data a') = false.
Proof.
  revert a st. induction children as [|c children IH]; intros a st Hno Ha; simpl.
  - unfold ret. congruence.
  - destruct (extract_attachment_stream_spec a c st) as (a1 & st1 & H1 & _ & D1 & _).
    rewrite (bind_Return _ _ _ _ _ H1). intros H2.
    apply (IH a1 st1); [| |exact H2].
    + intros c' d Hin. apply Hno. now right.
    + rewrite D1. destruct (payload_bytes c) as [d|] eqn:Ep; [|exact Ha].
      rewrite (Hno c d (or_introl eq_refl) Ep). reflexivity.
Qed.

(** C2 as stated fails: when both file-name identifiers occur among the
    children, the second occurrence overwrites the file name set by the
    first, and the attachment is saved under the second name. *)
Lemma extract_attachment_second_filename_wins :
  snd (_extract_attachment (world_of []) (lit "attachments")
         (Storage (lit "__attach_version1.0_#00000000")
            [Stream (lit "__substg1.0_37010102") (Contents [x01]);
             Stream (lit "__substg1.0_370E001F") (Contents (utf16le "first.txt"));
             Stream (lit "__substg1.0_3707001F") (Contents (utf16le "second.txt"))])
         init)
  = {| email_data := fresh_email_data;
       attachments := [lit "second.txt"];
       files := [Write (lit "attachments/second.txt") [x01];
                 Create (lit "attachments/second.txt")];
       stdout := [SavedAttachment (lit "attachments/second.txt")] |}
  /\ lit "second.txt" <> lit "first.txt".
Proof. split; [reflexivity | discriminate]. Qed.

(** C2, amended.  The declared file name is taken from either of the two
    interchangeable identifiers with last-write-wins semantics: after the
    scan it is the text of the last child that delivers a file name,
    whatever the children before it delivered. *)
Theorem extract_attachment_last_filename_wins
    (before after : list entry) (c : entry) (d : bytes) (a : attachment) (st : state) :
  filename_bytes c = Some d ->
  Forall (fun c' => filename_bytes c' = None) after ->
  exists a' st',
    for_fold (before ++ c :: after) _extract_attachment_stream a st = (Return a', st')
    /\ filename a' = Some (decode_text d).
Proof.
  intros Hc Hafter.
  destruct (extract_attachment_scan_returns before a st) as (a1 & st1 & H1 & _).
  destruct (extract_attachment_stream_spec a1 c st1) as (a2 & st2 & H2 & _ & _ & F2).
  destruct (extract_attachment_scan_returns after a2 st2) as (a3 & st3 & H3 & _).
  exists a3, st3. split.
  - rewrite for_fold_app, (bind_Return _ _ _ _ _ H1). simpl.
    now rewrite (bind_Return _ _ _ _ _ H2).
  - rewrite (extract_attachment_scan_keeps_filename after a2 a3 st2 st3 Hafter H3).
    now rewrite F2, Hc.
Qed.

Lemma extract_attachment_last_filename_wins_witness :
  exists a' st',
    for_fold ([Stream (lit "__substg1.0_370E001F") (Contents (utf16le "first.txt"))]
              ++ Stream (lit "__substg1.0_3707001F") (Contents (utf16le "second.txt"))
              :: [Stream (lit "__substg1.0_3704001F") (Contents (utf16le "text/plain"))])
      _extract_attachment_stream
      {| data := None; filename := None; mime_type := None |} init
    = (Return a', st')
    /\ filename a' = Some (decode_text (utf16le "second.txt")).
Proof.
  apply (extract_attachment_last_filename_wins
           [Stream (lit "__substg1.0_370E001F") (Contents (utf16le "first.txt"))]
           [Stream (lit "__substg1.0_3704001F") (Contents (utf16le "text/plain"))]
           (Stream (lit "__substg1.0_3707001F") (Contents (utf16le "second.txt")))
           (utf16le "second.txt")).
  - reflexivity.
  - repeat constructor.
Defined.

(** C7.  An attachment group whose children deliver no payload, or only an
    empty one, writes no file and adds nothing to the attachment list; the
    call returns normally and prints nothing but what reading the children
    printed. *)
Theorem extract_attachment_without_payload (w : World) (output_dir : str)
    (n : str) (children : list entry) (st : state) :
  (forall c d, In c children -> payload_bytes c = Some d -> d = []) ->
  exists st',
    _extract_attachment w output_dir (Storage n children) st = (Return tt, st')
    /\ files st' = files st
    /\ attachments st' = attachments st
    /\ only_prints is_scan_line st st'.
Proof.
  intros Hno. unfold _extract_attachment. cbn [isdir name iter andb].
  destruct (startswith n (lit "__attach_version1.0_")).
  - destruct (extract_attachment_scan_returns children
                {| data := None; filename := None; mime_type := None |} st)
      as (a & st' & Hscan & Hprints).
    exists st'. rewrite (bind_Return _ _ _ _ _ Hscan).
    rewrite (extract_attachment_scan_no_payload children
               {| data := None; filename := None; mime_type := None |}
               a st st' Hno eq_refl Hscan).
    destruct Hprints as (E & A & F & P). repeat split; assumption.
  - exists st. repeat split. exists []. split; [reflexivity | constructor].
Qed.

Lemma extract_attachment_without_payload_witness :
  exists st',
    _extract_attachment (world_of []) (lit "attachments")
      (Storage (lit "__attach_version1.0_#00000000")
         [Stream (lit "__substg1.0_370E001F") (Contents (utf16le "report.pdf"));
          Stream (lit "__substg1.0_3704001F") (Contents (utf16le "application/pdf"));
          Stream (lit "__substg1.0_37010102") (Contents [])])
      init
    = (Return tt, st')
    /\ files st' = files init
    /\ attachments st' = attachments init
    /\ only_prints is_scan_line init st'.
Proof.
  apply (extract_attachment_without_payload (world_of []) (lit "attachments")
           (lit "__attach_version1.0_#00000000")).
  intros c d [<-|[<-|[<-|[]]]]; cbv; congruence.
Defined.

(** ** The traversal of a .msg container *)

(** [_parse_filetime] never raises, changes nothing but the printed lines,
    and its value counts as true. *)
Lemma parse_filetime_returns (data : bytes) (st : state) :
  exists v st',
    _parse_filetime data st = (Return v, st')
    /\ bool_of v = true
    /\ email_data st' = email_data st
    /\ attachments st' = attachments st
    /\ files st' = files st.
Proof.
  unfold _parse_filetime, try_except, bind, lift, ret, raise.
  destruct (int_truediv (int_from_bytes_little data) 10) as [e|x].
  { eexists _, _. split; [reflexivity|]. now repeat split. }
  destruct (timedelta_microseconds x) as [e|delta].
  { eexists _, _. split; [reflexivity|]. now repeat split. }
  match goal with
  | |- context [datetime_add ?t delta] => destruct (datetime_add t delta) as [e|t']
  end.
  { eexists _, _. split; [reflexivity|]. now repeat split. }
  eexists _, _. split; [reflexivity|]. now repeat split.
Qed.

Lemma getitem_setitem_same (d : dict) (k : key) (v : value) :
  getitem (setitem d k v) k = v.
Proof. now destruct k. Qed.

Lemma getitem_setitem_other (d : dict) (k k' : key) (v : value) :
  key_eqb k k' = false -> getitem (setitem d k v) k' = getitem d k'.
Proof. now destruct k, k'. Qed.

Lemma mappings_key (n : str) (k : key) (func : bytes -> M value) :
  mappings n = Some (k, func) ->
  (k = Sent_On /\ func = _parse_filetime)
  \/ (key_eqb k Sent_On = false /\ key_eqb k To = false /\ func = text_property).
Proof.
  unfold mappings.
  repeat match goal with
         | |- context [str_eqb n ?i] => destruct (str_eqb n i)
         end; intros [= <- <-]; auto.
Qed.

(** [_extract_metadata] never raises; it leaves the attachment list, the
    files and ["To"] alone, and ["Sent On"] too once it counts as true. *)
Lemma extract_metadata_spec (entry : entry) (st : state) :
  exists st',
    _extract_metadata entry st = (Return tt, st')
    /\ attachments st' = attachments st
    /\ files st' = files st
    /\ getitem (email_data st') To = getitem (email_data st) To
    /\ (bool_of (sent_on st) = true -> sent_on st' = sent_on st)
    /\ (sent_on_sound st -> sent_on_sound st').
Proof.
  unfold _extract_metadata.
  destruct entry as [n [e| |e|d]|n ch]; cbn [isdir negb doc_open name];
    try (eexists; split; [reflexivity|]; now repeat split).
  unfold try_except, bind, get.
  destruct (mappings n) as [[k func]|] eqn:Hm;
    [|eexists; split; [reflexivity|]; now repeat split].
  destruct (mappings_key n k func Hm) as [[-> ->]|(Hk & Hto & ->)].
  - cbn [key_eqb negb orb]. fold (sent_on st).
    destruct (bool_of (sent_on st)) eqn:Hs; cbn [negb].
    + eexists; split; [reflexivity|]; now repeat split.
    + destruct (parse_filetime_returns d st) as (v & st1 & Hp & Hv & He & Ha & Hf).
      rewrite Hp. eexists; split; [reflexivity|]. cbn.
      repeat split; try assumption.
      * now rewrite He.
      * discriminate.
      * intros _. right. exact Hv.
  - rewrite Hk. cbn [negb orb]. unfold text_property, ret.
    eexists; split; [reflexivity|].
    unfold sent_on_sound, sent_on. cbn [email_data attachments files].
    rewrite (getitem_setitem_other _ k Sent_On _ Hk).
    rewrite (getitem_setitem_other _ k To _ Hto).
    now repeat split.
Qed.

(** [_extract_recipients] never raises and touches ["To"] only. *)
Lemma extract_recipients_spec (entry : entry) (st : state) :
  exists st',
    _extract_recipients entry st = (Return tt, st')
    /\ attachments st' = attachments st
    /\ files st' = files st
    /\ sent_on st' = sent_on st.
Proof.
  unfold _extract_recipients.
  destruct (isdir entry && startswith (name entry) (lit "__recip_version1.0_"));
    [|eexists; split; [reflexivity|]; now repeat split].
  generalize (iter entry) as children. clear entry.
  intros children. revert st.
  induction children as [|c children IH]; intros st; cbn [for_each].
  - eexists; split; [reflexivity|]; now repeat split.
  - assert (Hc : exists st1,
               (if str_eqb (name c) (lit "__substg1.0_3003001F")
                then try_except
                       match doc_open c with
                       | OpenRaises e => raise e
                       | OpenNone => print (StreamIsNoneRecipient (name c))
                       | ReadRaises e => raise e
                       | Contents d => To_append (decode_text d)
                       end
                       (fun e => print (ErrorExtractingRecipient (name c) e))
                else ret tt) st = (Return tt, st1)
               /\ attachments st1 = attachments st
               /\ files st1 = files st
               /\ sent_on st1 = sent_on st).
    { destruct (str_eqb (name c) (lit "__substg1.0_3003001F"));
        [|eexists; split; [reflexivity|]; now repeat split].
      unfold try_except.
      destruct (doc_open c) as [e| |e|d];
        try (eexists; split; [reflexivity|]; now repeat split).
      unfold To_append, bind, get.
      destruct (getitem (email_data st) To);
        eexists; (split; [reflexivity|]); now repeat split. }
    destruct Hc as (st1 & H1 & A1 & F1 & S1).
    destruct (IH st1) as (st2 & H2 & A2 & F2 & S2).
    exists st2. rewrite (bind_Return _ _ _ _ _ H1). split; [exact H2|].
    repeat split; congruence.
Qed.

(** [_save_attachment] leaves the record alone, whether it returns or
    raises. *)
Lemma save_attachment_keeps_record (w : World) (output_dir : str)
    (a : attachment) (n : str) (st : state) :
  email_data (snd (_save_attachment w output_dir a n st)) = email_data st.
Proof.
  unfold _save_attachment.
  match goal with |- context [open_wb w ?p] => destruct (open_wb w p) end;
    [reflexivity|].
  destruct (data a); reflexivity.
Qed.

(** [_extract_attachment] never raises and leaves the record alone. *)
Lemma extract_attachment_spec (w : World) (output_dir : str) (entry : entry)
    (st : state) :
  exists st',
    _extract_attachment w output_dir entry st = (Return tt, st')
    /\ email_data st' = email_data st.
Proof.
  unfold _extract_attachment.
  destruct (isdir entry && startswith (name entry) (lit "__attach_version1.0_"));
    [|eexists; split; reflexivity].
  destruct (extract_attachment_scan_returns (iter entry)
              {| data := None; filename := None; mime_type := None |} st)
    as (a & st1 & Hscan & (E1 & _)).
  rewrite (bind_Return _ _ _ _ _ Hscan).
  destruct (bool_of_opt (data a)); [|eexists; split; [reflexivity | exact E1]].
  unfold try_except, bind.
  pose proof (save_attachment_keeps_record w output_dir a (name entry) st1) as Hk.
  destruct (_save_attachment w output_dir a (name entry) st1) as [[f|e] st2];
    cbn [snd] in Hk; eexists; (split; [reflexivity|]); cbn; congruence.
Qed.

(** The body of the traversal never raises and keeps ["Sent On"] once it
    counts as true. *)
Lemma process_msg_entry_spec (w : World) (output_dir : str) (entry : entry)
    (st : state) :
  exists st',
    _process_msg_entry w output_dir entry st = (Return tt, st')
    /\ (bool_of (sent_on st) = true -> sent_on st' = sent_on st)
    /\ (sent_on_sound st -> sent_on_sound st').
Proof.
  unfold _process_msg_entry, try_except.
  destruct (extract_metadata_spec entry st) as (st1 & H1 & _ & _ & _ & K1 & I1).
  destruct (extract_recipients_spec entry st1) as (st2 & H2 & _ & _ & S2).
  destruct (extract_attachment_spec w output_dir entry st2) as (st3 & H3 & E3).
  exists st3.
  rewrite (bind_Return _ _ _ _ _ H1), (bind_Return _ _ _ _ _ H2), H3.
  assert (S3 : sent_on st3 = sent_on st1) by (unfold sent_on in *; congruence).
  split; [reflexivity|]. unfold sent_on_sound. rewrite S3.
  split; [exact K1 | exact I1].
Qed.

Lemma traverse_spec (w : World) (output_dir : str) (root : list entry)
    (st : state) :
  exists st',
    traverse w output_dir root st = (Return tt, st')
    /\ (bool_of (sent_on st) = true -> sent_on st' = sent_on st)
    /\ (sent_on_sound st -> sent_on_sound st').
Proof.
  unfold traverse. revert st.
  induction root as [|entry root IH]; intros st; cbn [for_each].
  - exists st. now repeat split.
  - destruct (process_msg_entry_spec w output_dir entry st) as (st1 & H1 & K1 & I1).
    destruct (IH st1) as (st2 & H2 & K2 & I2).
    exists st2. rewrite (bind_Return _ _ _ _ _ H1). split; [exact H2|].
    split.
    + intros Hs. rewrite K2; [now apply K1|]. now rewrite (K1 Hs).
    + auto.
Qed.

Lemma process_msg_entry_text (w : World) (output_dir : str) (n : str) (k : key)
    (d : bytes) (st : state) :
  mappings n = Some (k, text_property) ->
  key_eqb k Sent_On = false ->
  _process_msg_entry w output_dir (Stream n (Contents d)) st
  = (Return tt,
     {| email_data := setitem (email_data st) k (PyStr (decode_text d));
        attachments := attachments st; files := files st; stdout := stdout st |}).
Proof.
  intros Hm Hk.
  unfold _process_msg_entry, try_except, bind, _extract_metadata,
    _extract_recipients, _extract_attachment.
  cbn [isdir negb doc_open name andb]. unfold try_except, bind, get.
  rewrite Hm, Hk. reflexivity.
Qed.

Lemma process_msg_entry_timestamp (w : World) (output_dir : str) (n : str)
    (d : bytes) (st : state) :
  mappings n = Some (Sent_On, _parse_filetime) ->
  sent_on st = PyNone ->
  exists v st1,
    _parse_filetime d st = (Return v, st1)
    /\ v <> PyNone
    /\ sent_on (snd (_process_msg_entry w output_dir (Stream n (Contents d)) st)) = v.
Proof.
  intros Hm Hs.
  destruct (parse_filetime_returns d st) as (v & st1 & Hp & Hv & _).
  exists v, st1. split; [exact Hp|]. split; [now destruct v|].
  unfold _process_msg_entry, try_except, bind, _extract_metadata,
    _extract_recipients, _extract_attachment.
  cbn [isdir negb doc_open name andb]. unfold try_except, bind, get.
  unfold sent_on in Hs. rewrite Hm, Hs. cbn [key_eqb negb orb bool_of].
  rewrite Hp. reflexivity.
Qed.

(** C1.  During one traversal of a .msg container ["Sent On"] is set at
    most once: once a stream named by either sent-timestamp identifier has
    populated it, no later entry changes it; a stream of either identifier
    does populate it while it is unset.  The other scalar fields (From,
    Subject, Body, CC) take the value of every readable occurrence of their
    stream, so the last one wins. *)
Theorem sent_on_first_wins (w : World) (output_dir : str) :
  (forall root1 root2 : list entry,
      sent_on (snd (traverse w output_dir root1 init)) <> PyNone ->
      sent_on (snd (traverse w output_dir (root1 ++ root2) init))
      = sent_on (snd (traverse w output_dir root1 init)))
  /\ (forall (file_path : str) (root : list entry),
        endswith (lower file_path) (lit ".msg") = true ->
        CompoundFileReader w file_path = inr root ->
        exists (d : dict) (a : list str) (st' : state),
          process w file_path output_dir init = (Return (d, a), st')
          /\ getitem d Sent_On = sent_on (snd (traverse w output_dir root init)))
  /\ (forall (n : str) (d : bytes) (st : state),
        In n [lit "__substg1.0_00390040"; lit "__substg1.0_0E060040"] ->
        sent_on st = PyNone ->
        exists v st1,
          _parse_filetime d st = (Return v, st1)
          /\ v <> PyNone
          /\ sent_on (snd (_process_msg_entry w output_dir (Stream n (Contents d)) st))
             = v)
  /\ (forall (n : str) (k : key) (d : bytes) (st : state),
        In (n, k) [(lit "__substg1.0_0C1A001F", From_);
                   (lit "__substg1.0_0037001F", Subject);
                   (lit "__substg1.0_1000001F", Body);
                   (lit "__substg1.0_0E03001F", CC)] ->
        getitem
          (email_data (snd (_process_msg_entry w output_dir (Stream n (Contents d)) st)))
          k
        = PyStr (decode_text d)).
Proof.
  split; [|split; [|split]].
  - intros root1 root2 Hset.
    destruct (traverse_spec w output_dir root1 init) as (st1 & H1 & _ & I1).
    destruct (traverse_spec w output_dir root2 st1) as (st2 & H2 & K2 & _).
    unfold traverse in *. rewrite for_each_app, (bind_Return _ _ _ _ _ H1), H2.
    rewrite H1 in *. cbn [snd] in *.
    apply K2. destruct (I1 (or_introl eq_refl)) as [Hnone|Htrue];
      [contradiction | exact Htrue].
  - intros file_path root Hmsg Hopen.
    destruct (traverse_spec w output_dir root init) as (st1 & H1 & _).
    exists (email_data st1), (attachments st1), st1.
    unfold process, _process_msg, try_except, bind, lift, ret, get.
    rewrite Hmsg, Hopen. fold (traverse w output_dir root). rewrite H1.
    split; reflexivity.
  - intros n d st Hn Hs.
    apply process_msg_entry_timestamp; [|exact Hs].
    destruct Hn as [<-|[<-|[]]]; reflexivity.
  - intros n k d st Hin.
    rewrite (process_msg_entry_text w output_dir n k d st).
    + apply getitem_setitem_same.
    + destruct Hin as [[= <- <-]|[[= <- <-]|[[= <- <-]|[[= <- <-]|[]]]]];
        reflexivity.
    + destruct Hin as [[= <- <-]|[[= <- <-]|[[= <- <-]|[[= <- <-]|[]]]]];
        reflexivity.
Qed.

Lemma sent_on_first_wins_witness :
  sent_on (snd (traverse (world_of []) (lit "attachments")
                  ([Stream (lit "__substg1.0_00390040")
                      (Contents [x00; x80; x3e; xd5; xde; xb1; x9d; x01])]
                   ++ [Stream (lit "__substg1.0_0E060040")
                         (Contents [x00; x00; x00; x00; x00; x00; x00; x00])])
                  init))
  = sent_on (snd (traverse (world_of []) (lit "attachments")
                    [Stream (lit "__substg1.0_00390040")
                       (Contents [x00; x80; x3e; xd5; xde; xb1; x9d; x01])]
                    init)).
Proof.
  apply (proj1 (sent_on_first_wins (world_of []) (lit "attachments"))).
  vm_compute. discriminate.
Defined.

(** ** [process] *)

Lemma process_msg_returns (w : World) (file_path output_dir : str) (st : state) :
  exists st', _process_msg w file_path output_dir st = (Return tt, st').
Proof.
  unfold _process_msg, try_except, bind, lift.
  destruct (CompoundFileReader w file_path) as [e|root].
  - eexists. reflexivity.
  - unfold ret. fold (traverse w output_dir root).
    destruct (traverse_spec w output_dir root st) as (st' & H & _).
    rewrite H. eexists. reflexivity.
Qed.

(** The other branch of the dispatch, which lies outside the compound
    container path: on the .eml path the file is opened outside any [try],
    so a path that cannot be opened makes [process] raise. *)
Lemma process_eml_open_failure_raises :
  process world_closed (lit "message.eml") (lit "attachments") init
  = (Raise OSError, init).
Proof. reflexivity. Qed.

(** C6.  If opening the compound container fails, [process] does not
    propagate the failure: it returns the all-empty record and an empty
    attachment list, having printed the failure.  More generally, on the
    compound container path, which is the one the specification covers,
    [process] always returns a record and an attachment list rather than
    aborting: this holds for every path that is dispatched to the .msg
    branch or to no branch (its lowercased name ends in .msg, or does not
    end in .eml), from any state of the session. *)
Theorem process_msg_never_raises (w : World) (file_path output_dir : str) :
  (forall e : exn,
      endswith (lower file_path) (lit ".msg") = true ->
      CompoundFileReader w file_path = inl e ->
      process w file_path output_dir init
      = (Return ({| v_From := PyNone; v_To := PyList []; v_Sent_On := PyNone;
                    v_CC := PyNone; v_Subject := PyNone; v_Body := PyNone |}, []),
         {| email_data := fresh_email_data; attachments := []; files := [];
            stdout := [FailedToProcessMsg file_path e] |}))
  /\ (forall st : state,
        endswith (lower file_path) (lit ".msg") = true
        \/ endswith (lower file_path) (lit ".eml") = false ->
        exists (d : dict) (a : list str) (st' : state),
          process w file_path output_dir st = (Return (d, a), st')).
Proof.
  split.
  - intros e Hmsg Hopen. unfold process, _process_msg, try_except, bind, lift.
    rewrite Hmsg, Hopen. reflexivity.
  - intros st Hpath. unfold process.
    destruct (endswith (lower file_path) (lit ".msg")) eqn:Hmsg.
    + destruct (process_msg_returns w file_path output_dir st) as (st' & H).
      rewrite (bind_Return _ _ _ _ _ H). eexists _, _, _. reflexivity.
    + destruct Hpath as [Hpath|Hpath]; [discriminate|]. rewrite Hpath.
      eexists _, _, _. reflexivity.
Qed.

Lemma process_msg_never_raises_witness :
  process world_closed (lit "strangeDate.msg") (lit "attachments") init
  = (Return ({| v_From := PyNone; v_To := PyList []; v_Sent_On := PyNone;
                v_CC := PyNone; v_Subject := PyNone; v_Body := PyNone |}, []),
     {| email_data := fresh_email_data; attachments := []; files := [];
        stdout := [FailedToProcessMsg (lit "strangeDate.msg") OSError] |}).
Proof.
  exact (proj1 (process_msg_never_raises world_closed (lit "strangeDate.msg")
                  (lit "attachments")) OSError eq_refl eq_refl).
Defined.

(** ** Little-endian integers *)

Lemma octet_range (b : byte) : 0 <= octet b < 256.
Proof.
  unfold octet. pose proof (Byte.to_N_bounded b). lia.
Qed.

Lemma octet_byte_of_Z (z : Z) : octet (byte_of_Z z) = z mod 256.
Proof.
  unfold octet, byte_of_Z.
  pose proof (Z.mod_pos_bound z 256 ltac:(lia)) as Hr.
  destruct (Byte.of_N (Z.to_N (z mod 256))) as [b|] eqn:E.
  - apply Byte.to_of_N in E. rewrite E. lia.
  - apply Byte.of_N_None_iff in E. lia.
Qed.

Lemma octet_zero (b : byte) : octet b = 0 -> b = x00.
Proof.
  unfold octet. intros H.
  assert (E : Byte.to_N b = Byte.to_N x00) by (cbn; lia).
  apply (f_equal Byte.of_N) in E. rewrite !Byte.of_to_N in E. congruence.
Qed.

Lemma int_from_bytes_range (data : bytes) :
  0 <= int_from_bytes_little data < 256 ^ Z.of_nat (List.length data).
Proof.
  induction data as [|b r IH]; cbn [int_from_bytes_little List.length].
  - cbn. lia.
  - rewrite Nat2Z.inj_succ, Z.pow_succ_r by lia.
    pose proof (octet_range b). lia.
Qed.

Lemma int_from_to_bytes (n : nat) (t : Z) :
  0 <= t < 256 ^ Z.of_nat n ->
  int_from_bytes_little (int_to_bytes_little n t) = t.
Proof.
  revert t. induction n as [|n IH]; intros t Ht;
    cbn [int_to_bytes_little int_from_bytes_little].
  - cbn in Ht. lia.
  - rewrite Nat2Z.inj_succ, Z.pow_succ_r in Ht by lia.
    rewrite octet_byte_of_Z, IH.
    + pose proof (Z.div_mod t 256). lia.
    + split; [apply Z.div_pos; lia|]. apply Z.div_lt_upper_bound; lia.
Qed.

Lemma int_from_bytes_app (l1 l2 : bytes) :
  int_from_bytes_little (l1 ++ l2)
  = int_from_bytes_little l1
    + 256 ^ Z.of_nat (List.length l1) * int_from_bytes_little l2.
Proof.
  induction l1 as [|b r IH]; cbn [app int_from_bytes_little List.length].
  - change (Z.of_nat 0) with 0. rewrite Z.pow_0_r. lia.
  - rewrite IH, Nat2Z.inj_succ, Z.pow_succ_r by lia. lia.
Qed.

Lemma int_from_bytes_zeros (l : bytes) :
  forallb (fun b => octet b =? 0) l = true -> int_from_bytes_little l = 0.
Proof.
  induction l as [|b r IH]; cbn [forallb int_from_bytes_little]; [reflexivity|].
  intros H. apply andb_true_iff in H as [Hb Hr].
  apply Z.eqb_eq in Hb. rewrite Hb, (IH Hr). reflexivity.
Qed.

Lemma int_from_bytes_nonzero (l : bytes) :
  forallb (fun b => octet b =? 0) l = false -> 1 <= int_from_bytes_little l.
Proof.
  induction l as [|b r IH]; cbn [forallb int_from_bytes_little]; [discriminate|].
  intros H. pose proof (octet_range b). pose proof (int_from_bytes_range r).
  destruct (Z.eqb_spec (octet b) 0) as [E|E]; [|lia].
  cbn [andb] in H. specialize (IH H). lia.
Qed.

(** ** Rounding half to even *)

Lemma div_half_even_le (n d N : Z) :
  0 < d -> n <= N * d -> div_half_even n d <= N.
Proof.
  intros Hd Hn. unfold div_half_even.
  pose proof (Z.div_mod n d ltac:(lia)) as E.
  pose proof (Z.mod_pos_bound n d Hd) as Hr.
  assert (Hq : n / d < N \/ (n / d = N /\ n mod d = 0)).
  { destruct (Z_lt_le_dec (n / d) N) as [L|L]; [now left | right].
    assert (Hle : n / d <= N) by (apply (Z.mul_le_mono_pos_l _ _ d); lia).
    assert (Heq : n / d = N) by lia.
    split; [exact Heq|]. rewrite Heq in E. lia. }
  destruct (Z.compare_spec (2 * (n mod d)) d) as [C|C|C];
    [destruct (Z.even (n / d))| |]; lia.
Qed.

Lemma div_half_even_ge (n d N : Z) :
  0 < d -> N * d <= n -> N <= div_half_even n d.
Proof.
  intros Hd Hn. unfold div_half_even.
  assert (Hq : N <= n / d) by (apply Z.div_le_lower_bound; lia).
  destruct (Z.compare_spec (2 * (n mod d)) d) as [C|C|C];
    [destruct (Z.even (n / d))| |]; lia.
Qed.

Lemma div_half_even_exact (x d : Z) : 0 < d -> div_half_even (x * d) d = x.
Proof.
  intros Hd. apply Z.le_antisymm.
  - apply div_half_even_le; lia.
  - apply div_half_even_ge; lia.
Qed.

(** ** The microsecond count of a tick count *)

Lemma div_half_even_nonneg (n d : Z) : 0 < d -> 0 <= n -> 0 <= div_half_even n d.
Proof. intros Hd Hn. apply div_half_even_ge; lia. Qed.

(** A tick count below [2 ^ 56] (seven bytes) gives a count that does not
    exceed it. *)
Lemma filetime_us_small (a : Z) :
  0 <= a < 2 ^ 56 -> exists us, filetime_us a = Some us /\ 0 <= us <= a.
Proof.
  intros Ha. unfold filetime_us, int_truediv.
  destruct (Z.eqb_spec a 0) as [->|Hnz].
  { exists 0. split; [reflexivity | lia]. }
  assert (Hk : quot_log2 a 10 <= 52).
  { unfold quot_log2. assert (Z.log2 a < 56) by (apply Z.log2_lt_pow2; lia).
    change (Z.log2 10) with 3. destruct (quot_ge_pow2 _ _ _); lia. }
  remember (Z.max (quot_log2 a 10 - (prec - 1)) emin) as e eqn:Ee.
  assert (He : e <= 0) by (unfold prec, emin in Ee; lia).
  destruct (Z.leb_spec 0 e) as [Hpos|Hneg].
  - assert (E0 : e = 0) by lia. rewrite E0.
    change (2 ^ 0) with 1. rewrite !Z.mul_1_r.
    assert (Hm : 0 <= div_half_even a 10 <= a).
    { split; [apply div_half_even_nonneg | apply div_half_even_le]; lia. }
    destruct (Z.leb_spec (2 ^ emax) (div_half_even a 10)) as [Hov|Hov].
    + exfalso. assert (2 ^ 56 <= 2 ^ emax) by (apply Z.pow_le_mono_r; unfold emax; lia).
      lia.
    + cbn [andb round_float mant expo Z.leb Z.compare].
      change (2 ^ 0) with 1. rewrite Z.mul_1_r.
      eexists. split; [reflexivity | exact Hm].
  - cbn [andb]. unfold round_float. cbn [mant expo].
    destruct (Z.leb_spec 0 e) as [Habs|_]; [lia|].
    assert (Hp : 0 < 2 ^ (- e)) by (apply Z.pow_pos_nonneg; lia).
    assert (Hm : 0 <= div_half_even (a * 2 ^ (- e)) 10 <= a * 2 ^ (- e)).
    { split; [apply div_half_even_nonneg | apply div_half_even_le]; nia. }
    eexists. split; [reflexivity|]. split.
    + apply div_half_even_nonneg; lia.
    + apply div_half_even_le; lia.
Qed.

Lemma quot_log2_reached (a : Z) :
  16 <= a -> 0 <= quot_log2 a 10 /\ 10 * 2 ^ quot_log2 a 10 <= a.
Proof.
  intros Ha. unfold quot_log2. change (Z.log2 10) with 3.
  assert (Hl : 4 <= Z.log2 a) by (apply Z.log2_le_pow2; [lia | cbn; lia]).
  destruct (Z.log2_spec a ltac:(lia)) as [Hlo _].
  destruct (quot_ge_pow2 a 10 (Z.log2 a - 3)) eqn:E.
  - unfold quot_ge_pow2 in E.
    destruct (Z.leb_spec 0 (Z.log2 a - 3)); [|lia].
    apply Z.leb_le in E. lia.
  - split; [lia|].
    replace (Z.log2 a) with (Z.log2 a - 3 - 1 + 4) in Hlo by lia.
    rewrite Z.pow_add_r in Hlo by lia. change (2 ^ 4) with 16 in Hlo.
    assert (0 < 2 ^ (Z.log2 a - 3 - 1)) by (apply Z.pow_pos_nonneg; lia).
    lia.
Qed.

(** A tick count of [2 ^ 64] or more gives no count, or one that is out of
    range. *)
Lemma filetime_us_large (a : Z) :
  2 ^ 64 <= a ->
  filetime_us a = None \/ exists us, filetime_us a = Some us /\ MAX_US < us.
Proof.
  intros Ha. unfold filetime_us, int_truediv.
  assert (Hbig : 2 ^ 64 = 18446744073709551616) by reflexivity.
  destruct (Z.eqb_spec a 0) as [->|Hnz]; [lia|].
  destruct (quot_log2_reached a ltac:(lia)) as [Hk0 Hk].
  assert (Hk60 : 60 <= quot_log2 a 10).
  { unfold quot_log2. change (Z.log2 10) with 3.
    assert (64 <= Z.log2 a) by (apply Z.log2_le_pow2; lia).
    destruct (quot_ge_pow2 _ _ _); lia. }
  remember (quot_log2 a 10) as k eqn:Ek.
  replace (Z.max (k - (prec - 1)) emin) with (k - 52) by (unfold prec, emin; lia).
  destruct (Z.leb_spec 0 (k - 52)) as [_|Habs]; [|lia].
  assert (Hp : 0 < 2 ^ (k - 52)) by (apply Z.pow_pos_nonneg; lia).
  assert (Hm : 2 ^ 52 <= div_half_even a (10 * 2 ^ (k - 52))).
  { apply div_half_even_ge; [lia|].
    replace (2 ^ 52 * (10 * 2 ^ (k - 52))) with (10 * (2 ^ (k - 52) * 2 ^ 52)) by lia.
    rewrite <- Z.pow_add_r by lia. now replace (k - 52 + 52) with k by lia. }
  cbn [andb].
  destruct (2 ^ emax <=? div_half_even a (10 * 2 ^ (k - 52)) * 2 ^ (k - 52));
    [now left | right].
  unfold round_float. cbn [mant expo].
  destruct (Z.leb_spec 0 (k - 52)) as [_|Habs]; [|lia].
  eexists. split; [reflexivity|].
  assert (H8 : 2 ^ 8 <= 2 ^ (k - 52)) by (apply Z.pow_le_mono_r; lia).
  change (2 ^ 8) with 256 in H8. change (2 ^ 52) with 4503599627370496 in Hm.
  unfold MAX_US. nia.
Qed.

(** A multiple of ten below [10 * 2 ^ 53] is divided exactly. *)
Lemma filetime_us_exact (n : Z) :
  0 <= n < 2 ^ 53 -> filetime_us (10 * n) = Some n.
Proof.
  intros Hn. unfold filetime_us, int_truediv.
  destruct (Z.eqb_spec (10 * n) 0) as [E|Hnz].
  { cbn. f_equal. lia. }
  assert (Hk : quot_log2 (10 * n) 10 <= 52).
  { unfold quot_log2. change (Z.log2 10) with 3.
    destruct (Z_le_gt_dec (Z.log2 (10 * n) - 3) 52) as [L|G].
    - destruct (quot_ge_pow2 _ _ _); lia.
    - assert (Z.log2 (10 * n) < 57) by (apply Z.log2_lt_pow2; lia).
      replace (quot_ge_pow2 (10 * n) 10 (Z.log2 (10 * n) - 3)) with false; [lia|].
      symmetry. unfold quot_ge_pow2.
      destruct (Z.leb_spec 0 (Z.log2 (10 * n) - 3)); [|lia].
      apply Z.leb_gt.
      assert (2 ^ 53 <= 2 ^ (Z.log2 (10 * n) - 3)) by (apply Z.pow_le_mono_r; lia).
      lia. }
  remember (Z.max (quot_log2 (10 * n) 10 - (prec - 1)) emin) as e eqn:Ee.
  assert (He : e <= 0) by (unfold prec, emin in Ee; lia).
  destruct (Z.leb_spec 0 e) as [Hpos|Hneg].
  - assert (E0 : e = 0) by lia. rewrite E0.
    change (2 ^ 0) with 1. rewrite !Z.mul_1_r.
    replace (10 * n) with (n * 10) by lia.
    rewrite div_half_even_exact by lia.
    destruct (Z.leb_spec (2 ^ emax) n) as [Hov|Hov].
    + exfalso. assert (2 ^ 53 <= 2 ^ emax) by (apply Z.pow_le_mono_r; unfold emax; lia).
      lia.
    + cbn [andb round_float mant expo Z.leb Z.compare].
      change (2 ^ 0) with 1. now rewrite Z.mul_1_r.
  - cbn [andb]. unfold round_float. cbn [mant expo].
    destruct (Z.leb_spec 0 e) as [Habs|_]; [lia|].
    assert (Hp : 0 < 2 ^ (- e)) by (apply Z.pow_pos_nonneg; lia).
    replace (10 * n * 2 ^ (- e)) with (n * 2 ^ (- e) * 10) by lia.
    rewrite div_half_even_exact by lia.
    now rewrite div_half_even_exact by lia.
Qed.

(** ** The calendar *)

(** A year is written by its place in the 400-year cycle: [n400] whole
    cycles, then [n100] centuries, [n4] groups of four years and [n1]
    years. *)
Lemma days_before_year_cycle (n400 n100 n4 n1 : Z) :
  0 <= n400 -> 0 <= n100 <= 3 -> 0 <= n4 <= 24 -> 0 <= n1 <= 3 ->
  _days_before_year (n400 * 400 + 1 + n100 * 100 + n4 * 4 + n1)
  = n400 * _DI400Y + n100 * _DI100Y + n4 * _DI4Y + n1 * 365.
Proof.
  intros H400 H100 H4 H1. unfold _days_before_year, _DI400Y, _DI100Y, _DI4Y.
  cbv zeta.
  Z.div_mod_to_equations. lia.
Qed.

Lemma is_leap_cycle (n400 n100 n4 n1 : Z) :
  0 <= n400 -> 0 <= n100 <= 3 -> 0 <= n4 <= 24 -> 0 <= n1 <= 3 ->
  _is_leap (n400 * 400 + 1 + n100 * 100 + n4 * 4 + n1)
  = (n1 =? 3) && (negb (n4 =? 24) || (n100 =? 3)).
Proof.
  intros H400 H100 H4 H1. unfold _is_leap.
  repeat match goal with
         | |- context [?a =? ?b] => destruct (Z.eqb_spec a b)
         end;
    cbn; try reflexivity; exfalso; Z.div_mod_to_equations; lia.
Qed.

Lemma ord2ymd_roundtrip (n : Z) :
  1 <= n -> let '(y, m, d) := _ord2ymd n in _ymd2ord y m d = n.
Proof.
  intros Hn. unfold _ord2ymd. cbv zeta.
  remember ((n - 1) / _DI400Y) as n400 eqn:E400.
  remember ((n - 1) mod _DI400Y) as r400 eqn:R400.
  remember (r400 / _DI100Y) as n100 eqn:E100.
  remember (r400 mod _DI100Y) as r100 eqn:R100.
  remember (r100 / _DI4Y) as n4 eqn:E4.
  remember (r100 mod _DI4Y) as r4 eqn:R4.
  remember (r4 / 365) as n1 eqn:E1.
  remember (r4 mod 365) as r1 eqn:R1.
  assert (Hdec : n - 1 = n400 * _DI400Y + n100 * _DI100Y + n4 * _DI4Y + n1 * 365 + r1
                 /\ 0 <= n400 /\ 0 <= n100 <= 4 /\ 0 <= n4 <= 24 /\ 0 <= n1 <= 4
                 /\ 0 <= r1 <= 364
                 /\ (n100 = 4 -> n4 = 0 /\ n1 = 0 /\ r1 = 0)
                 /\ (n1 = 4 -> n4 <= 23 /\ r1 = 0)).
  { unfold _DI400Y, _DI100Y, _DI4Y in *. subst. Z.div_mod_to_equations. lia. }
  clear E400 R400 E100 R100 E4 R4 E1 R1 r400 r100 r4.
  destruct Hdec as (Hdec & H400 & H100 & H4 & H1 & Hr1 & Hc & Hy).
  destruct (Z.eqb_spec n1 4) as [En1|En1];
    [|destruct (Z.eqb_spec n100 4) as [En100|En100]]; cbn [orb].
  - destruct (Hy En1) as [H4' ->]. subst n1.
    destruct (Z.eq_dec n100 4) as [En100|En100].
    + destruct (Hc En100) as (? & ? & _). lia.
    + unfold _ymd2ord, _days_before_month.
      replace (n400 * 400 + 1 + n100 * 100 + n4 * 4 + 4 - 1)
        with (n400 * 400 + 1 + n100 * 100 + n4 * 4 + 3) by lia.
      rewrite days_before_year_cycle, is_leap_cycle by lia.
      destruct (Z.eqb_spec n4 24); [lia|]. month_tables.
      closed_tests; unfold _DI400Y, _DI100Y, _DI4Y in *; lia.
  - destruct (Hc En100) as (-> & -> & ->). subst n100.
    unfold _ymd2ord, _days_before_month.
    replace (n400 * 400 + 1 + 4 * 100 + 0 * 4 + 0 - 1)
      with (n400 * 400 + 1 + 3 * 100 + 24 * 4 + 3) by lia.
    rewrite days_before_year_cycle, is_leap_cycle by lia.
    month_tables.
    closed_tests; unfold _DI400Y, _DI100Y, _DI4Y in *; lia.
  - rewrite Z.shiftr_div_pow2 by lia. change (2 ^ 5) with 32.
    remember ((r1 + 50) / 32) as m0 eqn:Em0.
    assert (Hm0 : 1 <= m0 <= 12 /\ (m0 = 1 -> r1 < 14))
      by (subst m0; Z.div_mod_to_equations; lia).
    remember ((n1 =? 3) && (negb (n4 =? 24) || (n100 =? 3))) as leapyear eqn:El.
    assert (Hleap : _is_leap (n400 * 400 + 1 + n100 * 100 + n4 * 4 + n1) = leapyear)
      by (subst leapyear; apply is_leap_cycle; lia).
    assert (Hdby : _days_before_year (n400 * 400 + 1 + n100 * 100 + n4 * 4 + n1) = n - 1 - r1)
      by (rewrite days_before_year_cycle; lia).
    clear Em0 El.
    assert (Hcases : m0 = 1 \/ m0 = 2 \/ m0 = 3 \/ m0 = 4 \/ m0 = 5 \/ m0 = 6 \/ m0 = 7
                     \/ m0 = 8 \/ m0 = 9 \/ m0 = 10 \/ m0 = 11 \/ m0 = 12) by lia.
    destruct Hm0 as [_ Hjan].
    repeat (destruct Hcases as [->|Hcases]); try subst m0;
      destruct leapyear; month_tables; closed_tests; try lia;
      unfold _ymd2ord, _days_before_month; rewrite Hdby, Hleap;
      month_tables; closed_tests; lia.
Qed.

(** ** From a microsecond count to a timestamp *)

Lemma timedelta_normalize_canonical (d s u : Z) :
  0 <= s < 86400 -> 0 <= u < 1000000 -> Z.abs d <= 999999999 ->
  timedelta_normalize d s u = inr {| days := d; seconds := s; microseconds := u |}.
Proof.
  intros Hs Hu Hd. unfold timedelta_normalize. cbv zeta.
  rewrite (Z.div_small u), (Z.mod_small u), Z.add_0_r by lia.
  rewrite (Z.div_small s), (Z.mod_small s), Z.add_0_r by lia.
  destruct (Z.ltb_spec 999999999 (Z.abs d)); [lia | reflexivity].
Qed.

Lemma timedelta_normalize_overflow (d s u : Z) :
  0 <= s < 86400 -> 0 <= u < 1000000 -> 999999999 < Z.abs d ->
  timedelta_normalize d s u = inl OverflowError.
Proof.
  intros Hs Hu Hd. unfold timedelta_normalize. cbv zeta.
  rewrite (Z.div_small u), (Z.mod_small u), Z.add_0_r by lia.
  rewrite (Z.div_small s), (Z.mod_small s), Z.add_0_r by lia.
  destruct (Z.ltb_spec 999999999 (Z.abs d)); [reflexivity | lia].
Qed.

(** The duration of [us] microseconds, in days, seconds and microseconds. *)
Lemma timedelta_normalize_us (us : Z) :
  0 <= us ->
  timedelta_normalize 0 0 us
  = if 999999999 <? us / 86400000000 then inl OverflowError
    else inr {| days := us / 86400000000;
                seconds := (us / 1000000) mod 86400;
                microseconds := us mod 1000000 |}.
Proof.
  intros Hus. unfold timedelta_normalize. cbv zeta. rewrite !Z.add_0_l.
  assert (E : us / 1000000 / 86400 = us / 86400000000)
    by (rewrite Z.div_div by lia; reflexivity).
  rewrite E.
  assert (0 <= us / 86400000000) by (apply Z.div_pos; lia).
  rewrite Z.abs_eq by assumption. reflexivity.
Qed.

(** Adding a duration to 1601-01-01T00:00:00 while the date stays within
    9999-12-31. *)
Lemma datetime_add_epoch_in_range (d s u : Z) :
  0 <= d <= 3067670 -> 0 <= s < 86400 -> 0 <= u < 1000000 ->
  exists t,
    datetime_add epoch {| days := d; seconds := s; microseconds := u |} = inr t
    /\ us_since_epoch t = (d * 86400 + s) * 1000000 + u.
Proof.
  intros Hd Hs Hu. unfold datetime_add.
  change (timedelta_normalize (toordinal epoch)
            (hour epoch * 3600 + minute epoch * 60 + second epoch)
            (microsecond epoch))
    with (@inr exn timedelta {| days := 584389; seconds := 0; microseconds := 0 |}).
  unfold timedelta_add. cbn [days seconds microseconds].
  rewrite !Z.add_0_l, timedelta_normalize_canonical by lia.
  cbn [days seconds microseconds].
  destruct (Z.ltb_spec 0 (584389 + d)) as [_|Habs]; [|lia].
  destruct (Z.leb_spec (584389 + d) _MAXORDINAL) as [_|Habs];
    [|unfold _MAXORDINAL in Habs; lia].
  cbn [andb].
  pose proof (ord2ymd_roundtrip (584389 + d) ltac:(lia)) as Hrt.
  destruct (_ord2ymd (584389 + d)) as [[y m] dd].
  eexists. split; [reflexivity|].
  unfold us_since_epoch, toordinal. cbn [year month day hour minute second microsecond].
  rewrite Hrt. change (_ymd2ord (year epoch) (month epoch) (day epoch)) with 584389.
  Z.div_mod_to_equations. lia.
Qed.

(** Adding a duration that leads past 9999-12-31 raises [OverflowError]. *)
Lemma datetime_add_epoch_out_of_range (d s u : Z) :
  3067670 < d -> 0 <= s < 86400 -> 0 <= u < 1000000 ->
  datetime_add epoch {| days := d; seconds := s; microseconds := u |}
  = inl OverflowError.
Proof.
  intros Hd Hs Hu. unfold datetime_add.
  change (timedelta_normalize (toordinal epoch)
            (hour epoch * 3600 + minute epoch * 60 + second epoch)
            (microsecond epoch))
    with (@inr exn timedelta {| days := 584389; seconds := 0; microseconds := 0 |}).
  unfold timedelta_add. cbn [days seconds microseconds]. rewrite !Z.add_0_l.
  destruct (Z_le_gt_dec (584389 + d) 999999999) as [L|G].
  - rewrite timedelta_normalize_canonical by lia.
    cbn [days seconds microseconds].
    destruct (Z.leb_spec (584389 + d) _MAXORDINAL) as [Habs|_];
      [unfold _MAXORDINAL in Habs; lia|].
    now rewrite andb_false_r.
  - now rewrite timedelta_normalize_overflow by lia.
Qed.

(** The timestamp of an in-range microsecond count. *)
Lemma timestamp_of_us (us : Z) :
  0 <= us <= MAX_US ->
  exists delta t,
    timedelta_normalize 0 0 us = inr delta
    /\ datetime_add epoch delta = inr t
    /\ us_since_epoch t = us.
Proof.
  unfold MAX_US. intros Hus.
  rewrite timedelta_normalize_us by lia.
  assert (Hd : 0 <= us / 86400000000 <= 3067670).
  { split; [apply Z.div_pos; lia|].
    assert (us / 86400000000 < 3067671) by (apply Z.div_lt_upper_bound; lia).
    lia. }
  destruct (Z.ltb_spec 999999999 (us / 86400000000)) as [Habs|_]; [lia|].
  destruct (datetime_add_epoch_in_range (us / 86400000000)
              ((us / 1000000) mod 86400) (us mod 1000000))
    as (t & Ht & Hsince); try (apply Z.mod_pos_bound; lia); [exact Hd|].
  eexists _, t. split; [reflexivity|]. split; [exact Ht|].
  rewrite Hsince. Z.div_mod_to_equations. lia.
Qed.

(** No timestamp for a microsecond count beyond the last one. *)
Lemma no_timestamp_of_us (us : Z) :
  MAX_US < us ->
  timedelta_normalize 0 0 us = inl OverflowError
  \/ exists delta,
       timedelta_normalize 0 0 us = inr delta
       /\ datetime_add epoch delta = inl OverflowError.
Proof.
  unfold MAX_US. intros Hus.
  rewrite timedelta_normalize_us by lia.
  assert (Hd : 3067670 < us / 86400000000).
  { apply Z.lt_le_trans with (m := 3067671); [lia|].
    apply Z.div_le_lower_bound; lia. }
  destruct (999999999 <? us / 86400000000); [now left | right].
  eexists. split; [reflexivity|].
  apply datetime_add_epoch_out_of_range;
    [exact Hd | apply Z.mod_pos_bound; lia | apply Z.mod_pos_bound; lia].
Qed.

(** ** [_parse_filetime] *)

Lemma int_truediv_exn (a b : Z) (e : exn) :
  int_truediv a b = inl e -> e = OverflowError.
Proof.
  unfold int_truediv. destruct (a =? 0); [discriminate|].
  match goal with |- context [if ?c then _ else _] => destruct c end;
    congruence.
Qed.

Lemma Some_eq {A : Type} (x y : A) : Some x = Some y -> x = y.
Proof. congruence. Qed.

Lemma round_float_mk (m e : Z) :
  round_float {| mant := m; expo := e |}
  = if 0 <=? e then m * 2 ^ e else div_half_even m (2 ^ (- e)).
Proof. reflexivity. Qed.

Lemma filetime_us_nonneg (a us : Z) :
  0 <= a -> filetime_us a = Some us -> 0 <= us.
Proof.
  intros Ha. unfold filetime_us, int_truediv.
  destruct (Z.eqb_spec a 0) as [_|_]; [intros [= <-]; cbn; lia|].
  remember (Z.max (quot_log2 a 10 - (prec - 1)) emin) as e eqn:Ee. clear Ee.
  destruct (Z.leb_spec 0 e) as [Hpos|Hneg]; cbn [andb].
  - assert (Hp : 0 < 2 ^ e) by (apply Z.pow_pos_nonneg; lia).
    pose proof (div_half_even_nonneg a (10 * 2 ^ e) ltac:(lia) Ha) as Hm.
    destruct (_ <=? _); [discriminate|]. intros Hs.
    apply Some_eq in Hs. rewrite <- Hs, round_float_mk.
    destruct (Z.leb_spec 0 e); [nia | lia].
  - assert (Hp : 0 < 2 ^ (- e)) by (apply Z.pow_pos_nonneg; lia).
    intros Hs. apply Some_eq in Hs. rewrite <- Hs, round_float_mk.
    destruct (Z.leb_spec 0 e); [lia|].
    apply div_half_even_nonneg; [lia|].
    apply div_half_even_nonneg; nia.
Qed.

(** An in-range tick count is decoded to the timestamp of its microsecond
    count, and nothing is printed. *)
Lemma parse_filetime_timestamp (data : bytes) (st : state) (us : Z) :
  filetime_us (int_from_bytes_little data) = Some us ->
  us <= MAX_US ->
  exists t,
    _parse_filetime data st = (Return (PyDatetime t), st)
    /\ us_since_epoch t = us.
Proof.
  intros Hus Hmax.
  pose proof (filetime_us_nonneg _ us (proj1 (int_from_bytes_range data)) Hus) as H0.
  destruct (timestamp_of_us us (conj H0 Hmax)) as (delta & t & Hn & Ha & Hs).
  exists t. split; [|exact Hs].
  unfold filetime_us in Hus.
  unfold _parse_filetime, try_except, bind, lift, ret, raise.
  destruct (int_truediv (int_from_bytes_little data) 10) as [e|x]; [discriminate|].
  injection Hus as Hx. unfold timedelta_microseconds. rewrite Hx, Hn.
  fold epoch. rewrite Ha. reflexivity.
Qed.

(** Any other tick count is decoded to the marker, and the overflow is
    printed. *)
Lemma parse_filetime_unknown (data : bytes) (st : state) :
  in_range (int_from_bytes_little data) = false ->
  _parse_filetime data st = (Return unknown, after_filetime_error st).
Proof.
  unfold in_range, filetime_us. intros Hr.
  unfold _parse_filetime, try_except, bind, lift, ret, raise.
  destruct (int_truediv (int_from_bytes_little data) 10) as [e|x] eqn:Hdiv.
  - rewrite (int_truediv_exn _ _ _ Hdiv). reflexivity.
  - apply Z.leb_gt in Hr. unfold timedelta_microseconds.
    destruct (no_timestamp_of_us _ Hr) as [Hn|(delta & Hn & Ha)]; rewrite Hn.
    + reflexivity.
    + fold epoch. rewrite Ha. reflexivity.
Qed.

Lemma parse_filetime_in_range (data : bytes) (st : state) :
  in_range (int_from_bytes_little data) = true ->
  exists t,
    _parse_filetime data st = (Return (PyDatetime t), st)
    /\ filetime_us (int_from_bytes_little data) = Some (us_since_epoch t).
Proof.
  unfold in_range. intros Hr.
  destruct (filetime_us (int_from_bytes_little data)) as [us|] eqn:Hus;
    [|discriminate].
  apply Z.leb_le in Hr.
  destruct (parse_filetime_timestamp data st us Hus Hr) as (t & Hp & Hs).
  exists t. split; [exact Hp | now rewrite Hs].
Qed.

(** The result only depends on the integer the buffer spells. *)
Lemma parse_filetime_same_int (d1 d2 : bytes) (st : state) :
  int_from_bytes_little d1 = int_from_bytes_little d2 ->
  _parse_filetime d1 st = _parse_filetime d2 st.
Proof. intros E. unfold _parse_filetime. now rewrite E. Qed.

Lemma in_range_small (a : Z) : 0 <= a < 2 ^ 56 -> in_range a = true.
Proof.
  intros Ha. unfold in_range.
  destruct (filetime_us_small a Ha) as (us & -> & Hus).
  apply Z.leb_le. unfold MAX_US.
  change (2 ^ 56) with 72057594037927936 in Ha. lia.
Qed.

Lemma in_range_large (a : Z) : 2 ^ 64 <= a -> in_range a = false.
Proof.
  intros Ha. unfold in_range.
  destruct (filetime_us_large a Ha) as [->|(us & -> & Hus)];
    [reflexivity | now apply Z.leb_gt].
Qed.

Lemma filetime_us_defined (a : Z) :
  0 <= a < 2 ^ 64 -> exists us, filetime_us a = Some us.
Proof.
  intros Ha. unfold filetime_us, int_truediv.
  destruct (Z.eqb_spec a 0) as [_|Hnz]; [eexists; reflexivity|].
  assert (Hk : quot_log2 a 10 <= 60).
  { unfold quot_log2. assert (Z.log2 a < 64) by (apply Z.log2_lt_pow2; lia).
    change (Z.log2 10) with 3. destruct (quot_ge_pow2 _ _ _); lia. }
  remember (Z.max (quot_log2 a 10 - (prec - 1)) emin) as e eqn:Ee.
  assert (He : e <= 8) by (unfold prec, emin in Ee; lia).
  destruct (Z.leb_spec 0 e) as [Hpos|Hneg]; cbn [andb]; [|eexists; reflexivity].
  assert (Hp : 0 < 2 ^ e) by (apply Z.pow_pos_nonneg; lia).
  assert (Hm : 0 <= div_half_even a (10 * 2 ^ e) <= a).
  { split; [apply div_half_even_nonneg | apply div_half_even_le]; nia. }
  assert (Hp8 : 2 ^ e <= 2 ^ 8) by (apply Z.pow_le_mono_r; lia).
  assert (Hbig : 2 ^ 64 * 2 ^ 8 <= 2 ^ emax).
  { rewrite <- Z.pow_add_r by lia. apply Z.pow_le_mono_r; unfold emax; lia. }
  destruct (Z.leb_spec (2 ^ emax) (div_half_even a (10 * 2 ^ e) * 2 ^ e)) as [Hov|_];
    [|eexists; reflexivity].
  exfalso.
  assert (div_half_even a (10 * 2 ^ e) * 2 ^ e < 2 ^ 64 * 2 ^ 8); [|lia].
  apply Z.le_lt_trans with (m := a * 2 ^ 8).
  - apply Z.mul_le_mono_nonneg; lia.
  - apply Z.mul_lt_mono_pos_r; [reflexivity | lia].
Qed.

(** C3 as stated fails: the empty buffer and a buffer of two bytes are
    decoded to timestamps, not to the marker. *)
Lemma parse_filetime_short_buffer :
  _parse_filetime [] init = (Return (PyDatetime epoch), init)
  /\ _parse_filetime [x10; x27] init
     = (Return (PyDatetime {| year := 1601; month := 1; day := 1;
                              hour := 0; minute := 0; second := 0;
                              microsecond := 1000 |}), init)
  /\ PyDatetime epoch <> PyStr (lit "Unknown").
Proof. split; [|split]; [reflexivity | reflexivity | discriminate]. Qed.

(** C3, amended.  [_parse_filetime] never raises an exception to its
    caller, whatever the buffer.  It returns the marker 'Unknown' exactly when
    the conversion overflows, that is when the microsecond count of the
    integer the buffer spells lies beyond 9999-12-31T23:59:59.999999.  An
    undersized buffer is not such a case: fewer than 8 bytes are read as the
    little-endian integer they spell and give a timestamp; the empty buffer
    gives 1601-01-01T00:00:00. *)
Theorem parse_filetime_never_raises (data : bytes) (st : state) :
  (exists v st', _parse_filetime data st = (Return v, st'))
  /\ (fst (_parse_filetime data st) = Return unknown
      <-> in_range (int_from_bytes_little data) = false)
  /\ ((List.length data < 8)%nat ->
      exists t,
        _parse_filetime data st = (Return (PyDatetime t), st)
        /\ filetime_us (int_from_bytes_little data) = Some (us_since_epoch t))
  /\ (data = [] -> _parse_filetime data st = (Return (PyDatetime epoch), st)).
Proof.
  split; [|split; [|split]].
  - destruct (parse_filetime_returns data st) as (v & st' & H & _).
    now exists v, st'.
  - destruct (in_range (int_from_bytes_little data)) eqn:Hr.
    + destruct (parse_filetime_in_range data st Hr) as (t & Hp & _).
      rewrite Hp. cbn [fst]. split; [intros [=] | discriminate].
    + rewrite (parse_filetime_unknown data st Hr). now split.
  - intros Hlen. apply parse_filetime_in_range, in_range_small.
    pose proof (int_from_bytes_range data) as [H0 Hlt]. split; [exact H0|].
    apply Z.lt_le_trans with (m := 256 ^ Z.of_nat (List.length data)); [exact Hlt|].
    change (2 ^ 56) with (256 ^ 7). apply Z.pow_le_mono_r; lia.
  - intros ->. reflexivity.
Qed.

Lemma parse_filetime_never_raises_witness :
  exists t,
    _parse_filetime [x10; x27] init = (Return (PyDatetime t), init)
    /\ filetime_us (int_from_bytes_little [x10; x27]) = Some (us_since_epoch t).
Proof.
  apply (proj1 (proj2 (proj2 (parse_filetime_never_raises [x10; x27] init)))).
  cbn. lia.
Defined.

(** C4 as stated fails: one tick is a tenth of a microsecond, which a
    timestamp cannot hold, so tick count 1 is decoded to the epoch itself
    rather than to the epoch plus 100 nanoseconds; and the largest tick
    count is decoded to the marker. *)
Lemma parse_filetime_one_tick :
  _parse_filetime (int_to_bytes_little 8 1) init = (Return (PyDatetime epoch), init)
  /\ us_since_epoch epoch * 1000 <> 1 * 100
  /\ fst (_parse_filetime (int_to_bytes_little 8 (2 ^ 64 - 1)) init) = Return unknown.
Proof. split; [|split]; [reflexivity | discriminate | reflexivity]. Qed.

(** C4, amended.  For every 8-byte little-endian tick count [t],
    [_parse_filetime] returns 1601-01-01T00:00:00 plus a whole number of
    microseconds, namely [t / 10] computed in binary64 and rounded half to
    even, when that count reaches no further than
    9999-12-31T23:59:59.999999, and the marker 'Unknown' otherwise.  When [t]
    is a multiple of 10 below [10 * 2 ^ 53] the timestamp is exactly the
    epoch plus [t] times 100 nanoseconds; tick count 0 decodes to exactly
    1601-01-01T00:00:00. *)
Theorem parse_filetime_ticks (t : Z) (st : state) :
  0 <= t < 2 ^ 64 ->
  (exists us,
      filetime_us t = Some us
      /\ (us <= MAX_US ->
          exists dt,
            _parse_filetime (int_to_bytes_little 8 t) st = (Return (PyDatetime dt), st)
            /\ us_since_epoch dt = us)
      /\ (MAX_US < us ->
          _parse_filetime (int_to_bytes_little 8 t) st
          = (Return unknown, after_filetime_error st)))
  /\ (t mod 10 = 0 -> t < 10 * 2 ^ 53 ->
      exists dt,
        _parse_filetime (int_to_bytes_little 8 t) st = (Return (PyDatetime dt), st)
        /\ us_since_epoch dt * 1000 = t * 100)
  /\ (t = 0 ->
      _parse_filetime (int_to_bytes_little 8 t) st = (Return (PyDatetime epoch), st)).
Proof.
  intros Ht.
  assert (Hint : int_from_bytes_little (int_to_bytes_little 8 t) = t)
    by (apply int_from_to_bytes; change (256 ^ Z.of_nat 8) with (2 ^ 64); exact Ht).
  split; [|split].
  - destruct (filetime_us_defined t Ht) as (us & Hus).
    exists us. split; [exact Hus|]. split.
    + intros Hmax. apply parse_filetime_timestamp; [now rewrite Hint | exact Hmax].
    + intros Hmax. apply parse_filetime_unknown. unfold in_range.
      rewrite Hint, Hus. now apply Z.leb_gt.
  - intros Hmod Hlt.
    assert (Hexact : filetime_us t = Some (t / 10)).
    { pose proof (Z.div_mod t 10 ltac:(lia)) as E. rewrite Hmod, Z.add_0_r in E.
      rewrite E at 1. apply filetime_us_exact.
      split; [apply Z.div_pos; lia | apply Z.div_lt_upper_bound; lia]. }
    destruct (parse_filetime_timestamp (int_to_bytes_little 8 t) st (t / 10))
      as (dt & Hp & Hs).
    + now rewrite Hint.
    + unfold MAX_US.
      assert (t / 10 < 2 ^ 53) by (apply Z.div_lt_upper_bound; lia).
      change (2 ^ 53) with 9007199254740992 in *. lia.
    + exists dt. split; [exact Hp|]. rewrite Hs.
      pose proof (Z.div_mod t 10 ltac:(lia)). lia.
  - intros ->. reflexivity.
Qed.

Lemma parse_filetime_ticks_witness :
  exists dt,
    _parse_filetime (int_to_bytes_little 8 10000000) init
    = (Return (PyDatetime dt), init)
    /\ us_since_epoch dt * 1000 = 10000000 * 100.
Proof.
  apply (proj1 (proj2 (parse_filetime_ticks 10000000 init
                         (conj (proj1 (Z.leb_le 0 10000000) eq_refl) eq_refl)))).
  - reflexivity.
  - reflexivity.
Defined.

(** C5 as stated fails: two buffers of nine bytes that agree on their first
    eight bytes are decoded differently, because the ninth byte counts. *)
Lemma parse_filetime_ninth_byte :
  firstn 8 [x00; x00; x00; x00; x00; x00; x00; x00; x00]
  = firstn 8 [x00; x00; x00; x00; x00; x00; x00; x00; x01]
  /\ fst (_parse_filetime [x00; x00; x00; x00; x00; x00; x00; x00; x00] init)
     = Return (PyDatetime epoch)
  /\ fst (_parse_filetime [x00; x00; x00; x00; x00; x00; x00; x00; x01] init)
     = Return (PyStr (lit "Unknown")).
Proof. split; [|split]; reflexivity. Qed.

(** C5, amended.  For every buffer longer than 8 bytes [_parse_filetime]
    reads all the bytes: when every byte after the first 8 is zero the
    result is that of the first 8 bytes, and otherwise the result is the
    marker 'Unknown', whatever the first 8 bytes are. *)
Theorem parse_filetime_long_buffer (data : bytes) (st : state) :
  (8 < List.length data)%nat ->
  (forallb (fun b => octet b =? 0) (skipn 8 data) = true ->
   _parse_filetime data st = _parse_filetime (firstn 8 data) st)
  /\ (forallb (fun b => octet b =? 0) (skipn 8 data) = false ->
      _parse_filetime data st = (Return unknown, after_filetime_error st)).
Proof.
  intros Hlen.
  assert (Hint : int_from_bytes_little data
                 = int_from_bytes_little (firstn 8 data)
                   + 2 ^ 64 * int_from_bytes_little (skipn 8 data)).
  { rewrite <- (firstn_skipn 8 data) at 1. rewrite int_from_bytes_app.
    rewrite length_firstn, Nat.min_l by lia. reflexivity. }
  split.
  - intros Hz. apply parse_filetime_same_int.
    rewrite Hint, (int_from_bytes_zeros _ Hz). lia.
  - intros Hnz. apply parse_filetime_unknown, in_range_large.
    pose proof (int_from_bytes_nonzero _ Hnz).
    pose proof (int_from_bytes_range (firstn 8 data)). lia.
Qed.

Lemma parse_filetime_long_buffer_witness :
  _parse_filetime [x00; x80; x3e; xd5; xde; xb1; x9d; x01; x00; x00] init
  = _parse_filetime (firstn 8 [x00; x80; x3e; xd5; xde; xb1; x9d; x01; x00; x00]) init.
Proof.
  apply (proj1 (parse_filetime_long_buffer
                  [x00; x80; x3e; xd5; xde; xb1; x9d; x01; x00; x00] init
                  (proj1 (Nat.ltb_lt 8 10) eq_refl))).
  reflexivity.
Defined.

(** * Further properties of the extractor *)

(** ** Recipients *)

Lemma To_append_list (recipient : str) (l : list str) (st : state) :
  getitem (email_data st) To = PyList l ->
  To_append recipient st
  = (Return tt,
     {| email_data := setitem (email_data st) To (PyList (l ++ [recipient]));
        attachments := attachments st; files := files st; stdout := stdout st |}).
Proof. intros H. unfold To_append, bind, get. now rewrite H. Qed.

(** The loop of [_extract_recipients] over the children of a group. *)
Lemma extract_recipients_loop (children : list entry) (l : list str) (st : state) :
  getitem (email_data st) To = PyList l ->
  exists st',
    for_each children
      (fun recip_stream =>
         if str_eqb (name recip_stream) (lit "__substg1.0_3003001F")
         then try_except
                match doc_open recip_stream with
                | OpenRaises e => raise e
                | OpenNone => print (StreamIsNoneRecipient (name recip_stream))
                | ReadRaises e => raise e
                | Contents d => To_append (decode_text d)
                end
                (fun e => print (ErrorExtractingRecipient (name recip_stream) e))
         else ret tt) st
    = (Return tt, st')
    /\ email_data st'
       = setitem (email_data st) To (PyList (l ++ recipients_of children))
    /\ attachments st' = attachments st
    /\ files st' = files st.
Proof.
  revert l st. induction children as [|c children IH]; intros l st HTo;
    cbn [for_each recipients_of].
  - exists st. split; [reflexivity|]. rewrite app_nil_r, <- HTo.
    now destruct (email_data st).
  - assert (Hc : exists st1,
               (if str_eqb (name c) (lit "__substg1.0_3003001F")
                then try_except
                       match doc_open c with
                       | OpenRaises e => raise e
                       | OpenNone => print (StreamIsNoneRecipient (name c))
                       | ReadRaises e => raise e
                       | Contents d => To_append (decode_text d)
                       end
                       (fun e => print (ErrorExtractingRecipient (name c) e))
                else ret tt) st = (Return tt, st1)
               /\ email_data st1
                  = setitem (email_data st) To
                      (PyList (l ++ match recipient_bytes c with
                                    | Some d => [decode_text d]
                                    | None => []
                                    end))
               /\ attachments st1 = attachments st
               /\ files st1 = files st).
    { assert (Hsame : email_data st = setitem (email_data st) To (PyList (l ++ []))).
      { rewrite app_nil_r, <- HTo. now destruct (email_data st). }
      unfold recipient_bytes, stream_named.
      destruct c as [n [e| |e|d]|n ch]; cbn [name doc_open existsb];
        rewrite ?orb_false_r;
        destruct (str_eqb n (lit "__substg1.0_3003001F"));
        try (eexists; split; [reflexivity|]; now repeat split).
      unfold try_except. rewrite (To_append_list _ l st HTo).
      eexists; split; [reflexivity|]; now repeat split. }
    destruct Hc as (st1 & H1 & E1 & A1 & F1).
    assert (HTo1 : getitem (email_data st1) To
                   = PyList (l ++ match recipient_bytes c with
                                  | Some d => [decode_text d]
                                  | None => []
                                  end))
      by (rewrite E1; apply getitem_setitem_same).
    destruct (IH _ st1 HTo1) as (st2 & H2 & E2 & A2 & F2).
    exists st2. rewrite (bind_Return _ _ _ _ _ H1). split; [exact H2|].
    split; [|split; congruence].
    rewrite E2, E1. destruct (recipient_bytes c); rewrite <- app_assoc;
      now destruct (email_data st).
Qed.

(** X1.  [_extract_recipients] never raises.  On a directory whose name
    starts with the recipient-group prefix it appends to ["To"] the decoded
    text of every child stream named __substg1.0_3003001F that opens and
    reads, in the order of the children, and changes nothing else; children
    of other names, unreadable ones and sub-directories add nothing.  On any
    other entry it changes nothing at all. *)
Theorem extract_recipients_appends (entry : entry) (l : list str) (st : state) :
  getitem (email_data st) To = PyList l ->
  exists st',
    _extract_recipients entry st = (Return tt, st')
    /\ email_data st'
       = setitem (email_data st) To (PyList (l ++ all_recipients [entry]))
    /\ attachments st' = attachments st
    /\ files st' = files st
    /\ (isdir entry && startswith (name entry) (lit "__recip_version1.0_") = false ->
        st' = st).
Proof.
  intros HTo. unfold _extract_recipients, all_recipients. cbn [flat_map].
  rewrite app_nil_r.
  assert (Hsame : email_data st = setitem (email_data st) To (PyList (l ++ []))).
  { rewrite app_nil_r, <- HTo. now destruct (email_data st). }
  destruct entry as [n c|n children]; cbn [isdir name iter andb].
  - exists st. now repeat split.
  - destruct (startswith n (lit "__recip_version1.0_")).
    + destruct (extract_recipients_loop children l st HTo) as (st' & H & E & A & F).
      exists st'. repeat split; try assumption. discriminate.
    + exists st. now repeat split.
Qed.

Lemma extract_recipients_appends_witness :
  exists st',
    _extract_recipients
      (Storage (lit "__recip_version1.0_#00000000")
         [Stream (lit "__substg1.0_3001001F") (Contents (utf16le "Bob"));
          Stream (lit "__substg1.0_3003001F") (Contents (utf16le "bob@example.org"))])
      init
    = (Return tt, st')
    /\ email_data st'
       = setitem (email_data init) To
           (PyList ([] ++ all_recipients
                      [Storage (lit "__recip_version1.0_#00000000")
                         [Stream (lit "__substg1.0_3001001F")
                            (Contents (utf16le "Bob"));
                          Stream (lit "__substg1.0_3003001F")
                            (Contents (utf16le "bob@example.org"))]]))
    /\ attachments st' = attachments init
    /\ files st' = files init
    /\ (true && true = false -> st' = init).
Proof.
  exact (extract_recipients_appends
           (Storage (lit "__recip_version1.0_#00000000")
              [Stream (lit "__substg1.0_3001001F") (Contents (utf16le "Bob"));
               Stream (lit "__substg1.0_3003001F")
                 (Contents (utf16le "bob@example.org"))])
           [] init eq_refl).
Defined.

Lemma all_recipients_cons (e : entry) (root : list entry) :
  all_recipients (e :: root) = all_recipients [e] ++ all_recipients root.
Proof. unfold all_recipients. cbn [flat_map]. now rewrite app_nil_r. Qed.

(** The recipients a traversal collects. *)
Lemma traverse_recipients (w : World) (output_dir : str) (root : list entry)
    (l : list str) (st : state) :
  getitem (email_data st) To = PyList l ->
  exists st',
    traverse w output_dir root st = (Return tt, st')
    /\ getitem (email_data st') To = PyList (l ++ all_recipients root).
Proof.
  unfold traverse. revert l st.
  induction root as [|e root IH]; intros l st HTo; cbn [for_each].
  - exists st. split; [reflexivity|]. now rewrite app_nil_r.
  - destruct (extract_metadata_spec e st) as (st1 & H1 & _ & _ & T1 & _).
    assert (HTo1 : getitem (email_data st1) To = PyList l) by congruence.
    assert (Hr : exists st2,
               _extract_recipients e st1 = (Return tt, st2)
               /\ getitem (email_data st2) To = PyList (l ++ all_recipients [e])).
    { unfold _extract_recipients, all_recipients. cbn [flat_map].
      rewrite app_nil_r.
      destruct e as [n c|n children]; cbn [isdir name iter andb].
      - exists st1. split; [reflexivity|]. now rewrite app_nil_r.
      - destruct (startswith n (lit "__recip_version1.0_")).
        + destruct (extract_recipients_loop children l st1 HTo1)
            as (st2 & H & E & _).
          exists st2. split; [exact H|]. rewrite E. apply getitem_setitem_same.
        + exists st1. split; [reflexivity|]. now rewrite app_nil_r. }
    destruct Hr as (st2 & H2 & T2).
    destruct (extract_attachment_spec w output_dir e st2) as (st3 & H3 & E3).
    assert (HTo3 : getitem (email_data st3) To = PyList (l ++ all_recipients [e]))
      by (rewrite E3; exact T2).
    destruct (IH _ st3 HTo3) as (st4 & H4 & T4).
    exists st4. split.
    + assert (Hentry : _process_msg_entry w output_dir e st = (Return tt, st3)).
      { unfold _process_msg_entry, try_except.
        now rewrite (bind_Return _ _ _ _ _ H1), (bind_Return _ _ _ _ _ H2), H3. }
      now rewrite (bind_Return _ _ _ _ _ Hentry).
    + rewrite T4, (all_recipients_cons e root). f_equal. symmetry. apply app_assoc.
Qed.

(** X2.  For a .msg file whose container opens, the ["To"] list that
    [process] returns holds exactly the addresses delivered by the
    recipient groups among the root entries, in the order of the container:
    nothing else in the container adds to it or removes from it. *)
Theorem process_msg_recipients (w : World) (file_path output_dir : str)
    (root : list entry) :
  endswith (lower file_path) (lit ".msg") = true ->
  CompoundFileReader w file_path = inr root ->
  exists (d : dict) (a : list str) (st' : state),
    process w file_path output_dir init = (Return (d, a), st')
    /\ getitem d To = PyList (all_recipients root).
Proof.
  intros Hmsg Hopen.
  destruct (traverse_recipients w output_dir root [] init eq_refl)
    as (st1 & H1 & T1).
  exists (email_data st1), (attachments st1), st1.
  unfold process, _process_msg, try_except, bind, lift, ret, get.
  rewrite Hmsg, Hopen. fold (traverse w output_dir root). rewrite H1.
  split; [reflexivity | exact T1].
Qed.

Lemma process_msg_recipients_witness :
  exists (d : dict) (a : list str) (st' : state),
    process
      (world_of
         [Storage (lit "__recip_version1.0_#00000000")
            [Stream (lit "__substg1.0_3003001F") (Contents (utf16le "bob"))];
          Stream (lit "__substg1.0_0037001F") (Contents (utf16le "Hi"));
          Storage (lit "__recip_version1.0_#00000001")
            [Stream (lit "__substg1.0_3003001F") (Contents (utf16le "eve"))]])
      (lit "mail.msg") (lit "attachments") init
    = (Return (d, a), st')
    /\ getitem d To
       = PyList (all_recipients
                   [Storage (lit "__recip_version1.0_#00000000")
                      [Stream (lit "__substg1.0_3003001F")
                         (Contents (utf16le "bob"))];
                    Stream (lit "__substg1.0_0037001F") (Contents (utf16le "Hi"));
                    Storage (lit "__recip_version1.0_#00000001")
                      [Stream (lit "__substg1.0_3003001F")
                         (Contents (utf16le "eve"))]]).
Proof.
  exact (process_msg_recipients
           (world_of
              [Storage (lit "__recip_version1.0_#00000000")
                 [Stream (lit "__substg1.0_3003001F") (Contents (utf16le "bob"))];
               Stream (lit "__substg1.0_0037001F") (Contents (utf16le "Hi"));
               Storage (lit "__recip_version1.0_#00000001")
                 [Stream (lit "__substg1.0_3003001F") (Contents (utf16le "eve"))]])
           (lit "mail.msg") (lit "attachments") _ eq_refl eq_refl).
Defined.

(** ** Attachments *)

(** One iteration of the scan computes [scan_step]. *)
Lemma extract_attachment_stream_step (a : attachment) (c : entry) (st : state) :
  exists st',
    _extract_attachment_stream a c st = (Return (scan_step a c), st')
    /\ only_prints is_scan_line st st'.
Proof.
  destruct (extract_attachment_stream_spec a c st) as (a' & st' & H & P & D & F).
  exists st'. split; [|exact P]. rewrite H. do 2 f_equal.
  assert (M : mime_type a' = match mime_bytes c with
                             | Some d => Some (decode_text d)
                             | None => mime_type a
                             end).
  { revert H. unfold _extract_attachment_stream, mime_bytes, stream_named.
    destruct c as [n [e| |e|d]|n ch]; cbn [isdir negb doc_open name existsb];
      unfold try_except, bind, raise, print, modify, ret;
      try (intros [= <- _]; reflexivity).
    rewrite orb_false_r.
    destruct (str_eqb n (lit "__substg1.0_37010102")) eqn:E1.
    { apply str_eqb_eq in E1. subst n. intros [= <- _]. reflexivity. }
    destruct (str_eqb n (lit "__substg1.0_370E001F")) eqn:E2.
    { apply str_eqb_eq in E2. subst n. intros [= <- _]. reflexivity. }
    destruct (str_eqb n (lit "__substg1.0_3707001F")) eqn:E3.
    { apply str_eqb_eq in E3. subst n. intros [= <- _]. reflexivity. }
    cbn [orb].
    destruct (str_eqb n (lit "__substg1.0_3704001F"));
      intros [= <- _]; reflexivity. }
  destruct a' as [da fa ma]. cbn [data filename mime_type] in *.
  unfold scan_step. now rewrite D, F, M.
Qed.

(** The scan of the children computes [fold_left scan_step]. *)
Lemma extract_attachment_scan_fold (children : list entry) (a : attachment)
    (st : state) :
  exists st',
    for_fold children _extract_attachment_stream a st
    = (Return (fold_left scan_step children a), st')
    /\ only_prints is_scan_line st st'.
Proof.
  revert a st. induction children as [|c children IH]; intros a st;
    cbn [for_fold fold_left].
  - exists st. split; [reflexivity | apply only_prints_refl].
  - destruct (extract_attachment_stream_step a c st) as (st1 & H1 & P1).
    destruct (IH (scan_step a c) st1) as (st2 & H2 & P2).
    exists st2. rewrite (bind_Return _ _ _ _ _ H1). split; [exact H2|].
    now apply (only_prints_trans _ st st1 st2).
Qed.

Lemma bool_of_opt_data (o : option bytes) :
  bool_of_opt o = true <-> exists d, o = Some d /\ d <> [].
Proof.
  destruct o as [[|b d]|]; cbn; split; try discriminate.
  - intros (d & [= <-] & Hd). now contradiction Hd.
  - intros _. eexists. split; [reflexivity | discriminate].
  - intros (d' & _ & _). reflexivity.
  - intros (d & [=] & _).
Qed.

(** What [_extract_attachment] does to the session, case by case. *)
Lemma extract_attachment_cases (w : World) (output_dir : str) (n : str)
    (children : list entry) (st : state) :
  exists st' printed,
    _extract_attachment w output_dir (Storage n children) st = (Return tt, st')
    /\ email_data st' = email_data st
    /\ Forall is_scan_line printed
    /\ let a := scanned children in
       let f := saved_name a n in
       let filepath := os_path_join output_dir f in
       if startswith n (lit "__attach_version1.0_") then
         match data a with
         | Some (b :: d) =>
             match open_wb w filepath with
             | None =>
                 attachments st' = attachments st ++ [f]
                 /\ files st' = Write filepath (b :: d) :: Create filepath :: files st
                 /\ stdout st' = SavedAttachment filepath :: printed ++ stdout st
             | Some e =>
                 attachments st' = attachments st
                 /\ files st' = files st
                 /\ stdout st' = ErrorSavingAttachment n e :: printed ++ stdout st
             end
         | _ =>
             attachments st' = attachments st
             /\ files st' = files st
             /\ stdout st' = printed ++ stdout st
         end
       else st' = st /\ printed = [].
Proof.
  unfold _extract_attachment. cbn [isdir name iter andb].
  destruct (startswith n (lit "__attach_version1.0_"));
    [|exists st, []; now repeat split].
  destruct (extract_attachment_scan_fold children
              {| data := None; filename := None; mime_type := None |} st)
    as (st1 & Hscan & E1 & A1 & F1 & printed & S1 & P1).
  fold (scanned children) in Hscan.
  rewrite (bind_Return _ _ _ _ _ Hscan). cbv zeta.
  destruct (data (scanned children)) as [[|b d]|] eqn:Hd; cbn [bool_of_opt truthy].
  - exists st1, printed. now repeat split.
  - unfold try_except, bind.
    destruct (open_wb w (os_path_join output_dir (saved_name (scanned children) n)))
      as [e|] eqn:Hw.
    + assert (Hs : _save_attachment w output_dir (scanned children) n st1
                   = (Raise e, st1)).
      { unfold _save_attachment. rewrite replace_all_forbidden.
        fold (base_name (scanned children) n). change (ord ".") with 46.
        replace (if negb (contains 46 (sanitize (base_name (scanned children) n)))
                 then mime_to_ext_get (mime_type (scanned children)) else [])
          with (if contains 46 (sanitize (base_name (scanned children) n)) then []
                else mime_to_ext_get (mime_type (scanned children)))
          by now destruct (contains 46 _).
        fold (saved_name (scanned children) n). now rewrite Hw. }
      rewrite Hs. eexists _, printed. split; [reflexivity|].
      cbn [email_data attachments files stdout]. rewrite S1. now repeat split.
    + rewrite (save_attachment_run w output_dir (scanned children) n (b :: d) st1 Hd Hw).
      eexists _, printed. split; [reflexivity|].
      cbn [email_data attachments files stdout]. rewrite S1, A1, F1.
      now repeat split.
  - exists st1, printed. now repeat split.
Qed.

(** X3.  An attachment group is saved from what its children deliver, the
    last payload, the last file name and the last MIME type winning: when
    the payload is not empty and the file can be opened,
    [_extract_attachment] creates exactly one file, under the computed
    name in the output directory, writes exactly the payload to it, appends
    exactly that name to the attachment list and leaves the record alone. *)
Theorem extract_attachment_saves (w : World) (output_dir : str) (n : str)
    (children : list entry) (d : bytes) (st : state) :
  startswith n (lit "__attach_version1.0_") = true ->
  data (scanned children) = Some d ->
  d <> [] ->
  open_wb w (os_path_join output_dir (saved_name (scanned children) n)) = None ->
  exists st',
    _extract_attachment w output_dir (Storage n children) st = (Return tt, st')
    /\ attachments st' = attachments st ++ [saved_name (scanned children) n]
    /\ files st'
       = Write (os_path_join output_dir (saved_name (scanned children) n)) d
         :: Create (os_path_join output_dir (saved_name (scanned children) n))
         :: files st
    /\ email_data st' = email_data st.
Proof.
  intros Hn Hd Hne Hw.
  destruct (extract_attachment_cases w output_dir n children st)
    as (st' & printed & H & E & _ & Hcase).
  cbv zeta in Hcase. rewrite Hn, Hd, Hw in Hcase.
  destruct d as [|b d]; [contradiction|].
  destruct Hcase as (A & F & _).
  exists st'. now repeat split.
Qed.

Lemma extract_attachment_saves_witness :
  exists st',
    _extract_attachment (world_of []) (lit "attachments")
      (Storage (lit "__attach_version1.0_#00000000")
         [Stream (lit "__substg1.0_37010102") (Contents [x00]);
          Stream (lit "__substg1.0_3704001F") (Contents (utf16le "text/plain"));
          Stream (lit "__substg1.0_37010102") (Contents [x68; x69])])
      init
    = (Return tt, st')
    /\ attachments st' = attachments init ++ [lit "attachment_00000000.txt"]
    /\ files st'
       = Write (lit "attachments/attachment_00000000.txt") [x68; x69]
         :: Create (lit "attachments/attachment_00000000.txt")
         :: files init
    /\ email_data st' = email_data init.
Proof.
  apply (extract_attachment_saves (world_of []) (lit "attachments")
           (lit "__attach_version1.0_#00000000")
           [Stream (lit "__substg1.0_37010102") (Contents [x00]);
            Stream (lit "__substg1.0_3704001F") (Contents (utf16le "text/plain"));
            Stream (lit "__substg1.0_37010102") (Contents [x68; x69])]
           [x68; x69] init).
  - reflexivity.
  - reflexivity.
  - discriminate.
  - reflexivity.
Defined.

(** X4.  When the file of an attachment cannot be opened for writing, the
    failure stays inside [_extract_attachment]: the call returns normally,
    no file operation is recorded, the attachment list and the record are
    unchanged, and the failure is printed with the name of the group. *)
Theorem extract_attachment_write_failure (w : World) (output_dir : str) (n : str)
    (children : list entry) (d : bytes) (e : exn) (st : state) :
  startswith n (lit "__attach_version1.0_") = true ->
  data (scanned children) = Some d ->
  d <> [] ->
  open_wb w (os_path_join output_dir (saved_name (scanned children) n)) = Some e ->
  exists st' printed,
    _extract_attachment w output_dir (Storage n children) st = (Return tt, st')
    /\ attachments st' = attachments st
    /\ files st' = files st
    /\ email_data st' = email_data st
    /\ stdout st' = ErrorSavingAttachment n e :: printed ++ stdout st
    /\ Forall is_scan_line printed.
Proof.
  intros Hn Hd Hne Hw.
  destruct (extract_attachment_cases w output_dir n children st)
    as (st' & printed & H & E & P & Hcase).
  cbv zeta in Hcase. rewrite Hn, Hd, Hw in Hcase.
  destruct d as [|b d]; [contradiction|].
  destruct Hcase as (A & F & S).
  exists st', printed. now repeat split.
Qed.

Lemma extract_attachment_write_failure_witness :
  exists st' printed,
    _extract_attachment world_closed (lit "attachments")
      (Storage (lit "__attach_version1.0_#00000000")
         [Stream (lit "__substg1.0_37010102") (Contents [x68; x69])])
      init
    = (Return tt, st')
    /\ attachments st' = attachments init
    /\ files st' = files init
    /\ email_data st' = email_data init
    /\ stdout st'
       = ErrorSavingAttachment (lit "__attach_version1.0_#00000000") OSError
         :: printed ++ stdout init
    /\ Forall is_scan_line printed.
Proof.
  apply (extract_attachment_write_failure world_closed (lit "attachments")
           (lit "__attach_version1.0_#00000000")
           [Stream (lit "__substg1.0_37010102") (Contents [x68; x69])]
           [x68; x69] OSError init).
  - reflexivity.
  - reflexivity.
  - discriminate.
  - reflexivity.
Defined.

Lemma save_attachment_returns_saved_name (w : World) (output_dir : str)
    (a : attachment) (n : str) (st : state) (f : str) :
  fst (_save_attachment w output_dir a n st) = Return f -> f = saved_name a n.
Proof.
  unfold _save_attachment. rewrite replace_all_forbidden.
  fold (base_name a n). change (ord ".") with 46.
  replace (if negb (contains 46 (sanitize (base_name a n)))
           then mime_to_ext_get (mime_type a) else [])
    with (if contains 46 (sanitize (base_name a n)) then []
          else mime_to_ext_get (mime_type a))
    by now destruct (contains 46 _).
  fold (saved_name a n).
  destruct (open_wb w (os_path_join output_dir (saved_name a n)));
    [discriminate|].
  destruct (data a); cbn; congruence.
Qed.

Lemma mime_to_ext_get_clean (m : option str) (c : Z) :
  In c (mime_to_ext_get m) -> is_forbidden c = false.
Proof.
  assert (Hbin : In c (lit ".bin") -> is_forbidden c = false)
    by (cbn; intros [<-|[<-|[<-|[<-|[]]]]]; reflexivity).
  unfold mime_to_ext_get. destruct m as [m|]; [|exact Hbin].
  unfold mime_to_ext.
  repeat match goal with
         | |- context [str_eqb m ?k] => destruct (str_eqb m k)
         end;
    try exact Hbin; cbn; intros [<-|[<-|[<-|[<-|[]]]]]; reflexivity.
Qed.

Lemma base_name_nonempty (a : attachment) (n : str) : base_name a n <> [].
Proof.
  unfold base_name, or_else.
  destruct (filename a) as [[|c s]|]; cbn; discriminate.
Qed.

Lemma saved_name_clean (a : attachment) (n : str) (c : Z) :
  In c (saved_name a n) -> is_forbidden c = false.
Proof.
  unfold saved_name. rewrite in_app_iff. intros [H|H].
  - exact (sanitize_no_forbidden _ _ H).
  - destruct (contains 46 _); [contradiction|].
    exact (mime_to_ext_get_clean _ _ H).
Qed.

Lemma startswith_app (a b : str) : startswith (a ++ b) a = true.
Proof.
  induction a as [|c a IH]; cbn [app startswith].
  - now destruct b.
  - now rewrite Z.eqb_refl, IH.
Qed.

(** X5.  Whatever file name an attachment declares, the name that
    [_save_attachment] returns is not empty and holds none of the
    characters < > : quote / \ | ? *; in particular it holds no path
    separator, so the path the file is written to is the output directory
    followed by that one name. *)
Theorem save_attachment_name_is_safe (w : World) (output_dir : str)
    (a : attachment) (n : str) (st : state) (f : str) :
  fst (_save_attachment w output_dir a n st) = Return f ->
  f <> []
  /\ (forall c : Z, In c f -> is_forbidden c = false)
  /\ contains 47 f = false
  /\ (os_path_join output_dir f = output_dir ++ f
      \/ os_path_join output_dir f = output_dir ++ lit "/" ++ f)
  /\ startswith (os_path_join output_dir f) output_dir = true.
Proof.
  intros Hf. apply save_attachment_returns_saved_name in Hf. subst f.
  assert (Hne : saved_name a n <> []).
  { unfold saved_name. pose proof (base_name_nonempty a n) as Hb.
    destruct (base_name a n); [contradiction | discriminate]. }
  assert (Hslash : contains 47 (saved_name a n) = false).
  { unfold contains. destruct (existsb _ _) eqn:E; [|reflexivity].
    apply existsb_exists in E as (c & Hin & Hc). apply Z.eqb_eq in Hc. subst c.
    pose proof (saved_name_clean a n 47 Hin) as Habs. discriminate Habs. }
  assert (Hjoin : os_path_join output_dir (saved_name a n)
                  = output_dir ++ saved_name a n
                  \/ os_path_join output_dir (saved_name a n)
                     = output_dir ++ lit "/" ++ saved_name a n).
  { unfold os_path_join.
    destruct (saved_name a n) as [|c s] eqn:Es; [contradiction|].
    cbn [startswith lit map list_ascii_of_string].
    unfold contains in Hslash. cbn [existsb] in Hslash.
    apply orb_false_iff in Hslash as [Hc _]. change (ord "/") with 47.
    rewrite Z.eqb_sym, Hc. cbn [andb].
    destruct (negb (truthy output_dir) || endswith output_dir _); auto. }
  repeat split; try assumption.
  - intros c. apply saved_name_clean.
  - destruct Hjoin as [-> | ->]; apply startswith_app.
Qed.

Lemma save_attachment_name_is_safe_witness :
  lit "..evil.exe" <> []
  /\ (forall c : Z, In c (lit "..evil.exe") -> is_forbidden c = false)
  /\ contains 47 (lit "..evil.exe") = false
  /\ (os_path_join (lit "attachments") (lit "..evil.exe")
      = lit "attachments" ++ lit "..evil.exe"
      \/ os_path_join (lit "attachments") (lit "..evil.exe")
         = lit "attachments" ++ lit "/" ++ lit "..evil.exe")
  /\ startswith (os_path_join (lit "attachments") (lit "..evil.exe"))
       (lit "attachments") = true.
Proof.
  exact (save_attachment_name_is_safe (world_of []) (lit "attachments")
           {| data := Some [x4d; x5a]; filename := Some (lit "/\evil.exe");
              mime_type := None |}
           (lit "__attach_version1.0_#00000000") init (lit "..evil.exe") eq_refl).
Defined.

Lemma attachment_names_cons (w : World) (output_dir : str) (e : entry)
    (root : list entry) :
  attachment_names w output_dir (e :: root)
  = attachment_names w output_dir [e] ++ attachment_names w output_dir root.
Proof. unfold attachment_names. cbn [flat_map]. now rewrite app_nil_r. Qed.

(** What one root entry adds to the attachment list and to the files. *)
Lemma process_msg_entry_attachments (w : World) (output_dir : str) (e : entry)
    (st : state) :
  exists st',
    _process_msg_entry w output_dir e st = (Return tt, st')
    /\ attachments st' = attachments st ++ attachment_names w output_dir [e]
    /\ (listed_written output_dir st -> listed_written output_dir st').
Proof.
  destruct (extract_metadata_spec e st) as (st1 & H1 & A1 & F1 & _).
  destruct (extract_recipients_spec e st1) as (st2 & H2 & A2 & F2 & _).
  assert (Hatt : exists st3,
             _extract_attachment w output_dir e st2 = (Return tt, st3)
             /\ attachments st3 = attachments st2 ++ attachment_names w output_dir [e]
             /\ (listed_written output_dir st2 -> listed_written output_dir st3)).
  { destruct e as [n c|n children].
    - exists st2. split; [reflexivity|]. cbn. rewrite app_nil_r. now split.
    - destruct (extract_attachment_cases w output_dir n children st2)
        as (st3 & printed & H3 & _ & _ & Hcase).
      exists st3. split; [exact H3|]. cbv zeta in Hcase.
      unfold attachment_names. cbn [flat_map]. rewrite app_nil_r.
      destruct (startswith n (lit "__attach_version1.0_")); cbn [andb].
      + destruct (data (scanned children)) as [[|b d]|] eqn:Hd;
          cbn [bool_of_opt truthy].
        * destruct Hcase as (A & F & _). rewrite app_nil_r. split; [exact A|].
          unfold listed_written. now rewrite A, F.
        * destruct (open_wb w _) as [ex|].
          -- destruct Hcase as (A & F & _). rewrite app_nil_r. split; [exact A|].
             unfold listed_written. now rewrite A, F.
          -- destruct Hcase as (A & F & _). split; [exact A|].
             unfold listed_written. rewrite A, F. intros Hold f Hin.
             apply in_app_iff in Hin as [Hin|[<-|[]]].
             ++ destruct (Hold f Hin) as (d' & Hne & Hw).
                exists d'. split; [exact Hne|]. now right; right.
             ++ exists (b :: d). split; [discriminate | now left].
        * destruct Hcase as (A & F & _). rewrite app_nil_r. split; [exact A|].
          unfold listed_written. now rewrite A, F.
      + destruct Hcase as [-> _]. rewrite app_nil_r. now split. }
  destruct Hatt as (st3 & H3 & A3 & L3).
  exists st3. split.
  - unfold _process_msg_entry, try_except.
    now rewrite (bind_Return _ _ _ _ _ H1), (bind_Return _ _ _ _ _ H2), H3.
  - split; [congruence|].
    intros Hold. apply L3. unfold listed_written in *. now rewrite A2, F2, A1, F1.
Qed.

Lemma traverse_attachments (w : World) (output_dir : str) (root : list entry)
    (st : state) :
  exists st',
    traverse w output_dir root st = (Return tt, st')
    /\ attachments st' = attachments st ++ attachment_names w output_dir root
    /\ (listed_written output_dir st -> listed_written output_dir st').
Proof.
  unfold traverse. revert st.
  induction root as [|e root IH]; intros st; cbn [for_each].
  - exists st. split; [reflexivity|]. cbn. rewrite app_nil_r. now split.
  - destruct (process_msg_entry_attachments w output_dir e st)
      as (st1 & H1 & A1 & L1).
    destruct (IH st1) as (st2 & H2 & A2 & L2).
    exists st2. rewrite (bind_Return _ _ _ _ _ H1). split; [exact H2|].
    split; [|auto].
    rewrite A2, A1, (attachment_names_cons w output_dir e root).
    symmetry. apply app_assoc.
Qed.

(** X6.  For a .msg file whose container opens, the attachment list that
    [process] returns holds exactly one name for each attachment group
    among the root entries whose children deliver a non-empty payload and
    whose file can be opened, in the order of the container; a group with
    no payload or with a file that cannot be opened is skipped without
    disturbing the groups after it. *)
Theorem process_msg_attachments (w : World) (file_path output_dir : str)
    (root : list entry) :
  endswith (lower file_path) (lit ".msg") = true ->
  CompoundFileReader w file_path = inr root ->
  exists (d : dict) (st' : state),
    process w file_path output_dir init
    = (Return (d, attachment_names w output_dir root), st').
Proof.
  intros Hmsg Hopen.
  destruct (traverse_attachments w output_dir root init) as (st1 & H1 & A1 & _).
  exists (email_data st1), st1.
  unfold process, _process_msg, try_except, bind, lift, ret, get.
  rewrite Hmsg, Hopen. fold (traverse w output_dir root). rewrite H1.
  now rewrite A1.
Qed.

Lemma process_msg_attachments_witness :
  exists (d : dict) (st' : state),
    process
      (world_of
         [Storage (lit "__attach_version1.0_#00000000")
            [Stream (lit "__substg1.0_3707001F") (Contents (utf16le "a.txt"))];
          Storage (lit "__attach_version1.0_#00000001")
            [Stream (lit "__substg1.0_37010102") (Contents [x68; x69])]])
      (lit "mail.msg") (lit "attachments") init
    = (Return (d, [lit "attachment_00000001.bin"]), st').
Proof.
  exact (process_msg_attachments
           (world_of
              [Storage (lit "__attach_version1.0_#00000000")
                 [Stream (lit "__substg1.0_3707001F") (Contents (utf16le "a.txt"))];
               Storage (lit "__attach_version1.0_#00000001")
                 [Stream (lit "__substg1.0_37010102") (Contents [x68; x69])]])
           (lit "mail.msg") (lit "attachments") _ eq_refl eq_refl).
Defined.

(** X7.  For a .msg file, every name in the attachment list that [process]
    returns is the name of a file that was written: the session holds a
    write of a non-empty payload to that name in the output directory. *)
Theorem process_msg_listed_are_written (w : World) (file_path output_dir : str)
    (d : dict) (a : list str) (st' : state) :
  endswith (lower file_path) (lit ".msg") = true ->
  process w file_path output_dir init = (Return (d, a), st') ->
  forall f : str,
    In f a ->
    exists payload : bytes,
      payload <> []
      /\ In (Write (os_path_join output_dir f) payload) (files st').
Proof.
  intros Hmsg. unfold process, _process_msg, try_except, bind, lift, ret, get, raise.
  rewrite Hmsg.
  destruct (CompoundFileReader w file_path) as [e|root].
  - cbn. intros [= <- <- <-] f [].
  - fold (traverse w output_dir root).
    destruct (traverse_attachments w output_dir root init) as (st1 & H1 & _ & L1).
    rewrite H1. intros [= <- <- <-]. apply L1. intros f [].
Qed.

Lemma process_msg_listed_are_written_witness :
  exists payload : bytes,
    payload <> []
    /\ In (Write (os_path_join (lit "attachments") (lit "attachment_00000001.bin"))
             payload)
         (files
            (snd (process
                    (world_of
                       [Storage (lit "__attach_version1.0_#00000001")
                          [Stream (lit "__substg1.0_37010102")
                             (Contents [x68; x69])]])
                    (lit "mail.msg") (lit "attachments") init))).
Proof.
  apply (process_msg_listed_are_written
           (world_of
              [Storage (lit "__attach_version1.0_#00000001")
                 [Stream (lit "__substg1.0_37010102") (Contents [x68; x69])]])
           (lit "mail.msg") (lit "attachments") _ _ _ eq_refl eq_refl).
  left. reflexivity.
Defined.

(** ** Decoding text properties *)

Lemma unit_of_bytes (u : Z) (r : bytes) :
  0 <= u < 65536 -> code_units (unit_bytes u ++ r) = u :: code_units r.
Proof.
  intros Hu. unfold unit_bytes. cbn [app code_units].
  rewrite !octet_byte_of_Z. f_equal.
  assert (u / 256 < 256) by (apply Z.div_lt_upper_bound; lia).
  assert (0 <= u / 256) by (apply Z.div_pos; lia).
  rewrite (Z.mod_small (u / 256)) by lia.
  pose proof (Z.div_mod u 256 ltac:(lia)). lia.
Qed.

Lemma is_scalar_range (c : Z) :
  is_scalar c = true <->
  (0 <= c < 0xD800 \/ 0xDFFF < c <= 0x10FFFF).
Proof.
  unfold is_scalar.
  destruct (Z.leb_spec 0 c), (Z.leb_spec c 0x10FFFF), (Z.leb_spec 0xD800 c),
    (Z.leb_spec c 0xDFFF); cbn; split; intros; try discriminate;
    try reflexivity; lia.
Qed.

(** Decoding undoes encoding, character by character. *)
Lemma decode_encode_char (c : Z) (r : bytes) :
  is_scalar c = true ->
  decode_utf16le_ignore (encode_char c ++ r) = c :: decode_utf16le_ignore r.
Proof.
  intros Hc. apply is_scalar_range in Hc.
  unfold decode_utf16le_ignore, encode_char.
  destruct (Z.ltb_spec c 0x10000) as [Hbmp|Hastral].
  - rewrite unit_of_bytes by lia. cbn [join_surrogates].
    unfold is_high_surrogate, is_low_surrogate.
    destruct (Z.leb_spec 0xD800 c), (Z.leb_spec c 0xDBFF),
      (Z.leb_spec 0xDC00 c), (Z.leb_spec c 0xDFFF); cbn [andb];
      try reflexivity; lia.
  - assert (Hv : 0 <= (c - 0x10000) / 0x400 < 0x400).
    { split; [apply Z.div_pos; lia | apply Z.div_lt_upper_bound; lia]. }
    pose proof (Z.mod_pos_bound (c - 0x10000) 0x400 ltac:(lia)) as Hm.
    rewrite <- app_assoc, unit_of_bytes by lia.
    rewrite unit_of_bytes by lia. cbn [join_surrogates].
    unfold is_high_surrogate, is_low_surrogate.
    destruct (Z.leb_spec 0xD800 (0xD800 + (c - 0x10000) / 0x400)); [|lia].
    destruct (Z.leb_spec (0xD800 + (c - 0x10000) / 0x400) 0xDBFF); [|lia].
    destruct (Z.leb_spec 0xDC00 (0xDC00 + (c - 0x10000) mod 0x400)); [|lia].
    destruct (Z.leb_spec (0xDC00 + (c - 0x10000) mod 0x400) 0xDFFF); [|lia].
    cbn [andb]. f_equal.
    pose proof (Z.div_mod (c - 0x10000) 0x400 ltac:(lia)). lia.
Qed.

Lemma decode_encode (s : str) :
  forallb is_scalar s = true ->
  decode_utf16le_ignore (encode_utf16le s) = s.
Proof.
  induction s as [|c s IH]; cbn [forallb encode_utf16le flat_map]; [reflexivity|].
  intros H. apply andb_true_iff in H as [Hc Hs].
  rewrite decode_encode_char by exact Hc. f_equal. now apply IH.
Qed.

Lemma encode_nul_padding (s : str) (k : nat) :
  encode_utf16le s ++ repeat x00 (2 * k) = encode_utf16le (s ++ repeat 0 k).
Proof.
  unfold encode_utf16le. rewrite flat_map_app. f_equal.
  induction k as [|k IH]; [reflexivity|].
  replace (2 * S k)%nat with (S (S (2 * k))) by lia.
  cbn [repeat flat_map]. rewrite <- IH. reflexivity.
Qed.

Lemma lstrip_repeat (c : Z) (k : nat) (s : str) :
  lstrip c (repeat c k ++ s) = lstrip c s.
Proof.
  induction k as [|k IH]; [reflexivity|].
  cbn [repeat app lstrip]. now rewrite Z.eqb_refl.
Qed.

Lemma rstrip_repeat (c : Z) (k : nat) (s : str) :
  rstrip c (s ++ repeat c k) = rstrip c s.
Proof.
  unfold rstrip. rewrite rev_app_distr, rev_repeat. now rewrite lstrip_repeat.
Qed.

Lemma lstrip_head (c : Z) (s : str) (d : Z) (r : str) :
  lstrip c s = d :: r -> d <> c.
Proof.
  induction s as [|x s IH]; cbn [lstrip]; [discriminate|].
  destruct (Z.eqb_spec x c) as [->|Hx]; [exact IH|].
  intros [= <- _]. exact Hx.
Qed.

Lemma rstrip_no_trailing (c : Z) (s s' : str) : rstrip c s <> s' ++ [c].
Proof.
  unfold rstrip. intros H. apply (f_equal (@rev Z)) in H.
  rewrite rev_involutive, rev_app_distr in H. cbn in H.
  now apply lstrip_head in H.
Qed.

Lemma rstrip_clean (c : Z) (s : str) :
  (forall s', s <> s' ++ [c]) -> rstrip c s = s.
Proof.
  unfold rstrip. intros H.
  destruct (rev s) as [|x r] eqn:E.
  - apply (f_equal (@rev Z)) in E. rewrite rev_involutive in E. now subst.
  - cbn [lstrip]. destruct (Z.eqb_spec x c) as [->|Hx].
    + exfalso. apply (H (rev r)).
      apply (f_equal (@rev Z)) in E. rewrite rev_involutive in E. exact E.
    + rewrite <- E. apply rev_involutive.
Qed.

(** X8.  Decoding a text property undoes the UTF-16-LE encoding with its
    NUL padding: for every string of Unicode scalar values that does not
    end in NUL, encoded in UTF-16-LE (surrogate pairs included) and followed
    by any number of NUL characters, the decoder gives back exactly the
    string. *)
Theorem decode_text_round_trip (s : str) (k : nat) :
  forallb is_scalar s = true ->
  (forall s', s <> s' ++ [0]) ->
  decode_text (encode_utf16le s ++ repeat x00 (2 * k)) = s.
Proof.
  intros Hs Hend. unfold decode_text.
  rewrite encode_nul_padding, decode_encode.
  - now rewrite rstrip_repeat, rstrip_clean.
  - rewrite forallb_app, Hs. cbn [andb].
    induction k as [|k IH]; [reflexivity | exact IH].
Qed.

Lemma decode_text_round_trip_witness :
  decode_text (encode_utf16le [72; 0x20AC; 0x1F600] ++ repeat x00 (2 * 3))
  = [72; 0x20AC; 0x1F600].
Proof.
  apply (decode_text_round_trip [72; 0x20AC; 0x1F600] 3).
  - reflexivity.
  - intros [|a [|b [|c [|d s']]]]; cbn; congruence.
Defined.

Lemma code_units_range_bounded (n : nat) (b : bytes) (u : Z) :
  (List.length b <= n)%nat -> In u (code_units b) -> 0 <= u < 65536.
Proof.
  revert b. induction n as [|n IH]; intros b Hlen.
  - destruct b; [contradiction | cbn in Hlen; lia].
  - destruct b as [|lo [|hi r]]; cbn [code_units]; try contradiction.
    cbn [List.length] in Hlen. intros [<-|Hin].
    + pose proof (octet_range lo). pose proof (octet_range hi). lia.
    + apply (IH r); [lia | exact Hin].
Qed.

Lemma code_units_range (b : bytes) (u : Z) :
  In u (code_units b) -> 0 <= u < 65536.
Proof. apply (code_units_range_bounded (List.length b)). lia. Qed.

Lemma join_surrogates_scalar (n : nat) (us : list Z) (c : Z) :
  (List.length us <= n)%nat ->
  (forall u, In u us -> 0 <= u < 65536) ->
  In c (join_surrogates us) -> is_scalar c = true.
Proof.
  revert us. induction n as [|n IH]; intros us Hlen Hrange.
  - destruct us; [contradiction | cbn in Hlen; lia].
  - destruct us as [|u r]; [contradiction|].
    cbn [List.length] in Hlen. cbn [join_surrogates].
    pose proof (Hrange u (or_introl eq_refl)) as Hu.
    assert (Hr : forall v, In v r -> 0 <= v < 65536)
      by (intros v Hv; apply Hrange; now right).
    unfold is_high_surrogate, is_low_surrogate.
    destruct (Z.leb_spec 0xD800 u), (Z.leb_spec u 0xDBFF); cbn [andb].
    + destruct r as [|d r']; [contradiction|].
      pose proof (Hr d (or_introl eq_refl)) as Hd.
      destruct (Z.leb_spec 0xDC00 d), (Z.leb_spec d 0xDFFF); cbn [andb];
        try (apply IH; [cbn [List.length] in *; lia | exact Hr]).
      intros [<-|Hin].
      * apply is_scalar_range. lia.
      * apply (IH r'); [cbn [List.length] in *; lia | | exact Hin].
        intros v Hv. apply Hr. now right.
    + destruct (Z.leb_spec 0xDC00 u), (Z.leb_spec u 0xDFFF); cbn [andb];
        first [ apply IH; [lia | exact Hr]
              | intros [<-|Hin];
                [apply is_scalar_range; lia
                |apply (IH r); [lia | exact Hr | exact Hin]] ].
    + destruct (Z.leb_spec 0xDC00 u), (Z.leb_spec u 0xDFFF); cbn [andb];
        first [ apply IH; [lia | exact Hr]
              | intros [<-|Hin];
                [apply is_scalar_range; lia
                |apply (IH r); [lia | exact Hr | exact Hin]] ].
    + lia.
Qed.

Lemma lstrip_incl (z : Z) (s : str) (c : Z) : In c (lstrip z s) -> In c s.
Proof.
  induction s as [|x s IH]; cbn [lstrip]; [contradiction|].
  destruct (x =? z); [intros H; right; now apply IH | exact (fun H => H)].
Qed.

Lemma rstrip_incl (z : Z) (s : str) (c : Z) : In c (rstrip z s) -> In c s.
Proof.
  unfold rstrip. intros H. apply in_rev in H. apply lstrip_incl in H.
  now apply in_rev.
Qed.

Lemma code_units_dangling (k : nat) (b : bytes) (x : byte) :
  List.length b = (2 * k)%nat -> code_units (b ++ [x]) = code_units b.
Proof.
  revert b. induction k as [|k IH]; intros b Hlen.
  - destruct b; [reflexivity | discriminate].
  - destruct b as [|lo [|hi r]]; cbn [List.length] in Hlen; try lia.
    cbn [app code_units]. f_equal. apply IH. lia.
Qed.

(** X9.  Whatever bytes a text property holds, the decoder returns a
    well-formed string: every character is a Unicode scalar value (invalid
    surrogate units are dropped, never kept), the string does not end in
    NUL, and a dangling last byte of an odd-length buffer is dropped
    without affecting the rest. *)
Theorem decode_text_well_formed (b : bytes) :
  (forall c : Z, In c (decode_text b) -> is_scalar c = true)
  /\ (forall s' : str, decode_text b <> s' ++ [0])
  /\ (forall (k : nat) (x : byte),
        List.length b = (2 * k)%nat -> decode_text (b ++ [x]) = decode_text b).
Proof.
  split; [|split].
  - intros c Hin. unfold decode_text, decode_utf16le_ignore in Hin.
    apply rstrip_incl in Hin.
    apply (join_surrogates_scalar (List.length (code_units b)) (code_units b));
      [lia | apply code_units_range | exact Hin].
  - intros s'. apply rstrip_no_trailing.
  - intros k x Hlen. unfold decode_text, decode_utf16le_ignore.
    now rewrite (code_units_dangling k).
Qed.

Lemma decode_text_well_formed_witness :
  decode_text ([x41; x00; x00; xd8; x00; x00] ++ [xff])
  = decode_text [x41; x00; x00; xd8; x00; x00].
Proof.
  apply (proj2 (proj2 (decode_text_well_formed [x41; x00; x00; xd8; x00; x00]))
           3%nat xff).
  reflexivity.
Defined.

(** ** Entries the traversal has no use for *)

Lemma process_msg_entry_ignored (w : World) (output_dir : str) (e : entry)
    (st : state) :
  ignored e = true -> _process_msg_entry w output_dir e st = (Return tt, st).
Proof.
  unfold ignored, _process_msg_entry, try_except, bind, _extract_metadata,
    _extract_recipients, _extract_attachment.
  destruct e as [n [ex| |ex|d]|n children]; try discriminate;
    cbn [isdir negb doc_open name andb iter].
  - unfold try_except, bind, get. destruct (mappings n); [discriminate|].
    reflexivity.
  - intros H. apply andb_true_iff in H as [Hr Ha].
    apply negb_true_iff in Hr, Ha. rewrite Hr, Ha. reflexivity.
Qed.

(** X10.  Unknown entries are ignored altogether: a readable root stream
    whose name is none of the six metadata identifiers, and a root directory
    that is neither a recipient group nor an attachment group, leave no
    trace, so a traversal gives the same result and the same session
    (record, attachment list, files and printed lines) as the traversal of
    the container without these entries. *)
Theorem traverse_skips_ignored (w : World) (output_dir : str) (root : list entry)
    (st : state) :
  traverse w output_dir root st
  = traverse w output_dir (filter (fun e => negb (ignored e)) root) st.
Proof.
  unfold traverse. revert st.
  induction root as [|e root IH]; intros st; cbn [filter for_each];
    [reflexivity|].
  destruct (ignored e) eqn:Hi; cbn [negb for_each].
  - rewrite (bind_Return _ _ _ _ _ (process_msg_entry_ignored w output_dir e st Hi)).
    apply IH.
  - unfold bind.
    destruct (_process_msg_entry w output_dir e st) as [[[]|ex] st1];
      [apply IH | reflexivity].
Qed.

(** ** How close a decoded timestamp is *)

Lemma div_half_even_near (n d : Z) :
  0 < d -> - d <= 2 * (div_half_even n d * d - n) <= d.
Proof.
  intros Hd. unfold div_half_even.
  pose proof (Z.div_mod n d ltac:(lia)) as E.
  pose proof (Z.mod_pos_bound n d Hd) as Hr.
  destruct (Z.compare_spec (2 * (n mod d)) d) as [C|C|C];
    [destruct (Z.even (n / d))| |]; nia.
Qed.

(** The microsecond count of an in-range tick count is within 16
    microseconds of a tenth of it. *)
Lemma filetime_us_accuracy (a us : Z) :
  0 <= a -> filetime_us a = Some us -> us <= MAX_US ->
  - 160 <= 10 * us - a <= 160.
Proof.
  intros Ha. unfold filetime_us, int_truediv.
  destruct (Z.eqb_spec a 0) as [->|Hnz].
  { intros Hs _. apply Some_eq in Hs. cbn in Hs. lia. }
  remember (quot_log2 a 10) as k eqn:Ek.
  remember (Z.max (k - (prec - 1)) emin) as e eqn:Ee.
  destruct (Z.leb_spec 0 e) as [Hpos|Hneg]; cbn [andb].
  - assert (Hp : 0 < 2 ^ e) by (apply Z.pow_pos_nonneg; lia).
    pose proof (div_half_even_near a (10 * 2 ^ e) ltac:(lia)) as Hnear.
    destruct (_ <=? _); [discriminate|]. intros Hs Hmax.
    apply Some_eq in Hs. rewrite round_float_mk in Hs.
    destruct (Z.leb_spec 0 e) as [_|Habs]; [|lia].
    assert (He : e <= 5).
    { destruct (Z_le_gt_dec e 5) as [L|G]; [exact L | exfalso].
      assert (Hek : e = k - 52) by (unfold prec, emin in Ee; lia).
      assert (H16 : 16 <= a).
      { destruct (Z_le_gt_dec 16 a) as [L|G']; [exact L | exfalso].
        assert (Z.log2 a < 4) by (apply Z.log2_lt_pow2; lia).
        revert Ek. unfold quot_log2. change (Z.log2 10) with 3.
        destruct (quot_ge_pow2 _ _ _); lia. }
      destruct (quot_log2_reached a H16) as [_ Hk]. rewrite <- Ek in Hk.
      assert (Hm : 2 ^ 52 <= div_half_even a (10 * 2 ^ e)).
      { apply div_half_even_ge; [lia|].
        replace (2 ^ 52 * (10 * 2 ^ e)) with (10 * (2 ^ e * 2 ^ 52)) by lia.
        rewrite <- Z.pow_add_r by lia. now replace (e + 52) with k by lia. }
      assert (H6 : 2 ^ 6 <= 2 ^ e) by (apply Z.pow_le_mono_r; lia).
      change (2 ^ 6) with 64 in H6. change (2 ^ 52) with 4503599627370496 in Hm.
      unfold MAX_US in Hmax. nia. }
    assert (H5 : 2 ^ e <= 2 ^ 5) by (apply Z.pow_le_mono_r; lia).
    change (2 ^ 5) with 32 in H5. subst us. nia.
  - assert (Hp : 2 <= 2 ^ (- e)).
    { change 2 with (2 ^ 1) at 1. apply Z.pow_le_mono_r; lia. }
    pose proof (div_half_even_near (a * 2 ^ (- e)) 10 ltac:(lia)) as Hm.
    intros Hs _. apply Some_eq in Hs. rewrite round_float_mk in Hs.
    destruct (Z.leb_spec 0 e) as [Habs|_]; [lia|].
    pose proof (div_half_even_near (div_half_even (a * 2 ^ (- e)) 10)
                  (2 ^ (- e)) ltac:(lia)) as Hu.
    rewrite Hs in Hu.
    remember (div_half_even (a * 2 ^ (- e)) 10) as m.
    remember (2 ^ (- e)) as P.
    assert (Hx : - (5 * P + 5) <= (10 * us - a) * P <= 5 * P + 5) by nia.
    nia.
Qed.

(** X11.  A timestamp that [_parse_filetime] returns is within 16
    microseconds of the instant the buffer spells: with [a] the
    little-endian integer of the buffer, in units of 100 nanoseconds since
    1601-01-01T00:00:00, ten times the microseconds of the timestamp since
    that epoch differ from [a] by at most 160. *)
Theorem parse_filetime_accuracy (data : bytes) (st st' : state) (dt : datetime) :
  _parse_filetime data st = (Return (PyDatetime dt), st') ->
  - 160 <= 10 * us_since_epoch dt - int_from_bytes_little data <= 160.
Proof.
  intros Hp.
  destruct (in_range (int_from_bytes_little data)) eqn:Hr.
  - destruct (parse_filetime_in_range data st Hr) as (t & Ht & Hus).
    rewrite Ht in Hp. injection Hp as -> _.
    apply filetime_us_accuracy;
      [apply int_from_bytes_range | exact Hus |].
    unfold in_range in Hr. rewrite Hus in Hr. now apply Z.leb_le.
  - rewrite (parse_filetime_unknown data st Hr) in Hp. discriminate Hp.
Qed.

Lemma parse_filetime_accuracy_witness :
  - 160
  <= 10 * us_since_epoch {| year := 2022; month := 6; day := 18;
                            hour := 4; minute := 26; second := 40;
                            microsecond := 0 |}
     - int_from_bytes_little [x05; x80; x20; x9b; xcb; x82; xd8; x01]
  <= 160.
Proof.
  exact (parse_filetime_accuracy [x05; x80; x20; x9b; xcb; x82; xd8; x01]
           init init
           {| year := 2022; month := 6; day := 18;
              hour := 4; minute := 26; second := 40; microsecond := 0 |}
           eq_refl).
Defined.

(** ** The decoded timestamp is a real date *)

Lemma ord2ymd_valid (n : Z) :
  584389 <= n <= _MAXORDINAL ->
  let '(y, m, d) := _ord2ymd n in
  1601 <= y <= 9999 /\ 1 <= m <= 12 /\ 1 <= d <= days_in_month y m.
Proof.
  intros Hn. unfold _ord2ymd. cbv zeta.
  remember ((n - 1) / _DI400Y) as n400 eqn:E400.
  remember ((n - 1) mod _DI400Y) as r400 eqn:R400.
  remember (r400 / _DI100Y) as n100 eqn:E100.
  remember (r400 mod _DI100Y) as r100 eqn:R100.
  remember (r100 / _DI4Y) as n4 eqn:E4.
  remember (r100 mod _DI4Y) as r4 eqn:R4.
  remember (r4 / 365) as n1 eqn:E1.
  remember (r4 mod 365) as r1 eqn:R1.
  remember (n400 * 400 + 1 + n100 * 100 + n4 * 4 + n1) as y eqn:Ey.
  assert (Hdec : 0 <= n400 /\ 0 <= n100 <= 4 /\ 0 <= n4 <= 24 /\ 0 <= n1 <= 4
                 /\ 0 <= r1 <= 364
                 /\ (n100 = 4 -> n4 = 0 /\ n1 = 0 /\ r1 = 0)
                 /\ (n1 = 4 -> n4 <= 23 /\ r1 = 0)
                 /\ 1601 <= y <= 10000
                 /\ (n1 = 4 \/ n100 = 4 -> 1602 <= y)
                 /\ (n1 <> 4 -> n100 <> 4 -> y <= 9999)).
  { unfold _DI400Y, _DI100Y, _DI4Y, _MAXORDINAL in *. subst.
    Z.div_mod_to_equations. lia. }
  assert (Hl : n1 <> 4 -> n100 <> 4 ->
               _is_leap y = (n1 =? 3) && (negb (n4 =? 24) || (n100 =? 3)))
    by (intros; subst y; apply is_leap_cycle; lia).
  clear E400 R400 E100 R100 E4 R4 E1 R1 Ey r400 r100 r4.
  destruct Hdec as (H400 & H100 & H4 & H1 & Hr1 & Hc & Hy & Hy1 & Hy2 & Hy3).
  destruct (Z.eqb_spec n1 4) as [En1|En1];
    [|destruct (Z.eqb_spec n100 4) as [En100|En100]]; cbn [orb].
  - specialize (Hy2 (or_introl En1)).
    unfold days_in_month. month_tables. closed_tests; lia.
  - specialize (Hy2 (or_intror En100)).
    unfold days_in_month. month_tables. closed_tests; lia.
  - specialize (Hy3 En1 En100). pose proof (Hl En1 En100) as Hl0.
    rewrite Z.shiftr_div_pow2 by lia. change (2 ^ 5) with 32.
    remember ((r1 + 50) / 32) as m0 eqn:Em0.
    assert (Hm0 : 1 <= m0 <= 12 /\ 32 * m0 <= r1 + 50 < 32 * m0 + 32)
      by (subst m0; Z.div_mod_to_equations; lia).
    remember ((n1 =? 3) && (negb (n4 =? 24) || (n100 =? 3))) as leapyear eqn:El.
    assert (Hleap : _is_leap y = leapyear) by exact Hl0.
    clear Em0 El.
    assert (Hcases : m0 = 1 \/ m0 = 2 \/ m0 = 3 \/ m0 = 4 \/ m0 = 5 \/ m0 = 6 \/ m0 = 7
                     \/ m0 = 8 \/ m0 = 9 \/ m0 = 10 \/ m0 = 11 \/ m0 = 12) by lia.
    destruct Hm0 as [_ Hr].
    repeat (destruct Hcases as [->|Hcases]); try subst m0;
      destruct leapyear; month_tables; closed_tests; try lia;
      unfold days_in_month; rewrite Hleap;
      month_tables; closed_tests; lia.
Qed.

Lemma datetime_add_epoch_valid (d s u : Z) (t : datetime) :
  0 <= d <= 3067670 -> 0 <= s < 86400 -> 0 <= u < 1000000 ->
  datetime_add epoch {| days := d; seconds := s; microseconds := u |} = inr t ->
  valid_datetime t.
Proof.
  intros Hd Hs Hu. unfold datetime_add.
  change (timedelta_normalize (toordinal epoch)
            (hour epoch * 3600 + minute epoch * 60 + second epoch)
            (microsecond epoch))
    with (@inr exn timedelta {| days := 584389; seconds := 0; microseconds := 0 |}).
  unfold timedelta_add. cbn [days seconds microseconds].
  rewrite !Z.add_0_l, timedelta_normalize_canonical by lia.
  cbn [days seconds microseconds].
  destruct (Z.ltb_spec 0 (584389 + d)) as [_|Habs]; [|lia].
  destruct (Z.leb_spec (584389 + d) _MAXORDINAL) as [_|Habs];
    [|unfold _MAXORDINAL in Habs; lia].
  cbn [andb].
  pose proof (ord2ymd_valid (584389 + d)
                ltac:(unfold _MAXORDINAL; lia)) as Hv.
  destruct (_ord2ymd (584389 + d)) as [[y m] dd].
  intros Ht. apply (f_equal (fun r => match r with
                                      | inr x => x
                                      | inl _ => epoch
                                      end)) in Ht.
  cbv beta iota in Ht. subst t. unfold valid_datetime.
  cbn [year month day hour minute second microsecond].
  destruct Hv as (Hy & Hm & Hday).
  repeat split; try lia; Z.div_mod_to_equations; lia.
Qed.

(** X12.  A timestamp that [_parse_filetime] returns is a real date and
    time: its year lies between 1601 and 9999, its month between 1 and 12,
    its day within the days of that month (29 only in February of a leap
    year), and hour, minute, second and microsecond are in range. *)
Theorem parse_filetime_valid_date (data : bytes) (st st' : state) (dt : datetime) :
  _parse_filetime data st = (Return (PyDatetime dt), st') ->
  valid_datetime dt.
Proof.
  unfold _parse_filetime, try_except, bind, lift, ret, raise.
  destruct (int_truediv (int_from_bytes_little data) 10) as [e|x] eqn:Hdiv;
    [discriminate|].
  assert (Hus : filetime_us (int_from_bytes_little data) = Some (round_float x))
    by (unfold filetime_us; now rewrite Hdiv).
  pose proof (filetime_us_nonneg _ _ (proj1 (int_from_bytes_range data)) Hus) as H0.
  unfold timedelta_microseconds. rewrite timedelta_normalize_us by exact H0.
  destruct (Z.ltb_spec 999999999 (round_float x / 86400000000)) as [_|Hd];
    [discriminate|].
  fold epoch.
  destruct (Z_le_gt_dec (round_float x / 86400000000) 3067670) as [L|G].
  - destruct (datetime_add epoch _) as [e|t] eqn:Hadd; [discriminate|].
    intros Hp. injection Hp as -> _.
    assert (Hdays : 0 <= round_float x / 86400000000)
      by (apply Z.div_pos; lia).
    apply (datetime_add_epoch_valid _ _ _ _ (conj Hdays L)
             (Z.mod_pos_bound _ 86400 eq_refl)
             (Z.mod_pos_bound _ 1000000 eq_refl) Hadd).
  - rewrite datetime_add_epoch_out_of_range;
      [discriminate | lia | apply Z.mod_pos_bound; lia
      | apply Z.mod_pos_bound; lia].
Qed.

Lemma parse_filetime_valid_date_witness :
  valid_datetime {| year := 2000; month := 2; day := 29;
                    hour := 12; minute := 0; second := 0; microsecond := 0 |}.
Proof.
  exact (parse_filetime_valid_date [x03; x60; x01; x81; xac; x82; xbf; x01]
           init init
           {| year := 2000; month := 2; day := 29;
              hour := 12; minute := 0; second := 0; microsecond := 0 |}
           eq_refl).
Defined.

(** ** The .eml path *)

Lemma extract_eml_body_loop_spec (w : World) (parts : list part) (st : state) :
  exists st',
    _extract_eml_body_loop w parts st
    = (Return (match first_body parts with Some _ => true | None => false end), st')
    /\ email_data st'
       = match first_body parts with
         | Some b => setitem (email_data st) Body
                       (PyStr (decode_utf8_ignore_strip w b))
         | None => email_data st
         end
    /\ attachments st' = attachments st
    /\ files st' = files st.
Proof.
  revert st. induction parts as [|p parts IH]; intros st;
    cbn [_extract_eml_body_loop first_body].
  - exists st. now repeat split.
  - unfold body_candidate.
    destruct (startswith (get_content_type p) (lit "text/")
              && negb (bool_of_opt (get_Content_Disposition p))); [|apply IH].
    unfold try_except, bind, lift, ret, raise.
    destruct (get_payload p) as [e|[[|b0 b]|]]; cbn [truthy].
    + destruct (IH (snd (print (ErrorDecodingBody e) st)))
        as (st' & H & E & A & F).
      exists st'. split; [exact H|]. now repeat split.
    + apply IH.
    + eexists. split; [reflexivity|]. now repeat split.
    + apply IH.
Qed.

(** X13.  [_extract_eml_body] never raises and always leaves a string in
    ["Body"]: the decoded payload of the first part of type text/... without
    Content-Disposition whose payload reads and is not empty, the parts
    whose payload fails or is empty being passed over, and the sentence
    No body content found in .eml file. when there is no such part.
    Nothing but ["Body"] changes in the record, and no attachment or file
    is touched. *)
Theorem extract_eml_body_sets_body (w : World) (msg : message) (st : state) :
  exists st',
    _extract_eml_body w msg st = (Return tt, st')
    /\ email_data st'
       = setitem (email_data st) Body
           (PyStr (match first_body (walk msg) with
                   | Some b => decode_utf8_ignore_strip w b
                   | None => lit "No body content found in .eml file."
                   end))
    /\ attachments st' = attachments st
    /\ files st' = files st.
Proof.
  unfold _extract_eml_body.
  destruct (extract_eml_body_loop_spec w (walk msg) st) as (st1 & H & E & A & F).
  rewrite (bind_Return _ _ _ _ _ H).
  destruct (first_body (walk msg)) as [b|]; cbn [negb].
  - exists st1. now repeat split.
  - eexists. split; [reflexivity|]. cbn [email_data attachments files].
    rewrite E. now repeat split.
Qed.

(** One attachment part whose file opens and whose payload reads. *)
Lemma eml_attachment_step (w : World) (output_dir : str) (p : part)
    (o : option bytes) (st : state) :
  is_attachment_part p = true ->
  open_wb w (os_path_join output_dir
               (eml_name p (List.length (attachments st)))) = None ->
  get_payload p = inr o ->
  exists st',
    _extract_eml_attachments w output_dir {| msg_get := fun _ => None; walk := [p] |} st
    = (Return tt, st')
    /\ attachments st' = attachments st ++ [eml_name p (List.length (attachments st))]
    /\ email_data st' = email_data st
    /\ files st'
       = (if bool_of_opt o
          then [Write (os_path_join output_dir
                         (eml_name p (List.length (attachments st))))
                  (match o with Some b => b | None => [] end)]
          else [])
         ++ Create (os_path_join output_dir
                      (eml_name p (List.length (attachments st))))
         :: files st.
Proof.
  intros Hp Hw Ho. unfold _extract_eml_attachments. cbn [walk for_each].
  unfold is_attachment_part in Hp. rewrite Hp.
  unfold bind at 1. unfold bind at 1. unfold get at 1.
  fold (eml_name p (List.length (attachments st))). rewrite Hw.
  unfold bind, fs_do, modify, lift, ret, attachments_append, print.
  rewrite Ho. cbn [attachments email_data files stdout].
  destruct (bool_of_opt o); eexists; (split; [reflexivity|]); now repeat split.
Qed.

Lemma eml_attachment_skip (w : World) (output_dir : str) (p : part) (st : state) :
  is_attachment_part p = false ->
  _extract_eml_attachments w output_dir {| msg_get := fun _ => None; walk := [p] |} st
  = (Return tt, st).
Proof.
  intros Hp. unfold _extract_eml_attachments. cbn [walk for_each].
  unfold is_attachment_part in Hp. now rewrite Hp.
Qed.

Lemma for_each_cons_single {A : Type} (x : A) (l : list A) (body : A -> M unit)
    (st : state) :
  for_each (x :: l) body st
  = match for_each [x] body st with
    | (Return _, st1) => for_each l body st1
    | (Raise e, st1) => (Raise e, st1)
    end.
Proof.
  cbn [for_each]. unfold bind, ret.
  destruct (body x st) as [[[]|e] st1]; reflexivity.
Qed.

Lemma eml_attachments_cons (w : World) (output_dir : str) (p : part)
    (parts : list part) (st : state) :
  _extract_eml_attachments w output_dir
    {| msg_get := fun _ => None; walk := p :: parts |} st
  = match _extract_eml_attachments w output_dir
            {| msg_get := fun _ => None; walk := [p] |} st with
    | (Return _, st1) =>
        _extract_eml_attachments w output_dir
          {| msg_get := fun _ => None; walk := parts |} st1
    | (Raise e, st1) => (Raise e, st1)
    end.
Proof.
  unfold _extract_eml_attachments. cbn [walk]. apply for_each_cons_single.
Qed.

Lemma eml_attachments_walk (w : World) (output_dir : str) (msg : message)
    (st : state) :
  _extract_eml_attachments w output_dir msg st
  = _extract_eml_attachments w output_dir
      {| msg_get := fun _ => None; walk := walk msg |} st.
Proof. reflexivity. Qed.

Lemma eml_attachments_loop (w : World) (output_dir : str) (parts : list part)
    (st : state) :
  (forall path, open_wb w path = None) ->
  (forall p, In p parts -> is_attachment_part p = true ->
             exists o, get_payload p = inr o) ->
  exists st' ops,
    _extract_eml_attachments w output_dir
      {| msg_get := fun _ => None; walk := parts |} st
    = (Return tt, st')
    /\ attachments st'
       = attachments st ++ eml_names parts (List.length (attachments st))
    /\ email_data st' = email_data st
    /\ files st' = ops ++ files st
    /\ (forall f, In f (eml_names parts (List.length (attachments st))) ->
                  In (Create (os_path_join output_dir f)) ops).
Proof.
  intros Hopen. revert st.
  induction parts as [|p parts IH]; intros st Hpay.
  - exists st, []. split; [reflexivity|]. cbn [eml_names].
    rewrite app_nil_r. repeat split. intros f [].
  - rewrite eml_attachments_cons. cbn [eml_names].
    assert (Hrest : forall q, In q parts -> is_attachment_part q = true ->
                              exists o, get_payload q = inr o)
      by (intros q Hq; apply Hpay; now right).
    destruct (is_attachment_part p) eqn:Hp.
    + destruct (Hpay p (or_introl eq_refl) Hp) as (o & Ho).
      destruct (eml_attachment_step w output_dir p o st Hp (Hopen _) Ho)
        as (st1 & H1 & A1 & E1 & F1).
      rewrite H1.
      destruct (IH st1 Hrest) as (st2 & ops & H2 & A2 & E2 & F2 & C2).
      assert (Hlen : List.length (attachments st1) = S (List.length (attachments st)))
        by (rewrite A1, length_app; cbn; lia).
      rewrite Hlen in A2, C2.
      set (name := eml_name p (List.length (attachments st))) in *.
      set (wr := if bool_of_opt o
                 then [Write (os_path_join output_dir name)
                         (match o with Some b => b | None => [] end)]
                 else []) in *.
      exists st2, (ops ++ wr ++ [Create (os_path_join output_dir name)]).
      split; [exact H2|]. split.
      { rewrite A2, A1. symmetry. apply (app_assoc _ [name]). }
      split; [now rewrite E2|]. split.
      * rewrite F2, F1. clear. rewrite <- !app_assoc. reflexivity.
      * intros f [Hf|Hin].
        -- subst f. apply in_or_app. right. apply in_or_app. right. now left.
        -- apply in_or_app. left. now apply C2.
    + rewrite (eml_attachment_skip w output_dir p st Hp). now apply IH.
Qed.

(** X14.  On the .eml path every part whose Content-Disposition mentions
    attachment is listed, in order, when its file opens and its payload
    reads: under its own file name, or under attachment_ followed by the
    number of attachments listed so far and .bin when it has none.  Unlike
    on the .msg path a part with an absent or empty payload is listed all
    the same: its file is created.  The record is left alone. *)
Theorem extract_eml_attachments_lists (w : World) (output_dir : str)
    (msg : message) (st : state) :
  (forall path, open_wb w path = None) ->
  (forall p, In p (walk msg) -> is_attachment_part p = true ->
             exists o, get_payload p = inr o) ->
  exists st' ops,
    _extract_eml_attachments w output_dir msg st = (Return tt, st')
    /\ attachments st'
       = attachments st ++ eml_names (walk msg) (List.length (attachments st))
    /\ email_data st' = email_data st
    /\ files st' = ops ++ files st
    /\ (forall f, In f (eml_names (walk msg) (List.length (attachments st))) ->
                  In (Create (os_path_join output_dir f)) ops).
Proof.
  intros Hopen Hpay. rewrite eml_attachments_walk.
  exact (eml_attachments_loop w output_dir (walk msg) st Hopen Hpay).
Qed.

Lemma extract_eml_attachments_lists_witness :
  exists st' ops,
    _extract_eml_attachments (world_of []) (lit "attachments")
      {| msg_get := fun _ => None;
         walk := [ {| get_content_type := lit "text/plain";
                      get_Content_Disposition := None;
                      get_payload := inr (Some [x68; x69]);
                      get_filename := None |};
                   {| get_content_type := lit "application/pdf";
                      get_Content_Disposition := Some (lit "attachment; filename=a.pdf");
                      get_payload := inr (Some [x25; x50]);
                      get_filename := Some (lit "a.pdf") |};
                   {| get_content_type := lit "application/octet-stream";
                      get_Content_Disposition := Some (lit "attachment");
                      get_payload := inr None;
                      get_filename := None |} ] |}
      init
    = (Return tt, st')
    /\ attachments st' = attachments init ++ [lit "a.pdf"; lit "attachment_1.bin"]
    /\ email_data st' = email_data init
    /\ files st' = ops ++ files init
    /\ (forall f, In f [lit "a.pdf"; lit "attachment_1.bin"] ->
                  In (Create (os_path_join (lit "attachments") f)) ops).
Proof.
  apply (extract_eml_attachments_lists (world_of []) (lit "attachments")
           {| msg_get := fun _ => None;
              walk := [ {| get_content_type := lit "text/plain";
                           get_Content_Disposition := None;
                           get_payload := inr (Some [x68; x69]);
                           get_filename := None |};
                        {| get_content_type := lit "application/pdf";
                           get_Content_Disposition :=
                             Some (lit "attachment; filename=a.pdf");
                           get_payload := inr (Some [x25; x50]);
                           get_filename := Some (lit "a.pdf") |};
                        {| get_content_type := lit "application/octet-stream";
                           get_Content_Disposition := Some (lit "attachment");
                           get_payload := inr None;
                           get_filename := None |} ] |}
           init).
  - reflexivity.
  - intros p [<-|[<-|[<-|[]]]] _; eexists; reflexivity.
Defined.

(** A part whose file cannot be opened stops the walk: nothing is caught. *)
Lemma eml_attachment_open_raises (w : World) (output_dir : str) (p : part)
    (e : exn) (st : state) :
  is_attachment_part p = true ->
  open_wb w (os_path_join output_dir
               (eml_name p (List.length (attachments st)))) = Some e ->
  _extract_eml_attachments w output_dir {| msg_get := fun _ => None; walk := [p] |} st
  = (Raise e, st).
Proof.
  intros Hp Hw. unfold _extract_eml_attachments. cbn [walk for_each].
  unfold is_attachment_part in Hp. rewrite Hp.
  unfold bind at 1. unfold bind at 1. unfold get at 1.
  fold (eml_name p (List.length (attachments st))). now rewrite Hw.
Qed.

Lemma eml_attachments_loop_paths (w : World) (output_dir : str)
    (parts : list part) (st : state) :
  (forall q k, In q parts -> is_attachment_part q = true ->
               open_wb w (os_path_join output_dir (eml_name q k)) = None) ->
  (forall q, In q parts -> is_attachment_part q = true ->
             exists o, get_payload q = inr o) ->
  exists st',
    _extract_eml_attachments w output_dir
      {| msg_get := fun _ => None; walk := parts |} st
    = (Return tt, st')
    /\ attachments st'
       = attachments st ++ eml_names parts (List.length (attachments st))
    /\ email_data st' = email_data st.
Proof.
  revert st. induction parts as [|p parts IH]; intros st Hopen Hpay.
  - exists st. split; [reflexivity|]. cbn [eml_names].
    now rewrite app_nil_r.
  - rewrite eml_attachments_cons. cbn [eml_names].
    assert (Hopen' : forall q k, In q parts -> is_attachment_part q = true ->
              open_wb w (os_path_join output_dir (eml_name q k)) = None)
      by (intros q k Hq; apply Hopen; now right).
    assert (Hpay' : forall q, In q parts -> is_attachment_part q = true ->
                              exists o, get_payload q = inr o)
      by (intros q Hq; apply Hpay; now right).
    destruct (is_attachment_part p) eqn:Hp.
    + destruct (Hpay p (or_introl eq_refl) Hp) as (o & Ho).
      destruct (eml_attachment_step w output_dir p o st Hp
                  (Hopen p _ (or_introl eq_refl) Hp) Ho)
        as (st1 & H1 & A1 & E1 & _).
      rewrite H1.
      destruct (IH st1 Hopen' Hpay') as (st2 & H2 & A2 & E2).
      assert (Hlen : List.length (attachments st1) = S (List.length (attachments st)))
        by (rewrite A1, length_app; cbn; lia).
      rewrite Hlen in A2.
      exists st2. split; [exact H2|]. split.
      * rewrite A2, A1. symmetry.
        apply (app_assoc _ [eml_name p (List.length (attachments st))]).
      * now rewrite E2.
    + rewrite (eml_attachment_skip w output_dir p st Hp). now apply IH.
Qed.

(** X15.  On the .eml path a failure to open an attachment's file is not
    caught (on the .msg path it is logged and the walk goes on): the
    exception leaves [_extract_eml_attachments] at the first part whose file
    does not open.  The attachments before it stay listed, that part and the
    parts after it are not, and the record is as before. *)
Theorem extract_eml_attachments_open_failure (w : World) (output_dir : str)
    (msg : message) (pre rest : list part) (p : part) (e : exn) (st : state) :
  walk msg = pre ++ p :: rest ->
  (forall q k, In q pre -> is_attachment_part q = true ->
               open_wb w (os_path_join output_dir (eml_name q k)) = None) ->
  (forall q, In q pre -> is_attachment_part q = true ->
             exists o, get_payload q = inr o) ->
  is_attachment_part p = true ->
  open_wb w (os_path_join output_dir
               (eml_name p (List.length
                  (attachments st
                   ++ eml_names pre (List.length (attachments st)))))) = Some e ->
  exists st',
    _extract_eml_attachments w output_dir msg st = (Raise e, st')
    /\ attachments st'
       = attachments st ++ eml_names pre (List.length (attachments st))
    /\ email_data st' = email_data st.
Proof.
  intros Hwalk Hopen Hpay Hp He.
  destruct (eml_attachments_loop_paths w output_dir pre st Hopen Hpay)
    as (st1 & H1 & A1 & E1).
  rewrite <- A1 in He.
  pose proof (eml_attachment_open_raises w output_dir p e st1 Hp He) as H2.
  exists st1. split; [|now split].
  unfold _extract_eml_attachments in *. cbn [walk] in H1, H2.
  rewrite Hwalk, for_each_app, (bind_Return _ _ _ _ _ H1).
  rewrite for_each_cons_single, H2. reflexivity.
Qed.

Lemma extract_eml_attachments_open_failure_witness :
  exists st',
    _extract_eml_attachments
      {| CompoundFileReader := fun _ => inl OSError;
         open_wb := fun path =>
           if str_eqb path (lit "attachments/b.txt") then Some OSError else None;
         open_rb := fun _ => inl OSError;
         BytesParser_parse := fun _ => {| msg_get := fun _ => None; walk := [] |};
         strptime := fun _ => inl ValueError;
         decode_utf8_ignore_strip := fun _ => [] |}
      (lit "attachments")
      {| msg_get := fun _ => None;
         walk := [ {| get_content_type := lit "application/pdf";
                      get_Content_Disposition := Some (lit "attachment");
                      get_payload := inr (Some [x25; x50]);
                      get_filename := Some (lit "a.pdf") |};
                   {| get_content_type := lit "text/plain";
                      get_Content_Disposition := Some (lit "attachment");
                      get_payload := inr (Some [x68; x69]);
                      get_filename := Some (lit "b.txt") |};
                   {| get_content_type := lit "text/plain";
                      get_Content_Disposition := Some (lit "attachment");
                      get_payload := inr (Some [x68; x69]);
                      get_filename := Some (lit "c.txt") |} ] |}
      init
    = (Raise OSError, st')
    /\ attachments st' = [lit "a.pdf"]
    /\ email_data st' = email_data init.
Proof.
  apply (extract_eml_attachments_open_failure _ (lit "attachments")
           {| msg_get := fun _ => None;
              walk := [ {| get_content_type := lit "application/pdf";
                           get_Content_Disposition := Some (lit "attachment");
                           get_payload := inr (Some [x25; x50]);
                           get_filename := Some (lit "a.pdf") |};
                        {| get_content_type := lit "text/plain";
                           get_Content_Disposition := Some (lit "attachment");
                           get_payload := inr (Some [x68; x69]);
                           get_filename := Some (lit "b.txt") |};
                        {| get_content_type := lit "text/plain";
                           get_Content_Disposition := Some (lit "attachment");
                           get_payload := inr (Some [x68; x69]);
                           get_filename := Some (lit "c.txt") |} ] |}
           [ {| get_content_type := lit "application/pdf";
                get_Content_Disposition := Some (lit "attachment");
                get_payload := inr (Some [x25; x50]);
                get_filename := Some (lit "a.pdf") |} ]
           [ {| get_content_type := lit "text/plain";
                get_Content_Disposition := Some (lit "attachment");
                get_payload := inr (Some [x68; x69]);
                get_filename := Some (lit "c.txt") |} ]
           {| get_content_type := lit "text/plain";
              get_Content_Disposition := Some (lit "attachment");
              get_payload := inr (Some [x68; x69]);
              get_filename := Some (lit "b.txt") |}
           OSError init).
  - reflexivity.
  - intros q k [<-|[]] _. reflexivity.
  - intros q [<-|[]] _. eexists. reflexivity.
  - reflexivity.
  - reflexivity.
Defined.

Lemma eml_names_In (parts : list part) (p : part) (n : str) (k : nat) :
  In p parts -> is_attachment_part p = true ->
  get_filename p = Some n -> truthy n = true ->
  In n (eml_names parts k).
Proof.
  revert k. induction parts as [|q parts IH]; intros k [].
  - subst q. intros Hp Hn Ht. cbn [eml_names]. rewrite Hp. left.
    unfold eml_name, or_else. rewrite Hn. cbn [bool_of_opt]. now rewrite Ht.
  - intros Hp Hn Ht. cbn [eml_names].
    destruct (is_attachment_part q); [right|]; now apply IH.
Qed.

(** X16.  The file name of an .eml attachment is used as it is declared
    (on the .msg path the separators are replaced first): a part that
    declares an absolute name is written at that very path, whatever the
    output directory, and is listed under it. *)
Theorem extract_eml_attachments_absolute_name (w : World) (output_dir : str)
    (msg : message) (p : part) (f : str) (st : state) :
  (forall path, open_wb w path = None) ->
  (forall q, In q (walk msg) -> is_attachment_part q = true ->
             exists o, get_payload q = inr o) ->
  In p (walk msg) ->
  is_attachment_part p = true ->
  get_filename p = Some (lit "/" ++ f) ->
  exists st',
    _extract_eml_attachments w output_dir msg st = (Return tt, st')
    /\ In (lit "/" ++ f) (attachments st')
    /\ In (Create (lit "/" ++ f)) (files st').
Proof.
  intros Hopen Hpay Hin Hp Hf.
  destruct (eml_attachments_loop w output_dir (walk msg) st Hopen Hpay)
    as (st' & ops & H & A & _ & F & C).
  assert (Hn : In (lit "/" ++ f)
                 (eml_names (walk msg) (List.length (attachments st))))
    by (now apply (eml_names_In _ p)).
  exists st'. split; [exact H|]. split.
  - rewrite A. apply in_or_app. now right.
  - rewrite F. apply in_or_app. left.
    specialize (C _ Hn).
    assert (Hj : os_path_join output_dir (lit "/" ++ f) = lit "/" ++ f)
      by (unfold os_path_join; cbn [lit list_ascii_of_string map app startswith];
          rewrite Z.eqb_refl; now destruct f).
    now rewrite Hj in C.
Qed.

Lemma extract_eml_attachments_absolute_name_witness :
  exists st',
    _extract_eml_attachments (world_of []) (lit "attachments")
      {| msg_get := fun _ => None;
         walk := [ {| get_content_type := lit "text/plain";
                      get_Content_Disposition := Some (lit "attachment");
                      get_payload := inr (Some [x68; x69]);
                      get_filename := Some (lit "/tmp/x") |} ] |}
      init
    = (Return tt, st')
    /\ In (lit "/tmp/x") (attachments st')
    /\ In (Create (lit "/tmp/x")) (files st').
Proof.
  apply (extract_eml_attachments_absolute_name (world_of []) (lit "attachments")
           {| msg_get := fun _ => None;
              walk := [ {| get_content_type := lit "text/plain";
                           get_Content_Disposition := Some (lit "attachment");
                           get_payload := inr (Some [x68; x69]);
                           get_filename := Some (lit "/tmp/x") |} ] |}
           {| get_content_type := lit "text/plain";
              get_Content_Disposition := Some (lit "attachment");
              get_payload := inr (Some [x68; x69]);
              get_filename := Some (lit "/tmp/x") |}
           (lit "tmp/x") init).
  - reflexivity.
  - intros q [<-|[]] _. eexists. reflexivity.
  - now left.
  - reflexivity.
  - reflexivity.
Defined.

(** Whatever happens to the attachments, the record is not touched. *)
Lemma eml_attachments_keep_record (w : World) (output_dir : str)
    (parts : list part) (st : state) :
  email_data (snd (_extract_eml_attachments w output_dir
                     {| msg_get := fun _ => None; walk := parts |} st))
  = email_data st.
Proof.
  revert st. induction parts as [|p parts IH]; intros st; [reflexivity|].
  rewrite eml_attachments_cons.
  assert (H1 : exists r st1,
             _extract_eml_attachments w output_dir
               {| msg_get := fun _ => None; walk := [p] |} st = (r, st1)
             /\ email_data st1 = email_data st).
  { unfold _extract_eml_attachments. cbn [walk for_each].
    destruct (bool_of_opt (get_Content_Disposition p)
              && str_in (lit "attachment")
                   (or_else (get_Content_Disposition p) []));
      [|now exists (Return tt), st].
    unfold bind at 1. unfold bind at 1. unfold get at 1.
    destruct (open_wb w _); [now eexists _, st|].
    unfold bind, fs_do, modify, lift, ret, raise, attachments_append, print.
    destruct (get_payload p) as [e|o]; [now eexists _, _|].
    destruct (bool_of_opt o); now eexists _, _. }
  destruct H1 as (r & st1 & H1 & E1). rewrite H1.
  destruct r as [[]|e]; [|exact E1].
  rewrite IH. exact E1.
Qed.

Lemma extract_eml_body_run (w : World) (msg : message) (st : state) :
  exists st',
    _extract_eml_body w msg st = (Return tt, st')
    /\ email_data st'
       = setitem (email_data st) Body
           (PyStr (match first_body (walk msg) with
                   | Some b => decode_utf8_ignore_strip w b
                   | None => lit "No body content found in .eml file."
                   end)).
Proof.
  unfold _extract_eml_body.
  destruct (extract_eml_body_loop_spec w (walk msg) st) as (st1 & H & E & _).
  rewrite (bind_Return _ _ _ _ _ H).
  destruct (first_body (walk msg)) as [b|]; cbn [negb].
  - now exists st1.
  - eexists. split; [reflexivity|]. cbn [email_data]. now rewrite E.
Qed.

(** X17.  Once the .eml file has been read, [_process_eml] leaves five
    fields that are never [None], whether or not the attachments are saved:
    ["From"], ["CC"] and ["Subject"] hold the header or Unknown Sender, the
    empty string and No Subject, ["To"] the list of the header's comma
    separated addresses (empty without the header) and ["Body"] a string.
    ["Sent On"] alone is left as it was when the message has no Date
    header. *)
Theorem process_eml_fields (w : World) (file_path output_dir : str)
    (f : bytes) (st : state) :
  open_rb w file_path = inr f ->
  (forall s e, strptime w s = inl e -> e = ValueError) ->
  let msg := BytesParser_parse w f in
  let d := email_data (snd (_process_eml w file_path output_dir st)) in
  getitem d From_
  = PyStr (match msg_get msg (lit "From") with
           | Some v => v | None => lit "Unknown Sender" end)
  /\ getitem d To
     = PyList (match msg_get msg (lit "To") with
               | Some (c :: v) => split_comma_space (c :: v) []
               | _ => []
               end)
  /\ getitem d CC
     = PyStr (match msg_get msg (lit "CC") with Some v => v | None => [] end)
  /\ getitem d Subject
     = PyStr (match msg_get msg (lit "Subject") with
              | Some v => v | None => lit "No Subject" end)
  /\ (exists b, getitem d Body = PyStr b)
  /\ (msg_get msg (lit "Date") = None ->
      getitem d Sent_On = getitem (email_data st) Sent_On).
Proof.
  intros Hf Hs msg d.
  assert (Hrec : exists st4 st5,
             d = setitem (email_data st5) Body
                   (PyStr (match first_body (walk msg) with
                           | Some b => decode_utf8_ignore_strip w b
                           | None => lit "No body content found in .eml file."
                           end))
             /\ email_data st4
                = setitem
                    (setitem
                       (setitem
                          (setitem (email_data st) From_
                             (PyStr (msg_get_default msg (lit "From")
                                       (lit "Unknown Sender"))))
                          To
                          (PyList (if bool_of_opt (msg_get msg (lit "To"))
                                   then split_comma_space
                                          (msg_get_default msg (lit "To") []) []
                                   else [])))
                       CC (PyStr (msg_get_default msg (lit "CC") [])))
                    Subject
                    (PyStr (msg_get_default msg (lit "Subject") (lit "No Subject")))
             /\ (forall k, key_eqb Sent_On k = false ->
                           getitem (email_data st5) k = getitem (email_data st4) k)
             /\ (msg_get msg (lit "Date") = None -> st5 = st4)).
  { subst d. unfold _process_eml.
    rewrite Hf. cbn [lift]. unfold bind at 1. unfold ret at 1.
    fold msg.
    unfold bind at 1. unfold set_email_data at 1, modify at 1.
    unfold bind at 1. unfold set_email_data at 1, modify at 1.
    unfold bind at 1. unfold set_email_data at 1, modify at 1.
    unfold bind at 1. unfold set_email_data at 1, modify at 1.
    match goal with
    | |- context [snd (bind ?c _ ?s)] => set (st4 := s); set (date := c)
    end.
    assert (Hd : exists st5,
               date st4 = (Return tt, st5)
               /\ (forall k, key_eqb Sent_On k = false ->
                             getitem (email_data st5) k = getitem (email_data st4) k)
               /\ (msg_get msg (lit "Date") = None -> st5 = st4)).
    { subst date. destruct (msg_get msg (lit "Date")) as [s|].
      - destruct (truthy s); [|now exists st4].
        destruct (strptime w s) as [e|[t off]] eqn:Es.
        + rewrite (Hs _ _ Es). eexists. split; [reflexivity|]. split.
          * intros k Hk. cbn [email_data]. now apply getitem_setitem_other.
          * discriminate.
        + eexists. split; [reflexivity|]. split.
          * intros k Hk. cbn [email_data]. now apply getitem_setitem_other.
          * discriminate.
      - now exists st4. }
    destruct Hd as (st5 & Hd & Hk & Hnone).
    unfold bind at 1. rewrite Hd. unfold bind at 1.
    destruct (extract_eml_body_run w msg st5) as (st6 & Hb & Eb).
    rewrite Hb.
    rewrite (eml_attachments_walk w output_dir msg st6).
    rewrite eml_attachments_keep_record, Eb.
    exists st4, st5. split; [reflexivity|]. split; [reflexivity|]. now split. }
  destruct Hrec as (st4 & st5 & -> & E4 & Hk & Hnone).
  assert (H4 : forall k, key_eqb Sent_On k = false -> key_eqb Body k = false ->
                         getitem (setitem (email_data st5) Body
                                    (PyStr (match first_body (walk msg) with
                                            | Some b => decode_utf8_ignore_strip w b
                                            | None => lit "No body content found in .eml file."
                                            end))) k
                         = getitem (email_data st4) k).
  { intros k H1 H2. rewrite getitem_setitem_other by exact H2. now apply Hk. }
  split; [rewrite H4, E4 by reflexivity; unfold msg_get_default; reflexivity|].
  split; [rewrite H4, E4 by reflexivity; unfold msg_get_default;
          cbn [getitem setitem v_To];
          destruct (msg_get msg (lit "To")) as [[|c v]|]; reflexivity|].
  split; [rewrite H4, E4 by reflexivity; unfold msg_get_default; reflexivity|].
  split; [rewrite H4, E4 by reflexivity; unfold msg_get_default; reflexivity|].
  split; [eexists; apply getitem_setitem_same|].
  intros Hn. rewrite getitem_setitem_other by reflexivity.
  rewrite (Hnone Hn), E4. reflexivity.
Qed.

Lemma process_eml_fields_witness :
  exists d,
    d = email_data
          (snd (_process_eml
                  {| CompoundFileReader := fun _ => inl OSError;
                     open_wb := fun _ => None;
                     open_rb := fun _ => inr [];
                     BytesParser_parse := fun _ =>
                       {| msg_get := fun h =>
                            if str_eqb h (lit "From") then Some (lit "a@b.c")
                            else if str_eqb h (lit "To")
                                 then Some (lit "d@e.f, g@h.i")
                                 else None;
                          walk := [] |};
                     strptime := fun _ => inl ValueError;
                     decode_utf8_ignore_strip := fun _ => [] |}
                  (lit "mail.eml") (lit "attachments") init))
    /\ getitem d From_ = PyStr (lit "a@b.c")
    /\ getitem d To = PyList [lit "d@e.f"; lit "g@h.i"]
    /\ getitem d CC = PyStr []
    /\ getitem d Subject = PyStr (lit "No Subject")
    /\ (exists b, getitem d Body = PyStr b)
    /\ (@None str = None -> getitem d Sent_On = PyNone).
Proof.
  eexists. split; [reflexivity|].
  match goal with
  | |- context [_process_eml ?w] =>
      apply (process_eml_fields w (lit "mail.eml") (lit "attachments") [] init)
  end.
  - reflexivity.
  - intros s e [= <-]. reflexivity.
Defined.

(** ** The kinds of value in the record *)

Lemma msg_record_fields (d : dict) :
  msg_record d = true <-> forall k, field_ok k (getitem d k) = true.
Proof.
  unfold msg_record. cbn [forallb]. rewrite !andb_true_iff. split.
  - intros (H1 & H2 & H3 & H4 & H5 & H6 & _) []; assumption.
  - intros H. repeat split; apply H.
Qed.

Lemma msg_record_setitem (d : dict) (k : key) (v : value) :
  msg_record d = true -> field_ok k v = true ->
  msg_record (setitem d k v) = true.
Proof.
  rewrite !msg_record_fields. intros Hd Hv k'.
  destruct (key_eqb k k') eqn:E.
  - assert (k = k') as <- by (now destruct k, k').
    now rewrite getitem_setitem_same.
  - rewrite getitem_setitem_other by exact E. apply Hd.
Qed.

Lemma parse_filetime_shape (data : bytes) (st : state) :
  exists v st',
    _parse_filetime data st = (Return v, st')
    /\ is_sent_on v = true
    /\ email_data st' = email_data st.
Proof.
  unfold _parse_filetime, try_except, bind, lift, ret, raise.
  destruct (int_truediv (int_from_bytes_little data) 10) as [e|x].
  { eexists _, _. split; [reflexivity|]. now split. }
  destruct (timedelta_microseconds x) as [e|delta].
  { eexists _, _. split; [reflexivity|]. now split. }
  match goal with
  | |- context [datetime_add ?t delta] => destruct (datetime_add t delta) as [e|t']
  end.
  { eexists _, _. split; [reflexivity|]. now split. }
  eexists _, _. split; [reflexivity|]. now split.
Qed.

Lemma extract_metadata_typed (entry : entry) (st : state) :
  msg_record (email_data st) = true ->
  exists st',
    _extract_metadata entry st = (Return tt, st')
    /\ msg_record (email_data st') = true.
Proof.
  intros Hd. unfold _extract_metadata.
  destruct entry as [n [e| |e|d]|n ch]; cbn [isdir negb doc_open name];
    try (eexists; split; [reflexivity | exact Hd]).
  unfold try_except, bind, get.
  destruct (mappings n) as [[k func]|] eqn:Hm;
    [|eexists; split; [reflexivity | exact Hd]].
  destruct (mappings_key n k func Hm) as [[-> ->]|(Hk & Hto & ->)].
  - cbn [key_eqb negb orb].
    destruct (bool_of (getitem (email_data st) Sent_On)); cbn [negb].
    + eexists; split; [reflexivity | exact Hd].
    + destruct (parse_filetime_shape d st) as (v & st1 & Hp & Hv & He).
      rewrite Hp. eexists; split; [reflexivity|]. cbn [email_data].
      rewrite He. now apply msg_record_setitem.
  - rewrite Hk. cbn [negb orb]. eexists; split; [reflexivity|].
    cbn [email_data]. apply msg_record_setitem; [exact Hd|].
    now destruct k.
Qed.

Lemma extract_recipients_typed (entry : entry) (st : state) :
  msg_record (email_data st) = true ->
  exists st',
    _extract_recipients entry st = (Return tt, st')
    /\ msg_record (email_data st') = true.
Proof.
  intros Hd. unfold _extract_recipients.
  destruct (isdir entry && startswith (name entry) (lit "__recip_version1.0_"));
    [|eexists; split; [reflexivity | exact Hd]].
  assert (HTo : exists l, getitem (email_data st) To = PyList l).
  { pose proof (proj1 (msg_record_fields _) Hd To) as H. cbn [field_ok] in H.
    destruct (getitem (email_data st) To); try discriminate. now eexists. }
  destruct HTo as (l & HTo).
  destruct (extract_recipients_loop (iter entry) l st HTo) as (st' & H & E & _).
  exists st'. split; [exact H|]. rewrite E. now apply msg_record_setitem.
Qed.

Lemma process_msg_entry_typed (w : World) (output_dir : str) (entry : entry)
    (st : state) :
  msg_record (email_data st) = true ->
  exists st',
    _process_msg_entry w output_dir entry st = (Return tt, st')
    /\ msg_record (email_data st') = true.
Proof.
  intros Hd. unfold _process_msg_entry, try_except.
  destruct (extract_metadata_typed entry st Hd) as (st1 & H1 & D1).
  destruct (extract_recipients_typed entry st1 D1) as (st2 & H2 & D2).
  destruct (extract_attachment_spec w output_dir entry st2) as (st3 & H3 & E3).
  exists st3.
  rewrite (bind_Return _ _ _ _ _ H1), (bind_Return _ _ _ _ _ H2), H3.
  split; [reflexivity|]. now rewrite E3.
Qed.

Lemma traverse_typed (w : World) (output_dir : str) (root : list entry)
    (st : state) :
  msg_record (email_data st) = true ->
  exists st',
    traverse w output_dir root st = (Return tt, st')
    /\ msg_record (email_data st') = true.
Proof.
  unfold traverse. revert st.
  induction root as [|entry root IH]; intros st Hd; cbn [for_each].
  - now exists st.
  - destruct (process_msg_entry_typed w output_dir entry st Hd) as (st1 & H1 & D1).
    destruct (IH st1 D1) as (st2 & H2 & D2).
    exists st2. now rewrite (bind_Return _ _ _ _ _ H1).
Qed.

Lemma process_msg_typed (w : World) (file_path output_dir : str) (st : state) :
  msg_record (email_data st) = true ->
  exists st',
    _process_msg w file_path output_dir st = (Return tt, st')
    /\ msg_record (email_data st') = true.
Proof.
  intros Hd. unfold _process_msg, try_except, bind, lift.
  destruct (CompoundFileReader w file_path) as [e|root].
  - eexists. split; [reflexivity | exact Hd].
  - unfold ret. fold (traverse w output_dir root).
    destruct (traverse_typed w output_dir root st Hd) as (st' & H & D).
    rewrite H. now exists st'.
Qed.

(** X18.  Whatever the container holds, the record [process] returns for a
    .msg path keeps the kinds of value it starts with: ["From"], ["CC"],
    ["Subject"] and ["Body"] hold [None] or a string, ["To"] a list, and
    ["Sent On"] [None], a timestamp without time zone or the string
    Unknown. *)
Theorem process_msg_record_kinds (w : World) (file_path output_dir : str) :
  endswith (lower file_path) (lit ".msg") = true ->
  exists (d : dict) (a : list str) (st' : state),
    process w file_path output_dir init = (Return (d, a), st')
    /\ is_text (getitem d From_) = true
    /\ is_list (getitem d To) = true
    /\ is_sent_on (getitem d Sent_On) = true
    /\ is_text (getitem d CC) = true
    /\ is_text (getitem d Subject) = true
    /\ is_text (getitem d Body) = true.
Proof.
  intros Hmsg.
  destruct (process_msg_typed w file_path output_dir init eq_refl)
    as (st1 & H1 & D1).
  exists (email_data st1), (attachments st1), st1.
  unfold process. rewrite Hmsg.
  rewrite (bind_Return _ _ _ _ _ H1). split; [reflexivity|].
  pose proof (proj1 (msg_record_fields _) D1) as F.
  repeat split; [apply (F From_) | apply (F To) | apply (F Sent_On)
                | apply (F CC) | apply (F Subject) | apply (F Body)].
Qed.

Lemma process_msg_record_kinds_witness :
  exists (d : dict) (a : list str) (st' : state),
    process
      (world_of
         [Stream (lit "__substg1.0_0037001F") (Contents (utf16le "Hi"));
          Stream (lit "__substg1.0_00390040") (Contents []);
          Storage (lit "__recip_version1.0_#00000000")
            [Stream (lit "__substg1.0_3003001F") (Contents (utf16le "bob"))]])
      (lit "mail.MSG") (lit "attachments") init
    = (Return (d, a), st')
    /\ is_text (getitem d From_) = true
    /\ is_list (getitem d To) = true
    /\ is_sent_on (getitem d Sent_On) = true
    /\ is_text (getitem d CC) = true
    /\ is_text (getitem d Subject) = true
    /\ is_text (getitem d Body) = true.
Proof.
  exact (process_msg_record_kinds
           (world_of
              [Stream (lit "__substg1.0_0037001F") (Contents (utf16le "Hi"));
               Stream (lit "__substg1.0_00390040") (Contents []);
               Storage (lit "__recip_version1.0_#00000000")
                 [Stream (lit "__substg1.0_3003001F")
                    (Contents (utf16le "bob"))]])
           (lit "mail.MSG") (lit "attachments") eq_refl).
Defined.

(** * The PDF generator *)

Import PDFGenerator.

(** ** Calls on the canvas *)

Lemma drawn_nil (s : session) : drawn s [] = s.
Proof. destruct s. unfold drawn. cbn. now rewrite app_nil_r. Qed.

Lemma drawn_app (s : session) (a b : list canvas_op) :
  drawn (drawn s a) b = drawn s (a ++ b).
Proof. unfold drawn. cbn. now rewrite app_assoc. Qed.

Lemma emit_drawn (op : canvas_op) (s : session) :
  emit op s = (Return tt, drawn s [op]).
Proof. reflexivity. Qed.

Lemma strings_app (a b : list canvas_op) :
  strings (a ++ b) = strings a ++ strings b.
Proof. apply flat_map_app. Qed.

Lemma gbind_Return {A B : Type} (c : G A) (k : A -> G B) (s s' : session) (a : A) :
  c s = (Return a, s') -> gbind c k s = k a s'.
Proof. unfold gbind. now intros ->. Qed.

Lemma gbind_Raise {A B : Type} (c : G A) (k : A -> G B) (s s' : session) (e : exn) :
  c s = (Raise e, s') -> gbind c k s = (Raise e, s').
Proof. unfold gbind. now intros ->. Qed.

Lemma colours_app (a b : list canvas_op) :
  colours (a ++ b) = colours a ++ colours b.
Proof. apply flat_map_app. Qed.

(** ** Wrapped text and page breaks *)

(** The loop of [_draw_text]. *)
Lemma draw_lines_spec (font : str) (x : Z) (lines : list str) (y : Z)
    (s : session) :
  y <= 742 ->
  exists y' ops,
    gfold lines
      (fun y line =>
         gbind (if y <? margin + 20
                then gbind (emit showPage)
                       (fun _ => gbind (emit (setFont font 12))
                                   (fun _ => gret (height - margin - 20)))
                else gret y)
           (fun y => gbind (emit (drawString x y line))
                       (fun _ => gret (y - line_height))))
      y s
    = (Return y', drawn s ops)
    /\ map snd (strings ops) = lines
    /\ Forall (in_text_area x) (strings ops)
    /\ y' <= 742
    /\ (lines = [] -> y' = y)
    /\ (lines <> [] -> 36 <= y' <= 728)
    /\ colours ops = [].
Proof.
  set (body := fun (y : Z) (line : str) => gbind _ _).
  revert y s. induction lines as [|line lines IH]; intros y s Hy.
  - exists y, []. cbn [gfold]. unfold gret. rewrite drawn_nil.
    split; [reflexivity|]. split; [reflexivity|]. split; [constructor|].
    split; [exact Hy|]. split; [reflexivity|]. split; [congruence | reflexivity].
  - set (y1 := if y <? 50 then 742 else y).
    set (pre := (if y <? 50 then [showPage; setFont font 12] else [])
                ++ [drawString x y1 line]).
    assert (Hstep : body y line s = (Return (y1 - 14), drawn s pre)).
    { subst body y1 pre. cbv beta.
      unfold gbind, emit, gret, drawn, margin, height, line_height.
      change (30 + 20) with 50. change (792 - 30 - 20) with 742.
      destruct (y <? 50); cbn [can written printed app];
        rewrite <- ?app_assoc; reflexivity. }
    assert (Hy1 : 50 <= y1 <= 742)
      by (subst y1; destruct (Z.ltb_spec y 50); lia).
    destruct (IH (y1 - 14) (drawn s pre) ltac:(lia))
      as (y' & ops & H & T & F & U & E & N & C).
    exists y', (pre ++ ops).
    split.
    { cbn [gfold]. rewrite (gbind_Return _ _ _ _ _ Hstep), H, drawn_app.
      reflexivity. }
    assert (Hpre : strings pre = [(x, y1, line)])
      by (subst pre; destruct (y <? 50); reflexivity).
    rewrite strings_app, Hpre. cbn [app map snd].
    split; [now rewrite T|].
    split; [constructor; [unfold in_text_area; cbn; lia | exact F]|].
    split; [exact U|]. split; [discriminate|]. split.
    + intros _.
      destruct lines as [|l2 lines]; [rewrite (E eq_refl); lia|].
      apply N. discriminate.
    + rewrite colours_app, C. subst pre. now destruct (y <? 50).
Qed.

Lemma draw_text_spec (lib : Library) (text : str) (x y : Z) (bold : bool)
    (s : session) :
  y <= 742 ->
  exists y' ops,
    _draw_text lib text x y bold s = (Return y', drawn s ops)
    /\ map snd (strings ops) = wrap lib text 76
    /\ Forall (in_text_area x) (strings ops)
    /\ y' <= 742
    /\ (wrap lib text 76 = [] -> y' = y)
    /\ (wrap lib text 76 <> [] -> 36 <= y' <= 728)
    /\ colours ops = [].
Proof.
  intros Hy. unfold _draw_text, wrap_width.
  set (font := lit "Helvetica" ++ (if bold then lit "-Bold" else [])).
  destruct (draw_lines_spec font x (wrap lib text 76) y
              (drawn s [setFont font 12]) Hy)
    as (y' & ops & H & T & F & U & E & N & C).
  exists y', ([setFont font 12] ++ ops).
  split.
  { unfold gbind at 1. rewrite emit_drawn, H, drawn_app. reflexivity. }
  rewrite strings_app. cbn [strings flat_map app]. fold (strings ops).
  split; [exact T|]. split; [exact F|]. split; [exact U|].
  split; [exact E|]. split; [exact N | exact C].
Qed.

Lemma drawn_inj (s : session) (a b : list canvas_op) :
  drawn s a = drawn s b -> a = b.
Proof.
  unfold drawn. intros [= H]. now apply app_inv_head in H.
Qed.

Lemma paged_cons (x top : Z) (l : str) (p : list (Z * Z * str))
    (rest : list (list (Z * Z * str))) :
  50 <= top ->
  paged x (top - 14) (p :: rest) ->
  paged x top (((x, top, l) :: p) :: rest).
Proof.
  intros Htop [Hc Hrest]. cbn [paged column List.length]. split.
  - now repeat split.
  - destruct rest as [|q rest]; [exact I|].
    destruct Hrest as (Hfull & Hq & Hp). split; [lia|]. now split.
Qed.

Lemma paged_turn (x y : Z) (q : list (Z * Z * str))
    (rest : list (list (Z * Z * str))) :
  y < 50 -> q <> [] -> paged x 742 (q :: rest) -> paged x y ([] :: q :: rest).
Proof.
  intros Hy Hq H. cbn [paged column List.length].
  split; [exact I|]. split; [lia|]. split; [exact Hq | exact H].
Qed.

Lemma next_ordinate_cons (top : Z) (l : Z * Z * str) (p : list (Z * Z * str))
    (rest : list (list (Z * Z * str))) :
  next_ordinate top ((l :: p) :: rest) = next_ordinate (top - 14) (p :: rest).
Proof.
  cbn [next_ordinate List.length]. destruct rest; [lia | reflexivity].
Qed.

(** The loop of [_draw_text], call by call. *)
Lemma draw_lines_layout (font : str) (x : Z) (lines : list str) (y : Z)
    (s : session) :
  exists y' p rest,
    gfold lines
      (fun y line =>
         gbind (if y <? margin + 20
                then gbind (emit showPage)
                       (fun _ => gbind (emit (setFont font 12))
                                   (fun _ => gret (height - margin - 20)))
                else gret y)
           (fun y => gbind (emit (drawString x y line))
                       (fun _ => gret (y - line_height))))
      y s
    = (Return y', drawn s (draw_pages font (p :: rest)))
    /\ paged x y (p :: rest)
    /\ map snd (List.concat (p :: rest)) = lines
    /\ y' = next_ordinate y (p :: rest).
Proof.
  set (body := fun (y : Z) (line : str) => gbind _ _).
  revert y s. induction lines as [|line lines IH]; intros y s.
  - exists y, [], []. cbn [gfold]. unfold gret.
    cbn [draw_pages map app]. rewrite drawn_nil.
    split; [reflexivity|]. split; [now split|]. split; [reflexivity|].
    cbn [next_ordinate List.length]. lia.
  - set (y1 := if y <? 50 then 742 else y).
    set (pre := (if y <? 50 then [showPage; setFont font 12] else [])
                ++ [drawString x y1 line]).
    assert (Hstep : body y line s = (Return (y1 - 14), drawn s pre)).
    { subst body y1 pre. cbv beta.
      unfold gbind, emit, gret, drawn, margin, height, line_height.
      change (30 + 20) with 50. change (792 - 30 - 20) with 742.
      destruct (y <? 50); cbn [can written printed app];
        rewrite <- ?app_assoc; reflexivity. }
    destruct (IH (y1 - 14) (drawn s pre)) as (y' & p & rest & H & P & T & N).
    assert (Hrun : gfold (line :: lines) body y s
                   = (Return y', drawn s (pre ++ draw_pages font (p :: rest)))).
    { cbn [gfold]. rewrite (gbind_Return _ _ _ _ _ Hstep), H, drawn_app.
      reflexivity. }
    subst y1 pre. destruct (Z.ltb_spec y 50) as [Hlt|Hge].
    + exists y', [], (((x, 742, line) :: p) :: rest).
      split; [rewrite Hrun; destruct rest; reflexivity|].
      split.
      { apply paged_turn; [exact Hlt | discriminate|].
        apply paged_cons; [lia | exact P]. }
      split; [cbn [List.concat app map snd] in *; now rewrite T|].
      rewrite N. symmetry. exact (next_ordinate_cons 742 (x, 742, line) p rest).
    + exists y', ((x, y, line) :: p), rest.
      split; [rewrite Hrun; destruct rest; reflexivity|].
      split; [now apply paged_cons|].
      split; [cbn [List.concat app map snd] in *; now rewrite T|].
      rewrite N. now rewrite next_ordinate_cons.
Qed.

(** X19.  [_draw_text] sets the font and draws the lines [textwrap.wrap]
    cuts the text into, in order and all at the abscissa it is given, as
    columns over pages: the first column goes on from the ordinate it is
    given, each line 14 below the one before; before a line that would fall
    below the bottom line 50, and only then, it calls [showPage], sets the
    font again and goes on from the top line 742.  Started no higher than
    the top line, it draws every line between 50 and 742.  The ordinate it
    returns is the one below the last line drawn: the one it was given when
    there is nothing to draw, and between 36 and 728 otherwise. *)
Theorem draw_text_paginates (lib : Library) (text : str) (x y : Z)
    (bold : bool) (s : session) :
  y <= 742 ->
  exists y' ops ps,
    _draw_text lib text x y bold s = (Return y', drawn s ops)
    /\ map snd (strings ops) = wrap lib text 76
    /\ Forall (in_text_area x) (strings ops)
    /\ (wrap lib text 76 = [] -> y' = y)
    /\ (wrap lib text 76 <> [] -> 36 <= y' <= 728)
    /\ ops = setFont (lit "Helvetica" ++ (if bold then lit "-Bold" else [])) 12
             :: draw_pages
                  (lit "Helvetica" ++ (if bold then lit "-Bold" else [])) ps
    /\ paged x y ps
    /\ map snd (List.concat ps) = wrap lib text 76
    /\ y' = next_ordinate y ps.
Proof.
  intros Hy.
  destruct (draw_text_spec lib text x y bold s Hy)
    as (y' & ops & H & T & F & _ & E & N & _).
  set (font := lit "Helvetica" ++ (if bold then lit "-Bold" else [])).
  destruct (draw_lines_layout font x (wrap lib text 76) y
              (drawn s [setFont font 12]))
    as (y2 & p & rest & H2 & P2 & T2 & N2).
  assert (Hrun : _draw_text lib text x y bold s
                 = (Return y2,
                    drawn s (setFont font 12 :: draw_pages font (p :: rest)))).
  { unfold _draw_text, wrap_width. fold font.
    unfold gbind at 1. rewrite emit_drawn, H2, drawn_app. reflexivity. }
  rewrite H in Hrun.
  assert (Ey : y' = y2) by congruence.
  assert (Eops : ops = setFont font 12 :: draw_pages font (p :: rest))
    by (apply (drawn_inj s); congruence).
  exists y', ops, (p :: rest).
  split; [exact H|]. split; [exact T|]. split; [exact F|].
  split; [exact E|]. split; [exact N|]. split; [exact Eops|].
  split; [exact P2|]. split; [exact T2|]. now rewrite Ey.
Qed.

Lemma draw_text_paginates_witness :
  exists y' ops ps,
    _draw_text
      {| wrap := fun text _ => [firstn 3 text; skipn 3 text];
         str_of := fun _ => [];
         pdf_open_wb := fun _ => None;
         PdfReader_pages := fun _ => 1%nat;
         PdfWriter_write := fun _ => [] |}
      (lit "abcdef") 30 60 false
      {| can := []; written := []; printed := [] |}
    = (Return y', drawn {| can := []; written := []; printed := [] |} ops)
    /\ map snd (strings ops) = [lit "abc"; lit "def"]
    /\ Forall (in_text_area 30) (strings ops)
    /\ ([lit "abc"; lit "def"] = [] -> y' = 60)
    /\ ([lit "abc"; lit "def"] <> [] -> 36 <= y' <= 728)
    /\ ops = setFont (lit "Helvetica") 12 :: draw_pages (lit "Helvetica") ps
    /\ paged 30 60 ps
    /\ map snd (List.concat ps) = [lit "abc"; lit "def"]
    /\ y' = next_ordinate 60 ps.
Proof.
  apply (draw_text_paginates
           {| wrap := fun text _ => [firstn 3 text; skipn 3 text];
              str_of := fun _ => [];
              pdf_open_wb := fun _ => None;
              PdfReader_pages := fun _ => 1%nat;
              PdfWriter_write := fun _ => [] |}
           (lit "abcdef") 30 60 false
           {| can := []; written := []; printed := [] |}).
  lia.
Defined.

(** The page is turned between the two lines of the text above: the second
    would fall at 46. *)
Example draw_text_turns_page :
  can (snd (_draw_text
              {| wrap := fun text _ => [firstn 3 text; skipn 3 text];
                 str_of := fun _ => [];
                 pdf_open_wb := fun _ => None;
                 PdfReader_pages := fun _ => 1%nat;
                 PdfWriter_write := fun _ => [] |}
              (lit "abcdef") 30 60 false
              {| can := []; written := []; printed := [] |}))
  = [setFont (lit "Helvetica") 12; drawString 30 60 (lit "abc");
     showPage; setFont (lit "Helvetica") 12; drawString 30 742 (lit "def")].
Proof. reflexivity. Qed.

(** ** Nothing is drawn off the page *)

Lemma keeps_ret {A : Type} (a : A) (post : A -> Prop) (s : session) :
  post a -> keeps_on_page (gret a) post s.
Proof.
  intros H. exists (Return a), s, []. rewrite app_nil_r.
  split; [reflexivity|]. split; [reflexivity|]. split; [constructor | exact H].
Qed.

Lemma keeps_lift {A : Type} (r : exn + A) (post : A -> Prop) (s : session) :
  (forall a, r = inr a -> post a) -> keeps_on_page (glift r) post s.
Proof.
  intros H. destruct r as [e|a]; cbn [glift].
  - exists (Raise e), s, []. rewrite app_nil_r.
    split; [reflexivity|]. split; [reflexivity|]. split; [constructor | exact I].
  - apply keeps_ret. now apply H.
Qed.

Lemma keeps_emit (op : canvas_op) (post : unit -> Prop) (s : session) :
  Forall on_page (strings [op]) -> post tt -> keeps_on_page (emit op) post s.
Proof.
  intros Hop H. exists (Return tt), (drawn s [op]), [op].
  split; [reflexivity|]. split; [reflexivity|]. split; [exact Hop | exact H].
Qed.

Lemma keeps_bind {A B : Type} (c : G A) (k : A -> G B) (mid : A -> Prop)
    (post : B -> Prop) (s : session) :
  keeps_on_page c mid s ->
  (forall a s', mid a -> keeps_on_page (k a) post s') ->
  keeps_on_page (gbind c k) post s.
Proof.
  intros (r & s1 & ops & H & C & F & P) Hk. destruct r as [a|e].
  - destruct (Hk a s1 P) as (r2 & s2 & ops2 & H2 & C2 & F2 & P2).
    exists r2, s2, (ops ++ ops2). rewrite (gbind_Return _ _ _ _ _ H).
    split; [exact H2|]. split; [now rewrite C2, C, app_assoc|].
    split; [|exact P2].
    rewrite strings_app. apply Forall_app. now split.
  - exists (Raise e), s1, ops. rewrite (gbind_Raise _ _ _ _ _ H).
    split; [reflexivity|]. split; [exact C|]. split; [exact F | exact I].
Qed.

Lemma keeps_weaken {A : Type} (c : G A) (post post' : A -> Prop) (s : session) :
  keeps_on_page c post s -> (forall a, post a -> post' a) ->
  keeps_on_page c post' s.
Proof.
  intros (r & s1 & ops & H & C & F & P) Hw. exists r, s1, ops.
  split; [exact H|]. split; [exact C|]. split; [exact F|].
  destruct r; [now apply Hw | exact I].
Qed.

Lemma in_text_area_on_page (x : Z) (l : list (Z * Z * str)) :
  Forall (in_text_area x) l -> Forall on_page l.
Proof.
  apply Forall_impl. intros p [_ H]. unfold on_page. lia.
Qed.

Lemma keeps_draw_text (lib : Library) (text : str) (x y : Z) (bold : bool)
    (s : session) :
  y <= 742 ->
  keeps_on_page (_draw_text lib text x y bold)
    (fun y' => Z.min y 36 <= y' <= 742) s.
Proof.
  intros Hy.
  destruct (draw_text_spec lib text x y bold s Hy)
    as (y' & ops & H & _ & F & U & E & N & _).
  exists (Return y'), (drawn s ops), ops. split; [exact H|].
  split; [reflexivity|].
  split; [now apply (in_text_area_on_page x)|].
  destruct (wrap lib text 76) as [|l ls].
  - rewrite (E eq_refl). lia.
  - assert (36 <= y' <= 728) by (apply N; discriminate). lia.
Qed.

(** The loop of [_draw_headers] over the keys that are left. *)
Lemma keeps_draw_headers_loop (lib : Library) (email_data : dict)
    (keys : list key) (y : Z) (s : session) :
  (List.length keys <= 5)%nat ->
  11 + 5 * Z.of_nat (List.length keys) <= y <= 742 ->
  keeps_on_page
    (gfold keys
       (fun y key =>
          let value := getitem email_data key in
          if bool_of value || key_eqb key Sent_On then
            let label := key_str key ++ lit ":" in
            gbind (glift (header_text lib key value))
              (fun value_str =>
                 gbind (emit (setFont (lit "Helvetica-Bold") 12))
                   (fun _ =>
                      gbind (emit (drawString margin y label))
                        (fun _ =>
                           gbind (emit (setFont (lit "Helvetica") 12))
                             (fun _ =>
                                gbind (_draw_text lib value_str (margin + 80) y false)
                                  (fun y => gret (y - 5))))))
          else gret y)
       y)
    (fun y' => 11 <= y' <= 742) s.
Proof.
  revert y s. induction keys as [|key keys IH]; intros y s Hlen Hy;
    cbn [gfold List.length] in *.
  - apply keeps_ret. lia.
  - apply (keeps_bind _ _
             (fun y' => 11 + 5 * Z.of_nat (List.length keys) <= y' <= 742)).
    + cbv zeta.
      destruct (bool_of (getitem email_data key) || key_eqb key Sent_On).
      * apply (keeps_bind _ _ (fun _ => True)); [now apply keeps_lift|].
        intros value_str s1 _.
        apply (keeps_bind _ _ (fun _ => True));
          [apply keeps_emit; [constructor | exact I]|].
        intros _ s2 _.
        apply (keeps_bind _ _ (fun _ => True)).
        { apply keeps_emit; [|exact I].
          cbn [strings flat_map app]. constructor; [|constructor].
          unfold on_page. cbn [fst snd]. lia. }
        intros _ s3 _.
        apply (keeps_bind _ _ (fun _ => True));
          [apply keeps_emit; [constructor | exact I]|].
        intros _ s4 _.
        apply (keeps_bind _ _ (fun y' => Z.min y 36 <= y' <= 742));
          [apply keeps_draw_text; lia|].
        intros y' s5 Hy'. apply keeps_ret. lia.
      * apply keeps_ret. lia.
    + intros y' s' Hy'. apply IH; lia.
Qed.

Lemma keeps_draw_headers (lib : Library) (email_data : dict) (s : session) :
  keeps_on_page (_draw_headers lib email_data (height - margin - 20))
    (fun y' => 11 <= y' <= 742) s.
Proof.
  unfold _draw_headers. cbv zeta. apply keeps_draw_headers_loop.
  - cbn. lia.
  - cbn. lia.
Qed.

Lemma keeps_draw_body (lib : Library) (email_data : dict) (y : Z) (s : session) :
  y <= 742 ->
  keeps_on_page (_draw_body lib email_data y) (fun y' => y' <= 742) s.
Proof.
  intros Hy. unfold _draw_body.
  apply (keeps_bind _ _ (fun _ => True)); [now apply keeps_lift|].
  intros paragraphs s1 _.
  apply (keeps_bind _ _ (fun r => snd r <= 742)).
  - assert (Hloop : forall (b : bool * Z) s0, snd b <= 742 ->
              keeps_on_page
                (gfold paragraphs
                   (fun '(in_chain, y) para =>
                      gbind
                        (if is_chain_marker para then
                           gbind (emit (setFillColorRGB level_half level_half level_half))
                             (fun _ => gret true)
                         else if in_chain && forallb isspace para then
                           gbind (emit (setFillColorRGB level_0 level_0 level_0))
                             (fun _ => gret false)
                         else gret in_chain)
                        (fun in_chain =>
                           gbind (_draw_text lib para
                                    (margin + (if in_chain then 10 else 0)) y false)
                             (fun y =>
                                gret (in_chain,
                                      if negb (truthy para) && (margin <? y)
                                      then y - line_height else y))))
                   b)
                (fun r => snd r <= 742) s0).
    { clear s1. induction paragraphs as [|para paragraphs IH];
        intros [in_chain y0] s0 Hb; cbn [gfold snd] in *.
      - now apply keeps_ret.
      - apply (keeps_bind _ _ (fun r => snd r <= 742)); [|intros r s' Hr; now apply IH].
        apply (keeps_bind _ _ (fun _ => True)).
        { destruct (is_chain_marker para);
            [|destruct (in_chain && forallb isspace para)].
          - apply (keeps_bind _ _ (fun _ => True));
              [apply keeps_emit; [constructor | exact I]|].
            intros _ s' _. now apply keeps_ret.
          - apply (keeps_bind _ _ (fun _ => True));
              [apply keeps_emit; [constructor | exact I]|].
            intros _ s' _. now apply keeps_ret.
          - now apply keeps_ret. }
        intros in_chain' s' _.
        apply (keeps_bind _ _ (fun y' => Z.min y0 36 <= y' <= 742));
          [now apply keeps_draw_text|].
        intros y' s'' Hy'. apply keeps_ret. cbn [snd].
        unfold line_height. destruct (negb (truthy para) && (margin <? y')); lia. }
    apply Hloop. exact Hy.
  - intros r s2 Hr.
    apply (keeps_bind _ _ (fun _ => True));
      [apply keeps_emit; [constructor | exact I]|].
    intros _ s3 _. now apply keeps_ret.
Qed.

Lemma keeps_draw_attachments (lib : Library) (attachments : list str) (y : Z)
    (s : session) :
  y <= 742 ->
  keeps_on_page (_draw_attachments lib attachments y) (fun y' => y' <= 742) s.
Proof.
  intros Hy. unfold _draw_attachments.
  destruct (truthy attachments); [|now apply keeps_ret].
  apply (keeps_bind _ _ (fun y' => y' <= 742)).
  - apply (keeps_weaken _ (fun y' => Z.min y 36 <= y' <= 742));
      [now apply keeps_draw_text | lia].
  - clear y Hy s. intros y s Hy. revert y s Hy.
    induction attachments as [|attach attachments IH]; intros y s Hy;
      cbn [gfold].
    + now apply keeps_ret.
    + apply (keeps_bind _ _ (fun y' => y' <= 742)).
      * apply (keeps_weaken _ (fun y' => Z.min y 36 <= y' <= 742));
          [now apply keeps_draw_text | lia].
      * intros y' s' Hy'. now apply IH.
Qed.

Lemma keeps_save_pdf (lib : Library) (output_path : str) (s : session) :
  keeps_on_page (_save_pdf lib output_path) (fun _ => True) s.
Proof.
  unfold _save_pdf. destruct (pdf_open_wb lib output_path) as [e|].
  - exists (Raise e), s, []. rewrite app_nil_r. split; [reflexivity|].
    split; [reflexivity|]. split; [constructor | exact I].
  - eexists (Return tt), _, []. split; [reflexivity|]. cbn [can].
    rewrite app_nil_r. split; [reflexivity|]. split; [constructor | exact I].
Qed.

(** X20.  Whatever the record and the attachment list hold, and whether
    [generate] returns or raises, no string is drawn off the page: every
    string on the canvas has its ordinate between 16 and 742, on a page 792
    high.  (The labels of [_draw_headers] are drawn without the test that
    turns the page: hence the lower bound 16 and not 50.) *)
Theorem generate_keeps_on_page (lib : Library) (email_data : dict)
    (attachments : list str) (output_path : str) (s : session) :
  Forall on_page
    (strings (can (snd (generate lib email_data attachments output_path s)))).
Proof.
  unfold generate. unfold gbind at 1. unfold new_canvas at 1.
  match goal with
  | |- context [snd (?c ?s0)] =>
      assert (K : keeps_on_page c (fun _ => True) s0)
  end.
  { apply (keeps_bind _ _ (fun y' => 11 <= y' <= 742));
      [apply keeps_draw_headers|].
    intros y1 s1 Hy1. cbv zeta.
    apply (keeps_bind _ _ (fun y' => y' <= 742));
      [apply keeps_draw_body; lia|].
    intros y2 s2 Hy2.
    apply (keeps_bind _ _ (fun y' => y' <= 742));
      [apply keeps_draw_attachments; lia|].
    intros y3 s3 Hy3.
    apply (keeps_bind _ _ (fun _ => True)).
    { destruct (negb (any_values email_data) && negb (truthy attachments));
        [|now apply keeps_ret].
      apply (keeps_bind _ _ (fun _ => True)).
      - apply (keeps_weaken _ (fun y' => Z.min y3 36 <= y' <= 742));
          [now apply keeps_draw_text | easy].
      - intros _ s4 _. now apply keeps_ret. }
    intros _ s4 _.
    apply (keeps_bind _ _ (fun _ => True));
      [apply keeps_emit; [constructor | exact I]|].
    intros _ s5 _. apply keeps_save_pdf. }
  destruct K as (r & s' & ops & H & C & F & _).
  rewrite H. cbn [snd]. rewrite C. exact F.
Qed.

(** ** From the extractor to the generator *)

Lemma returns_ret {A : Type} (a : A) (s : session) : returns (gret a) s.
Proof. exists a, []. unfold gret. now rewrite drawn_nil. Qed.

Lemma returns_emit (op : canvas_op) (s : session) : returns (emit op) s.
Proof. now exists tt, [op]. Qed.

Lemma returns_bind {A B : Type} (c : G A) (k : A -> G B) (s : session) :
  returns c s -> (forall a s', returns (k a) s') -> returns (gbind c k) s.
Proof.
  intros (a & ops & H) Hk. destruct (Hk a (drawn s ops)) as (b & ops2 & H2).
  exists b, (ops ++ ops2).
  now rewrite (gbind_Return _ _ _ _ _ H), H2, drawn_app.
Qed.

Lemma returns_gfold {A B : Type} (l : list A) (body : B -> A -> G B) (b : B)
    (s : session) :
  (forall b x s', returns (body b x) s') -> returns (gfold l body b) s.
Proof.
  intros Hbody. revert b s. induction l as [|x l IH]; intros b s; cbn [gfold].
  - apply returns_ret.
  - apply returns_bind; [apply Hbody | intros b' s'; apply IH].
Qed.

Lemma returns_draw_text (lib : Library) (text : str) (x y : Z) (bold : bool)
    (s : session) :
  returns (_draw_text lib text x y bold) s.
Proof.
  unfold _draw_text. apply returns_bind; [apply returns_emit|].
  intros _ s1. apply returns_gfold. intros y0 line s2.
  apply returns_bind.
  - destruct (y0 <? margin + 20); [|apply returns_ret].
    apply returns_bind; [apply returns_emit|]. intros _ s3.
    apply returns_bind; [apply returns_emit|]. intros _ s4. apply returns_ret.
  - intros y1 s3. apply returns_bind; [apply returns_emit|].
    intros _ s4. apply returns_ret.
Qed.

(** Only a ["To"] that is not a list can make a header fail. *)
Lemma header_text_list (lib : Library) (email_data : dict) (key : key) :
  is_list (getitem email_data To) = true ->
  exists t, header_text lib key (getitem email_data key) = inr t.
Proof.
  intros HTo. unfold header_text. destruct key; cbn [key_eqb andb];
    try (destruct (bool_of (getitem email_data _)); eexists; reflexivity).
  destruct (getitem email_data To) as [| |l| |]; try discriminate.
  destruct (bool_of (PyList l)); eexists; reflexivity.
Qed.

Lemma returns_draw_headers (lib : Library) (email_data : dict) (y : Z)
    (s : session) :
  is_list (getitem email_data To) = true ->
  returns (_draw_headers lib email_data y) s.
Proof.
  intros HTo. unfold _draw_headers. cbv zeta.
  apply returns_gfold. intros y0 key s1.
  destruct (bool_of (getitem email_data key) || key_eqb key Sent_On);
    [|apply returns_ret].
  destruct (header_text_list lib email_data key HTo) as (t & ->).
  cbn [glift]. apply returns_bind; [apply returns_ret|]. intros t' s2.
  apply returns_bind; [apply returns_emit|]. intros _ s3.
  apply returns_bind; [apply returns_emit|]. intros _ s4.
  apply returns_bind; [apply returns_emit|]. intros _ s5.
  apply returns_bind; [apply returns_draw_text|]. intros y1 s6.
  apply returns_ret.
Qed.

Lemma returns_draw_body (lib : Library) (email_data : dict) (y : Z)
    (s : session) :
  is_text (getitem email_data Body) = true ->
  returns (_draw_body lib email_data y) s.
Proof.
  intros HBody. unfold _draw_body.
  apply returns_bind.
  - destruct (getitem email_data Body); try discriminate; apply returns_ret.
  - intros paragraphs s1. apply returns_bind.
    + apply returns_gfold. intros [in_chain y0] para s2.
      apply returns_bind.
      * destruct (is_chain_marker para);
          [|destruct (in_chain && forallb isspace para)].
        -- apply returns_bind; [apply returns_emit|]. intros _ s3.
           apply returns_ret.
        -- apply returns_bind; [apply returns_emit|]. intros _ s3.
           apply returns_ret.
        -- apply returns_ret.
      * intros in_chain' s3. apply returns_bind; [apply returns_draw_text|].
        intros y1 s4. apply returns_ret.
    + intros r s2. apply returns_bind; [apply returns_emit|].
      intros _ s3. apply returns_ret.
Qed.

Lemma returns_draw_attachments (lib : Library) (attachments : list str) (y : Z)
    (s : session) :
  returns (_draw_attachments lib attachments y) s.
Proof.
  unfold _draw_attachments. destruct (truthy attachments); [|apply returns_ret].
  apply returns_bind; [apply returns_draw_text|]. intros y1 s1.
  apply returns_gfold. intros y2 attach s2. apply returns_draw_text.
Qed.

(** On a record whose ["To"] is a list and whose ["Body"] is [None] or a
    string, [generate] fails only for want of the output file. *)
Lemma generate_on_record (lib : Library) (email_data : dict)
    (attachments : list str) (output_path : str) (s : session) :
  is_list (getitem email_data To) = true ->
  is_text (getitem email_data Body) = true ->
  exists ops,
    generate lib email_data attachments output_path s
    = match pdf_open_wb lib output_path with
      | Some e =>
          (Raise e,
           {| can := ops ++ [save]; written := written s; printed := printed s |})
      | None =>
          (Return tt,
           {| can := ops ++ [save];
              written := Write output_path (PdfWriter_write lib (ops ++ [save]))
                         :: Create output_path :: written s;
              printed := SavedPdf output_path (PdfReader_pages lib (ops ++ [save]))
                         :: printed s |})
      end.
Proof.
  intros HTo HBody. unfold generate. unfold gbind at 1. unfold new_canvas at 1.
  set (s0 := {| can := []; written := written s; printed := printed s |}).
  match goal with
  | |- context [gbind ?c ?k s0] =>
      assert (D : exists ops,
                 gbind c k s0 = gbind (emit save)
                                  (fun _ => _save_pdf lib output_path)
                                  (drawn s0 ops))
  end.
  { destruct (returns_draw_headers lib email_data (height - margin - 20) s0 HTo)
      as (y1 & ops1 & H1).
    rewrite (gbind_Return _ _ _ _ _ H1). cbv zeta.
    destruct (returns_draw_body lib email_data (y1 - 10) (drawn s0 ops1) HBody)
      as (y2 & ops2 & H2).
    rewrite (gbind_Return _ _ _ _ _ H2).
    destruct (returns_draw_attachments lib attachments (y2 - 10)
                (drawn (drawn s0 ops1) ops2))
      as (y3 & ops3 & H3).
    rewrite (gbind_Return _ _ _ _ _ H3).
    destruct (negb (any_values email_data) && negb (truthy attachments)).
    - destruct (returns_draw_text lib (lit "No email content or attachments found.")
                  margin y3 false (drawn (drawn (drawn s0 ops1) ops2) ops3))
        as (y4 & ops4 & H4).
      exists (ops1 ++ ops2 ++ ops3 ++ ops4).
      unfold gbind at 1. unfold gbind at 1. rewrite H4. unfold gret at 1.
      rewrite !drawn_app. reflexivity.
    - exists (ops1 ++ ops2 ++ ops3). unfold gbind at 1. unfold gret at 1.
      rewrite !drawn_app. reflexivity. }
  destruct D as (ops & ->). exists ops.
  unfold gbind, emit, _save_pdf, drawn. subst s0. cbn [can written printed app].
  destruct (pdf_open_wb lib output_path); reflexivity.
Qed.

(** When [_process_eml] returns, ["To"] is a list and ["Body"] a string. *)
Lemma process_eml_kinds (w : World) (file_path output_dir : str) (st : state) :
  match _process_eml w file_path output_dir st with
  | (Return _, st') =>
      is_list (getitem (email_data st') To) = true
      /\ is_text (getitem (email_data st') Body) = true
  | (Raise _, _) => True
  end.
Proof.
  unfold _process_eml.
  destruct (open_rb w file_path) as [e|f]; cbn [lift]; [exact I|].
  unfold bind at 1. unfold ret at 1.
  set (msg := BytesParser_parse w f).
  unfold bind at 1. unfold set_email_data at 1, modify at 1.
  unfold bind at 1. unfold set_email_data at 1, modify at 1.
  unfold bind at 1. unfold set_email_data at 1, modify at 1.
  unfold bind at 1. unfold set_email_data at 1, modify at 1.
  match goal with
  | |- context [bind ?c _ ?s] => set (st4 := s); set (date := c)
  end.
  assert (Hk : forall k, key_eqb Sent_On k = false ->
                 getitem (email_data (snd (date st4))) k
                 = getitem (email_data st4) k).
  { intros k Hk. subst date. destruct (msg_get msg (lit "Date")) as [s|];
      [|reflexivity].
    destruct (truthy s); [|reflexivity].
    destruct (strptime w s) as [[]|[t off]]; try reflexivity;
      cbn [snd set_email_data modify email_data];
      now apply getitem_setitem_other. }
  unfold bind at 1.
  destruct (date st4) as [[[]|e] st5]; [|exact I]. cbn [snd] in Hk.
  unfold bind at 1.
  destruct (extract_eml_body_run w msg st5) as (st6 & -> & Eb).
  pose proof (eml_attachments_keep_record w output_dir (walk msg) st6) as Ea.
  rewrite <- eml_attachments_walk in Ea.
  destruct (_extract_eml_attachments w output_dir msg st6) as [[[]|e] st7];
    [|exact I].
  cbn [snd] in Ea. rewrite Ea, Eb. split.
  - rewrite getitem_setitem_other by reflexivity.
    rewrite Hk by reflexivity. subst st4. reflexivity.
  - now rewrite getitem_setitem_same.
Qed.

Lemma process_returns_kinds (w : World) (file_path output_dir : str)
    (d : dict) (a : list str) (st' : state) :
  process w file_path output_dir init = (Return (d, a), st') ->
  is_list (getitem d To) = true /\ is_text (getitem d Body) = true.
Proof.
  unfold process.
  destruct (endswith (lower file_path) (lit ".msg")).
  - destruct (process_msg_typed w file_path output_dir init eq_refl)
      as (st1 & H1 & D1).
    rewrite (bind_Return _ _ _ _ _ H1). unfold bind, get, ret.
    intros [= <- _ _].
    pose proof (proj1 (msg_record_fields _) D1) as F.
    split; [apply (F To) | apply (F Body)].
  - destruct (endswith (lower file_path) (lit ".eml")).
    + pose proof (process_eml_kinds w file_path output_dir init) as K.
      unfold bind at 1.
      destruct (_process_eml w file_path output_dir init) as [[[]|e] st1];
        [|discriminate].
      unfold bind, get, ret. now intros [= <- _ _].
    + unfold bind, get, ret. now intros [= <- _ _].
Qed.

(** X21.  The extractor and the generator fit: whenever [process] returns,
    for whatever kind of file, [generate] draws the record and the
    attachment list it returned without an exception and saves the canvas.
    [generate] then fails only if the output file cannot be opened, with the
    exception of [open] and nothing written; otherwise it writes the
    document to the output path and prints one line. *)
Theorem process_then_generate (w : World) (lib : Library)
    (file_path output_dir output_path : str)
    (d : dict) (a : list str) (st' : state) (s : session) :
  process w file_path output_dir init = (Return (d, a), st') ->
  exists ops,
    generate lib d a output_path s
    = match pdf_open_wb lib output_path with
      | Some e =>
          (Raise e,
           {| can := ops ++ [save]; written := written s; printed := printed s |})
      | None =>
          (Return tt,
           {| can := ops ++ [save];
              written := Write output_path (PdfWriter_write lib (ops ++ [save]))
                         :: Create output_path :: written s;
              printed := SavedPdf output_path (PdfReader_pages lib (ops ++ [save]))
                         :: printed s |})
      end.
Proof.
  intros H. destruct (process_returns_kinds _ _ _ _ _ _ H) as [HTo HBody].
  now apply generate_on_record.
Qed.

Lemma process_then_generate_witness :
  exists ops,
    generate
      {| wrap := fun text _ => [text];
         str_of := fun _ => [];
         pdf_open_wb := fun _ => None;
         PdfReader_pages := fun _ => 1%nat;
         PdfWriter_write := fun _ => [] |}
      {| v_From := PyNone; v_To := PyList [lit "bob"]; v_Sent_On := PyNone;
         v_CC := PyNone; v_Subject := PyStr (lit "Hi"); v_Body := PyNone |}
      []
      (lit "attachments/email_content.pdf")
      {| can := []; written := []; printed := [] |}
    = (Return tt,
       {| can := ops ++ [save];
          written := [Write (lit "attachments/email_content.pdf") [];
                      Create (lit "attachments/email_content.pdf")];
          printed := [SavedPdf (lit "attachments/email_content.pdf") 1%nat] |}).
Proof.
  apply (process_then_generate
           (world_of
              [Stream (lit "__substg1.0_0037001F") (Contents (utf16le "Hi"));
               Storage (lit "__recip_version1.0_#00000000")
                 [Stream (lit "__substg1.0_3003001F") (Contents (utf16le "bob"))]])
           {| wrap := fun text _ => [text];
              str_of := fun _ => [];
              pdf_open_wb := fun _ => None;
              PdfReader_pages := fun _ => 1%nat;
              PdfWriter_write := fun _ => [] |}
           (lit "strangeDate.msg") (lit "attachments")
           (lit "attachments/email_content.pdf")
           {| v_From := PyNone; v_To := PyList [lit "bob"]; v_Sent_On := PyNone;
              v_CC := PyNone; v_Subject := PyStr (lit "Hi"); v_Body := PyNone |}
           [] 
           {| email_data :=
                {| v_From := PyNone; v_To := PyList [lit "bob"]; v_Sent_On := PyNone;
                   v_CC := PyNone; v_Subject := PyStr (lit "Hi"); v_Body := PyNone |};
              attachments := []; files := []; stdout := [] |}
           {| can := []; written := []; printed := [] |}).
  vm_compute. reflexivity.
Defined.

(** ** What the headers show *)

(** X22.  Whatever ["Subject"] holds, computing the text of the subject
    line does not fail, and the text [_draw_headers] hands to [_draw_text],
    and so to [textwrap.wrap], has at most 50 characters: a subject string
    of more than 50 characters is cut to its first 47 characters followed
    by three periods.  (This bounds what is handed over, not the lines
    [textwrap.wrap] makes of it.) *)
Theorem header_text_subject (lib : Library) (value : value) :
  exists t,
    header_text lib Subject value = inr t
    /\ (List.length t <= 50)%nat
    /\ (forall s, value = PyStr s -> (50 < List.length s)%nat ->
                  t = firstn 47 s ++ lit "...").
Proof.
  unfold header_text. cbn [key_eqb andb].
  set (value_str := if bool_of value
                    then match value with
                         | PyStr s => s
                         | _ => str_of lib value
                         end
                    else lit "Not Found").
  assert (E : (if bool_of value
               then @inr exn str match value with
                                 | PyStr s => s
                                 | _ => str_of lib value
                                 end
               else inr (lit "Not Found")) = inr value_str)
    by (subst value_str; now destruct (bool_of value)).
  rewrite E. eexists. split; [reflexivity|]. split.
  - destruct (Z.ltb_spec 50 (Z.of_nat (List.length value_str))) as [Hlt|Hge].
    + rewrite length_app, length_firstn.
      change (List.length (lit "...")) with 3%nat. lia.
    + lia.
  - intros s -> Hs. subst value_str. cbn [bool_of].
    assert (truthy s = true) as -> by (destruct s; [cbn in Hs; lia | reflexivity]).
    destruct (Z.ltb_spec 50 (Z.of_nat (List.length s))); [reflexivity | lia].
Qed.

Lemma header_text_subject_witness :
  exists t,
    header_text
      {| wrap := fun text _ => [text];
         str_of := fun _ => [];
         pdf_open_wb := fun _ => None;
         PdfReader_pages := fun _ => 1%nat;
         PdfWriter_write := fun _ => [] |}
      Subject
      (PyStr (lit "Minutes of the quarterly planning meeting, second draft"))
    = inr t
    /\ (List.length t <= 50)%nat
    /\ (forall s,
          PyStr (lit "Minutes of the quarterly planning meeting, second draft")
          = PyStr s ->
          (50 < List.length s)%nat -> t = firstn 47 s ++ lit "...").
Proof.
  apply (header_text_subject
           {| wrap := fun text _ => [text];
              str_of := fun _ => [];
              pdf_open_wb := fun _ => None;
              PdfReader_pages := fun _ => 1%nat;
              PdfWriter_write := fun _ => [] |}
           (PyStr (lit "Minutes of the quarterly planning meeting, second draft"))).
Defined.

(** ** What the body and the attachment list show *)

(** The loop of [_draw_body]. *)
Lemma draw_body_loop_spec (lib : Library) (paragraphs : list str)
    (in_chain : bool) (y : Z) (s : session) :
  y <= 742 ->
  exists r ops,
    gfold paragraphs
      (fun '(in_chain, y) para =>
         gbind
           (if is_chain_marker para then
              gbind (emit (setFillColorRGB level_half level_half level_half))
                (fun _ => gret true)
            else if in_chain && forallb isspace para then
              gbind (emit (setFillColorRGB level_0 level_0 level_0))
                (fun _ => gret false)
            else gret in_chain)
           (fun in_chain =>
              gbind (_draw_text lib para
                       (margin + (if in_chain then 10 else 0)) y false)
                (fun y =>
                   gret (in_chain,
                         if negb (truthy para) && (margin <? y)
                         then y - line_height else y))))
      (in_chain, y) s
    = (Return r, drawn s ops)
    /\ map snd (strings ops) = flat_map (fun p => wrap lib p 76) paragraphs
    /\ Forall in_body_area (strings ops)
    /\ snd r <= 742
    /\ (in_chain = false ->
        forallb (fun p => negb (is_chain_marker p)) paragraphs = true ->
        Forall (in_text_area 30) (strings ops) /\ colours ops = []).
Proof.
  match goal with
  | |- context [gfold paragraphs ?b _] => set (body := b)
  end.
  revert in_chain y s.
  induction paragraphs as [|para paragraphs IH]; intros in_chain y s Hy.
  - exists (in_chain, y), []. cbn [gfold]. unfold gret. rewrite drawn_nil.
    split; [reflexivity|]. split; [reflexivity|]. split; [constructor|].
    split; [exact Hy|]. intros _ _. split; [constructor | reflexivity].
  - set (ic := if is_chain_marker para then true
               else if in_chain && forallb isspace para then false
                    else in_chain).
    set (pre := if is_chain_marker para
                then [setFillColorRGB level_half level_half level_half]
                else if in_chain && forallb isspace para
                     then [setFillColorRGB level_0 level_0 level_0]
                     else []).
    destruct (draw_text_spec lib para (margin + (if ic then 10 else 0)) y false
                (drawn s pre) Hy)
      as (y1 & ops1 & H1 & T1 & F1 & U1 & _ & _ & C1).
    set (y2 := if negb (truthy para) && (margin <? y1) then y1 - line_height
               else y1).
    assert (Hstep : body (in_chain, y) para s
                    = (Return (ic, y2), drawn s (pre ++ ops1))).
    { subst body ic pre y2. cbv beta iota.
      destruct (is_chain_marker para);
        [|destruct (in_chain && forallb isspace para)].
      - unfold gbind at 1. unfold gbind at 1. rewrite emit_drawn.
        unfold gret at 1. rewrite (gbind_Return _ _ _ _ _ H1).
        unfold gret. now rewrite drawn_app.
      - unfold gbind at 1. unfold gbind at 1. rewrite emit_drawn.
        unfold gret at 1. rewrite (gbind_Return _ _ _ _ _ H1).
        unfold gret. now rewrite drawn_app.
      - unfold gbind at 1. unfold gret at 1. rewrite drawn_nil in H1.
        rewrite (gbind_Return _ _ _ _ _ H1). unfold gret. reflexivity. }
    assert (Hy2 : y2 <= 742)
      by (subst y2; unfold line_height;
          destruct (negb (truthy para) && (margin <? y1)); lia).
    destruct (IH ic y2 (drawn s (pre ++ ops1)) Hy2)
      as (r & ops & H & T & F & U & N).
    exists r, ((pre ++ ops1) ++ ops).
    split.
    { cbn [gfold]. rewrite (gbind_Return _ _ _ _ _ Hstep), H, drawn_app.
      reflexivity. }
    assert (Hpre : strings pre = [])
      by (subst pre; destruct (is_chain_marker para);
          [|destruct (in_chain && forallb isspace para)]; reflexivity).
    rewrite !strings_app, Hpre. cbn [app flat_map].
    split; [now rewrite map_app, T1, T|].
    split.
    { apply Forall_app. split; [|exact F].
      revert F1. apply Forall_impl. intros p [Hx Hp]. split; [|exact Hp].
      rewrite Hx. unfold margin. destruct ic; [right | left]; reflexivity. }
    split; [exact U|].
    intros -> Hm. cbn [forallb] in Hm. apply andb_true_iff in Hm.
    destruct Hm as [Hm1 Hm2]. apply negb_true_iff in Hm1.
    subst ic pre. rewrite Hm1 in *. cbn [andb] in *.
    destruct (N eq_refl Hm2) as [N1 N2].
    split.
    + apply Forall_app. split; [exact F1 | exact N1].
    + rewrite !colours_app, C1, N2. reflexivity.
Qed.

(** X24.  [_draw_body] draws a body string paragraph by paragraph: the
    strings on the canvas are the wrapped lines of the paragraphs between
    line feeds, in order, each in the text area and either flush with the
    margin (abscissa 30) or indented (40).  A body without any paragraph
    that starts with > or mentions -----Original Message----- or From: is
    all flush with the margin, and the only colour set is the final black. *)
Theorem draw_body_paragraphs (lib : Library) (email_data : dict) (body : str)
    (y : Z) (s : session) :
  getitem email_data Body = PyStr body ->
  y <= 742 ->
  exists y' ops,
    _draw_body lib email_data y s = (Return y', drawn s ops)
    /\ map snd (strings ops)
       = flat_map (fun p => wrap lib p 76) (split_lines body [])
    /\ Forall in_body_area (strings ops)
    /\ (forallb (fun p => negb (is_chain_marker p)) (split_lines body []) = true ->
        Forall (in_text_area 30) (strings ops)
        /\ colours ops = [(level_0, level_0, level_0)]).
Proof.
  intros Hb Hy. unfold _draw_body. rewrite Hb. cbn [glift].
  unfold gbind at 1. unfold gret at 1.
  destruct (draw_body_loop_spec lib (split_lines body []) false y s Hy)
    as (r & ops & H & T & F & U & N).
  exists (snd r), (ops ++ [setFillColorRGB level_0 level_0 level_0]).
  split.
  { rewrite (gbind_Return _ _ _ _ _ H). unfold gbind, emit, gret.
    now rewrite <- drawn_app. }
  rewrite strings_app. cbn [strings flat_map]. rewrite !app_nil_r.
  split; [exact T|]. split; [exact F|].
  intros Hm. destruct (N eq_refl Hm) as [N1 N2].
  split; [exact N1|]. now rewrite colours_app, N2.
Qed.

Lemma draw_body_paragraphs_witness :
  exists y' ops,
    _draw_body
      {| wrap := fun text _ => [text];
         str_of := fun _ => [];
         pdf_open_wb := fun _ => None;
         PdfReader_pages := fun _ => 1%nat;
         PdfWriter_write := fun _ => [] |}
      {| v_From := PyNone; v_To := PyList []; v_Sent_On := PyNone;
         v_CC := PyNone; v_Subject := PyNone;
         v_Body := PyStr (lit "Hello" ++ [10] ++ lit "> quoted") |}
      700 {| can := []; written := []; printed := [] |}
    = (Return y', drawn {| can := []; written := []; printed := [] |} ops)
    /\ map snd (strings ops) = [lit "Hello"; lit "> quoted"]
    /\ Forall in_body_area (strings ops)
    /\ (false = true ->
        Forall (in_text_area 30) (strings ops)
        /\ colours ops = [(level_0, level_0, level_0)]).
Proof.
  apply (draw_body_paragraphs
           {| wrap := fun text _ => [text];
              str_of := fun _ => [];
              pdf_open_wb := fun _ => None;
              PdfReader_pages := fun _ => 1%nat;
              PdfWriter_write := fun _ => [] |}
           {| v_From := PyNone; v_To := PyList []; v_Sent_On := PyNone;
              v_CC := PyNone; v_Subject := PyNone;
              v_Body := PyStr (lit "Hello" ++ [10] ++ lit "> quoted") |}
           (lit "Hello" ++ [10] ++ lit "> quoted") 700
           {| can := []; written := []; printed := [] |}).
  - reflexivity.
  - lia.
Defined.

Lemma draw_attachment_names_loop (lib : Library) (l : list str) (y : Z)
    (s : session) :
  y <= 742 ->
  exists y' ops,
    gfold l (fun (y : Z) (attach : str) =>
               _draw_text lib (lit "- " ++ attach) (margin + 10) y false)
      y s
    = (Return y', drawn s ops)
    /\ map snd (strings ops)
       = flat_map (fun attach => wrap lib (lit "- " ++ attach) 76) l
    /\ Forall in_body_area (strings ops)
    /\ y' <= 742.
Proof.
  revert y s. induction l as [|attach l IH]; intros y s Hy; cbn [gfold flat_map].
  - exists y, []. unfold gret. rewrite drawn_nil.
    split; [reflexivity|]. split; [reflexivity|]. split; [constructor | exact Hy].
  - destruct (draw_text_spec lib (lit "- " ++ attach) (margin + 10) y false s Hy)
      as (y1 & ops1 & H1 & T1 & F1 & U1 & _).
    destruct (IH y1 (drawn s ops1) U1) as (y2 & ops2 & H2 & T2 & F2 & U2).
    exists y2, (ops1 ++ ops2).
    rewrite (gbind_Return _ _ _ _ _ H1), H2, drawn_app.
    split; [reflexivity|]. rewrite strings_app, map_app, T1, T2.
    split; [reflexivity|]. split; [|exact U2].
    apply Forall_app. split; [|exact F2].
    revert F1. apply Forall_impl. intros p [Hx Hp]. split; [|exact Hp].
    right. exact Hx.
Qed.

(** X25.  [_draw_attachments] draws nothing for an empty list; otherwise
    it draws the wrapped title Attachments: and then, in order, the wrapped
    lines of a hyphen, a space and each attachment name, the title flush
    with the margin and the names indented, all in the text area. *)
Theorem draw_attachments_lists (lib : Library) (attachments : list str)
    (y : Z) (s : session) :
  y <= 742 ->
  exists y' ops,
    _draw_attachments lib attachments y s = (Return y', drawn s ops)
    /\ map snd (strings ops) = attachment_lines lib attachments
    /\ Forall in_body_area (strings ops)
    /\ y' <= 742.
Proof.
  intros Hy. unfold _draw_attachments, attachment_lines.
  destruct attachments as [|a l]; cbn [truthy].
  - exists y, []. unfold gret. rewrite drawn_nil.
    split; [reflexivity|]. split; [reflexivity|]. split; [constructor | exact Hy].
  - destruct (draw_text_spec lib (lit "Attachments:") margin y true s Hy)
      as (y1 & ops1 & H1 & T1 & F1 & U1 & _).
    destruct (draw_attachment_names_loop lib (a :: l) y1 (drawn s ops1) U1)
      as (y2 & ops2 & H2 & T2 & F2 & U2).
    exists y2, (ops1 ++ ops2).
    rewrite (gbind_Return _ _ _ _ _ H1), H2, drawn_app.
    split; [reflexivity|]. rewrite strings_app, map_app, T1, T2.
    split; [reflexivity|]. split; [|exact U2].
    apply Forall_app. split; [|exact F2].
    revert F1. apply Forall_impl. intros p [Hx Hp]. split; [|exact Hp].
    left. exact Hx.
Qed.

Lemma draw_attachments_lists_witness :
  exists y' ops,
    _draw_attachments
      {| wrap := fun text _ => [text];
         str_of := fun _ => [];
         pdf_open_wb := fun _ => None;
         PdfReader_pages := fun _ => 1%nat;
         PdfWriter_write := fun _ => [] |}
      [lit "a.pdf"; lit "attachment_1.bin"] 60
      {| can := []; written := []; printed := [] |}
    = (Return y', drawn {| can := []; written := []; printed := [] |} ops)
    /\ map snd (strings ops)
       = [lit "Attachments:"; lit "- a.pdf"; lit "- attachment_1.bin"]
    /\ Forall in_body_area (strings ops)
    /\ y' <= 742.
Proof.
  apply (draw_attachments_lists
           {| wrap := fun text _ => [text];
              str_of := fun _ => [];
              pdf_open_wb := fun _ => None;
              PdfReader_pages := fun _ => 1%nat;
              PdfWriter_write := fun _ => [] |}
           [lit "a.pdf"; lit "attachment_1.bin"] 60
           {| can := []; written := []; printed := [] |}).
  lia.
Defined.

(** ** The text of the document *)

(** The loop of [_draw_headers]. *)
Lemma draw_headers_loop_spec (lib : Library) (email_data : dict)
    (keys : list key) (y : Z) (s : session) :
  is_list (getitem email_data To) = true ->
  y <= 742 ->
  exists y' ops,
    gfold keys
      (fun y key =>
         if bool_of (getitem email_data key) || key_eqb key Sent_On then
           gbind (glift (header_text lib key (getitem email_data key)))
             (fun value_str =>
                gbind (emit (setFont (lit "Helvetica-Bold") 12))
                  (fun _ =>
                     gbind (emit (drawString margin y (key_str key ++ lit ":")))
                       (fun _ =>
                          gbind (emit (setFont (lit "Helvetica") 12))
                            (fun _ =>
                               gbind (_draw_text lib value_str (margin + 80) y false)
                                 (fun y => gret (y - 5))))))
         else gret y)
      y s
    = (Return y', drawn s ops)
    /\ map snd (strings ops) = flat_map (header_lines lib email_data) keys
    /\ y' <= 742.
Proof.
  intros HTo. revert y s.
  induction keys as [|key keys IH]; intros y s Hy; cbn [gfold flat_map].
  - exists y, []. unfold gret. rewrite drawn_nil.
    split; [reflexivity|]. split; [reflexivity | exact Hy].
  - assert (Hstep : exists y1 ops1,
               (if bool_of (getitem email_data key) || key_eqb key Sent_On then
                  gbind (glift (header_text lib key (getitem email_data key)))
                    (fun value_str =>
                       gbind (emit (setFont (lit "Helvetica-Bold") 12))
                         (fun _ =>
                            gbind (emit (drawString margin y (key_str key ++ lit ":")))
                              (fun _ =>
                                 gbind (emit (setFont (lit "Helvetica") 12))
                                   (fun _ =>
                                      gbind (_draw_text lib value_str (margin + 80) y false)
                                        (fun y => gret (y - 5))))))
                else gret y) s
               = (Return y1, drawn s ops1)
               /\ map snd (strings ops1) = header_lines lib email_data key
               /\ y1 <= 742).
    { unfold header_lines.
      destruct (bool_of (getitem email_data key) || key_eqb key Sent_On).
      - destruct (header_text_list lib email_data key HTo) as (t & ->).
        cbn [glift].
        set (pre := [setFont (lit "Helvetica-Bold") 12;
                     drawString margin y (key_str key ++ lit ":");
                     setFont (lit "Helvetica") 12]).
        destruct (draw_text_spec lib t (margin + 80) y false (drawn s pre) Hy)
          as (y1 & ops1 & H1 & T1 & _ & U1 & _).
        exists (y1 - 5), (pre ++ ops1). split.
        { unfold gbind at 1. unfold gret at 1.
          unfold gbind at 1. rewrite emit_drawn.
          unfold gbind at 1. rewrite emit_drawn.
          unfold gbind at 1. rewrite emit_drawn.
          rewrite !drawn_app. cbn [app]. fold pre.
          rewrite (gbind_Return _ _ _ _ _ H1). unfold gret.
          now rewrite drawn_app. }
        rewrite strings_app, map_app, T1. split; [reflexivity | lia].
      - exists y, []. unfold gret. rewrite drawn_nil.
        split; [reflexivity|]. split; [reflexivity | exact Hy]. }
    destruct Hstep as (y1 & ops1 & H1 & T1 & U1).
    destruct (IH y1 (drawn s ops1) U1) as (y2 & ops2 & H2 & T2 & U2).
    exists y2, (ops1 ++ ops2).
    rewrite (gbind_Return _ _ _ _ _ H1), H2, drawn_app.
    split; [reflexivity|]. rewrite strings_app, map_app, T1, T2.
    split; [reflexivity | exact U2].
Qed.

(** What is drawn before the canvas is saved. *)
Lemma generate_draws (lib : Library) (email_data : dict)
    (attachments : list str) (k : G unit) (s : session) :
  is_list (getitem email_data To) = true ->
  is_text (getitem email_data Body) = true ->
  exists ops,
    gbind (_draw_headers lib email_data (height - margin - 20))
      (fun y =>
         gbind (_draw_body lib email_data (y - 10))
           (fun y =>
              gbind (_draw_attachments lib attachments (y - 10))
                (fun y =>
                   gbind
                     (if negb (any_values email_data) && negb (truthy attachments)
                      then gbind (_draw_text lib
                                    (lit "No email content or attachments found.")
                                    margin y false)
                             (fun _ => gret tt)
                      else gret tt)
                     (fun _ => k))))
      s
    = k (drawn s ops)
    /\ map snd (strings ops) = document_text lib email_data attachments.
Proof.
  intros HTo HBody. unfold document_text.
  assert (H0 : height - margin - 20 <= 742) by (cbn; lia).
  destruct (draw_headers_loop_spec lib email_data [From_; To; Sent_On; CC; Subject]
              (height - margin - 20) s HTo H0)
    as (y1 & ops1 & H1 & T1 & U1).
  change (_draw_headers lib email_data (height - margin - 20) s
          = (Return y1, drawn s ops1)) in H1.
  rewrite (gbind_Return _ _ _ _ _ H1).
  assert (Hb : exists y2 ops2,
             _draw_body lib email_data (y1 - 10) (drawn s ops1)
             = (Return y2, drawn (drawn s ops1) ops2)
             /\ map snd (strings ops2)
                = flat_map (fun p => wrap lib p 76)
                    (split_lines (match getitem email_data Body with
                                  | PyStr b => b
                                  | _ => []
                                  end) [])
             /\ y2 <= 742).
  { unfold _draw_body.
    set (body := match getitem email_data Body with PyStr b => b | _ => [] end).
    assert (E : match getitem email_data Body with
                | PyNone => inr (split_lines [] [])
                | PyStr body => inr (split_lines body [])
                | _ => @inl exn (list str) AttributeError
                end = inr (split_lines body []))
      by (subst body; destruct (getitem email_data Body); try discriminate;
          reflexivity).
    rewrite E. cbn [glift]. unfold gbind at 1. unfold gret at 1.
    destruct (draw_body_loop_spec lib (split_lines body []) false (y1 - 10)
                (drawn s ops1) ltac:(lia))
      as (r & ops & H & T & _ & U & _).
    exists (snd r), (ops ++ [setFillColorRGB level_0 level_0 level_0]).
    split.
    { rewrite (gbind_Return _ _ _ _ _ H). unfold gbind, emit, gret.
      now rewrite <- drawn_app. }
    rewrite strings_app. cbn [strings flat_map]. rewrite !app_nil_r.
    split; [exact T | exact U]. }
  destruct Hb as (y2 & ops2 & H2 & T2 & U2).
  rewrite (gbind_Return _ _ _ _ _ H2).
  assert (Ha : exists y3 ops3,
             _draw_attachments lib attachments (y2 - 10) (drawn (drawn s ops1) ops2)
             = (Return y3, drawn (drawn (drawn s ops1) ops2) ops3)
             /\ map snd (strings ops3) = attachment_lines lib attachments
             /\ y3 <= 742).
  { unfold _draw_attachments, attachment_lines.
    destruct attachments as [|a l]; cbn [truthy].
    - exists (y2 - 10), []. unfold gret. rewrite drawn_nil.
      split; [reflexivity|]. split; [reflexivity | lia].
    - destruct (draw_text_spec lib (lit "Attachments:") margin (y2 - 10) true
                  (drawn (drawn s ops1) ops2) ltac:(lia))
        as (y3 & ops3 & H3 & T3 & _ & U3 & _).
      destruct (draw_attachment_names_loop lib (a :: l) y3
                  (drawn (drawn (drawn s ops1) ops2) ops3) U3)
        as (y4 & ops4 & H4 & T4 & _ & U4).
      exists y4, (ops3 ++ ops4).
      rewrite (gbind_Return _ _ _ _ _ H3), H4, drawn_app.
      split; [reflexivity|]. rewrite strings_app, map_app, T3, T4.
      split; [reflexivity | exact U4]. }
  destruct Ha as (y3 & ops3 & H3 & T3 & U3).
  rewrite (gbind_Return _ _ _ _ _ H3).
  destruct (negb (any_values email_data) && negb (truthy attachments)).
  - destruct (draw_text_spec lib (lit "No email content or attachments found.")
                margin y3 false (drawn (drawn (drawn s ops1) ops2) ops3) U3)
      as (y4 & ops4 & H4 & T4 & _).
    exists (ops1 ++ ops2 ++ ops3 ++ ops4). split.
    + unfold gbind at 1. unfold gbind at 1. rewrite H4. unfold gret at 1.
      now rewrite !drawn_app.
    + rewrite !strings_app, !map_app, T1, T2, T3, T4. reflexivity.
  - exists (ops1 ++ ops2 ++ ops3). split.
    + unfold gbind at 1. unfold gret at 1. now rewrite !drawn_app.
    + rewrite !strings_app, !map_app, T1, T2, T3, app_nil_r. reflexivity.
Qed.

(** X23.  The text of the document.  For a record whose ["To"] is a list
    and whose ["Body"] is [None] or a string, as [process] returns them, the
    strings on the canvas [generate] leaves are, in this order: for each of
    From, To, Sent On, CC and Subject that is shown its label and the
    wrapped value (["Sent On"] is always shown, as Not Found when unset, the
    others only when they hold something); the wrapped paragraphs of the
    body; the attachment list under its title; and, only when the record
    holds nothing and no attachment is listed, the sentence No email content
    or attachments found. -- whether or not the file can be written. *)
Theorem generate_document_text (lib : Library) (email_data : dict)
    (attachments : list str) (output_path : str) (s : session) :
  is_list (getitem email_data To) = true ->
  is_text (getitem email_data Body) = true ->
  map snd (strings (can (snd (generate lib email_data attachments output_path s))))
  = document_text lib email_data attachments.
Proof.
  intros HTo HBody. unfold generate. unfold gbind at 1. unfold new_canvas at 1.
  set (s0 := {| can := []; written := written s; printed := printed s |}).
  destruct (generate_draws lib email_data attachments
              (gbind (emit save) (fun _ => _save_pdf lib output_path)) s0
              HTo HBody)
    as (ops & H & T).
  cbv zeta. rewrite H.
  unfold gbind, emit, _save_pdf, drawn. subst s0. cbn [can written printed app].
  destruct (pdf_open_wb lib output_path); cbn [snd can];
    rewrite strings_app; cbn [strings flat_map]; rewrite app_nil_r; exact T.
Qed.

Lemma generate_document_text_witness :
  map snd
    (strings
       (can (snd (generate
                    {| wrap := fun text _ => if truthy text then [text] else [];
                       str_of := fun _ => [];
                       pdf_open_wb := fun _ => Some OSError;
                       PdfReader_pages := fun _ => 1%nat;
                       PdfWriter_write := fun _ => [] |}
                    {| v_From := PyNone; v_To := PyList []; v_Sent_On := PyNone;
                       v_CC := PyNone; v_Subject := PyNone; v_Body := PyNone |}
                    [] (lit "out.pdf")
                    {| can := []; written := []; printed := [] |}))))
  = [lit "Sent On:"; lit "Not Found";
     lit "No email content or attachments found."].
Proof.
  apply (generate_document_text
           {| wrap := fun text _ => if truthy text then [text] else [];
              str_of := fun _ => [];
              pdf_open_wb := fun _ => Some OSError;
              PdfReader_pages := fun _ => 1%nat;
              PdfWriter_write := fun _ => [] |}
           {| v_From := PyNone; v_To := PyList []; v_Sent_On := PyNone;
              v_CC := PyNone; v_Subject := PyNone; v_Body := PyNone |}
           [] (lit "out.pdf")
           {| can := []; written := []; printed := [] |}).
  - reflexivity.
  - reflexivity.
Defined.
